(** * Waydroid Helper backend: a shallow embedding of [backend/backend.py]

    The development follows the three classes of the source:
    - [WaydroidDBHandler]: the SQLite store (settings, app_visibility,
      resource_logs), modelled as finite maps keyed by the PRIMARY KEY
      columns and a list of rows carrying their rowid;
    - [WaydroidController]: operations on the container, the desktop
      entries and the backups, modelled in a state-and-exception monad
      over a [world] that records every external effect in a trace;
    - [WaydroidDBusService]: the bus methods and the monitor loop.

    Modelling conventions.
    - Python floats are represented by exact rationals [Q]; no statement
      below depends on rounding.
    - External processes are described by an [outcome] per argument
      vector: what the operating system answers when the command is
      launched. The code's own effects (files it writes, rows it stores,
      log lines, signals, sleeps) are state changes and trace events.
    - Text files hold the characters a text-mode [read] returns, and
      the output of a command is the text [decode('utf-8')] gives.
    - Errors of [sqlite3] and of the bus are outside the model: the
      handler's tables exist once [__init__] has run
      [_ensure_db_exists], and a signal is emitted by being recorded.
    - The clock is read from the world; only [time.sleep] moves it. *)

From Stdlib Require Import ZArith QArith String Ascii List Lia.
From stdpp Require Import base gmap strings list sorting pretty.

Open Scope Z_scope.
Open Scope string_scope.

(** ** Python string helpers *)

Module Py.

(** [needle in hay] *)
Fixpoint contains (needle hay : string) : bool :=
  String.prefix needle hay ||
  match hay with
  | EmptyString => false
  | String _ rest => contains needle rest
  end.

(** [s.startswith(p)] *)
Definition startswith (p s : string) : bool := String.prefix p s.

(** [s.endswith(p)] *)
Definition endswith (p s : string) : bool :=
  String.prefix (String.rev p) (String.rev s).

Definition lower_ascii (c : ascii) : ascii :=
  let n := nat_of_ascii c in
  if (65 <=? n)%nat && (n <=? 90)%nat then ascii_of_nat (n + 32) else c.

(** [s.lower()], on ASCII text *)
Fixpoint lower (s : string) : string :=
  match s with
  | EmptyString => EmptyString
  | String c rest => String (lower_ascii c) (lower rest)
  end.

Definition newline : ascii := "010"%char.
Definition nl : string := String newline EmptyString.

(** [f.readlines()]: the text cut after every newline; a last line
    without newline is kept as it is. *)
Fixpoint readlines (s : string) : list string :=
  match s with
  | EmptyString => []
  | String c rest =>
      if Ascii.eqb c newline then String c EmptyString :: readlines rest
      else match readlines rest with
           | [] => [String c EmptyString]
           | l :: ls => String c l :: ls
           end
  end.

(** A complete line: characters other than newline, then one newline. *)
Fixpoint is_line (s : string) : bool :=
  match s with
  | EmptyString => false
  | String c rest =>
      if Ascii.eqb c newline then String.eqb rest EmptyString
      else is_line rest
  end.

(** successive [f.write(line)] calls *)
Definition writelines (ls : list string) : string :=
  foldr String.append EmptyString ls.

(** [str(b).lower()] for a boolean *)
Definition str_bool_lower (b : bool) : string :=
  if b then "true" else "false".

(** Values handed to [str()] by the source. *)
Inductive value :=
| VStr (s : string)
| VInt (z : Z).

Definition str (v : value) : string :=
  match v with
  | VStr s => s
  | VInt z => pretty z
  end.

(** [os.path.join(a, b)] *)
Definition path_join (a b : string) : string :=
  if startswith "/" b then b
  else if String.eqb a "" || endswith "/" a then a +:+ b
  else a +:+ "/" +:+ b.

(** [posixpath.split]: cut at the last slash; the head loses its
    trailing slashes unless it consists of slashes only. *)
Fixpoint split_last_slash (s : string) : option (string * string) :=
  match s with
  | EmptyString => None
  | String c rest =>
      match split_last_slash rest with
      | Some (h, t) => Some (String c h, t)
      | None => if Ascii.eqb c "/" then Some (EmptyString, rest) else None
      end
  end.

Fixpoint lstrip_slashes (s : string) : string :=
  match s with
  | String c rest => if Ascii.eqb c "/" then lstrip_slashes rest else s
  | EmptyString => EmptyString
  end.

Definition rstrip_slashes (s : string) : string :=
  String.rev (lstrip_slashes (String.rev s)).

Definition path_split (p : string) : string * string :=
  match split_last_slash p with
  | None => (EmptyString, p)
  | Some (h, t) =>
      let head := h +:+ "/" in
      (if String.eqb (rstrip_slashes head) EmptyString then head
       else rstrip_slashes head, t)
  end.

(** [os.path.dirname] and [os.path.basename] *)
Definition dirname (p : string) : string := (path_split p).1.
Definition basename (p : string) : string := (path_split p).2.

End Py.

(** ** WaydroidDBHandler *)

(** A row of [resource_logs]. *)
Record sample := Sample {
  timestamp : Z;
  cpu_usage : Q;
  ram_usage : Q;
  storage_usage : Q
}.

(** A row of [app_visibility] without its key: [app_name] and the
    INTEGER column [visible]. *)
Definition app_row : Type := string * Z.

(** The database file before the handler opens it: each table may be
    missing. [sqlite3.connect] on a fresh path gives [fresh_file]. *)
Record db_file := DbFile {
  file_settings : option (gmap string string);
  file_app_visibility : option (gmap string app_row);
  file_resource_logs : option (list (Z * sample))
}.

Definition fresh_file : db_file := DbFile None None None.

(** The store of a constructed handler. [settings] and [app_visibility]
    are keyed by their PRIMARY KEY column; [resource_logs] has no key, so
    its rows are listed in rowid order together with their rowid. *)
Record database := Database {
  settings : gmap string string;
  app_visibility : gmap string app_row;
  resource_logs : list (Z * sample)
}.

Definition on_disk (db : database) : db_file :=
  DbFile (Some (settings db)) (Some (app_visibility db))
         (Some (resource_logs db)).

Module Sql.

(** [CREATE TABLE IF NOT EXISTS] *)
Definition create_table_if_not_exists {T : Type} (empty : T)
    (table : option T) : T :=
  match table with
  | Some t => t
  | None => empty
  end.

(** [INSERT OR IGNORE INTO t (key, value)] *)
Definition insert_or_ignore {V : Type} (k : string) (v : V)
    (t : gmap string V) : gmap string V :=
  match t !! k with
  | Some _ => t
  | None => <[k := v]> t
  end.

(** [INSERT OR REPLACE INTO t (key, value)] *)
Definition insert_or_replace {V : Type} (k : string) (v : V)
    (t : gmap string V) : gmap string V :=
  <[k := v]> t.

(** The rowid SQLite gives to a new row: one more than the largest
    rowid in use, 1 in an empty table. *)
Definition next_rowid {R : Type} (t : list (Z * R)) : Z :=
  foldr Z.max 0 (t.*1) + 1.

(** [INSERT INTO t] for a table without key. *)
Definition insert {R : Type} (r : R) (t : list (Z * R)) : list (Z * R) :=
  t ++ [(next_rowid t, r)].

(** [ORDER BY timestamp DESC]: the newer row comes first. *)
Definition newer_first (a b : Z * sample) : Prop :=
  timestamp b.2 <= timestamp a.2.

#[global] Instance newer_first_dec a b : Decision (newer_first a b).
Proof. unfold newer_first. apply _. Defined.

(** [SELECT rowid FROM resource_logs ORDER BY timestamp DESC LIMIT n] *)
Definition select_newest_rowids (n : nat) (t : list (Z * sample)) : list Z :=
  (take n (merge_sort newer_first t)).*1.

(** [DELETE FROM resource_logs WHERE rowid NOT IN keep] *)
Definition delete_rowid_not_in {R : Type} (keep : list Z)
    (t : list (Z * R)) : list (Z * R) :=
  filter (λ r, r.1 ∈ keep) t.

End Sql.

Module WaydroidDBHandler.

(** The dictionary [default_settings] (backend.py, lines 77-82), in
    insertion order. *)
Definition default_settings (now : Z) : list (string * string) :=
  [ ("auto_start", "0");
    ("auto_update", "0");
    ("last_update_check", Py.str (Py.VInt now));
    ("last_backup_time", "0") ].

(** [_ensure_db_exists] (lines 42-91), run at time [now] on the file at
    [db_path]. *)
Definition _ensure_db_exists (now : Z) (f : db_file) : database :=
  let s := Sql.create_table_if_not_exists ∅ (file_settings f) in
  let a := Sql.create_table_if_not_exists ∅ (file_app_visibility f) in
  let r := Sql.create_table_if_not_exists [] (file_resource_logs f) in
  let s' := foldl (λ t kv, Sql.insert_or_ignore kv.1 kv.2 t) s
                  (default_settings now) in
  Database s' a r.

(** [__init__] (lines 37-40): the handler's store is what
    [_ensure_db_exists] leaves. *)
Definition init (now : Z) (f : db_file) : database :=
  _ensure_db_exists now f.

(** [get_setting] (lines 93-102): [None] is Python's [None]. *)
Definition get_setting (key : string) (db : database) : option string :=
  settings db !! key.

(** [set_setting] (lines 104-115) *)
Definition set_setting (key : string) (value : Py.value) (db : database)
    : database :=
  Database (Sql.insert_or_replace key (Py.str value) (settings db))
           (app_visibility db) (resource_logs db).

(** [get_app_visibility] (lines 117-127): the rows as
    (package_name, (app_name, visible)). *)
Definition get_app_visibility (db : database) : list (string * app_row) :=
  map_to_list (app_visibility db).

(** [set_app_visibility] (lines 129-140) *)
Definition set_app_visibility (package_name app_name : string)
    (visible : bool) (db : database) : database :=
  Database (settings db)
           (Sql.insert_or_replace package_name
              (app_name, if visible then 1 else 0) (app_visibility db))
           (resource_logs db).

(** [log_resource_usage] (lines 142-158), run at time [now]. *)
Definition log_resource_usage (now : Z) (cpu ram storage : Q)
    (db : database) : database :=
  let t := Sql.insert (Sample now cpu ram storage) (resource_logs db) in
  let keep := Sql.select_newest_rowids 100 t in
  Database (settings db) (app_visibility db)
           (Sql.delete_rowid_not_in keep t).

End WaydroidDBHandler.

(** ** The world around the process *)

(** Exceptions the source can meet. *)
Inductive exn :=
| FileNotFoundError
| PermissionError
| NotADirectoryError
| CalledProcessError (returncode : Z)
| AttributeError
| TypeError
| ZeroDivisionError.

Definition show_exn (e : exn) : string :=
  match e with
  | FileNotFoundError => "FileNotFoundError"
  | PermissionError => "PermissionError"
  | NotADirectoryError => "NotADirectoryError"
  | CalledProcessError c => "CalledProcessError " +:+ pretty c
  | AttributeError => "AttributeError"
  | TypeError => "TypeError"
  | ZeroDivisionError => "ZeroDivisionError"
  end.

Definition argv : Type := list string.

(** What launching an external command gives. *)
Inductive outcome :=
| Missing                                   (* no such executable *)
| Denied                                    (* not allowed to execute it *)
| Exited (returncode : Z) (stdout : string) (* ran and ended *).

(** What the process does to the outside, in order. [ERun] is a command
    the code launches and waits for ([subprocess.run],
    [subprocess.check_output]); [EPopen] is a command it launches and
    leaves running. Both are recorded when the call is made, whatever
    its outcome. [ESignal] is the bus signal [ResourceUsageChanged]. *)
Inductive event :=
| ERun (cmd : argv)
| EPopen (cmd : argv)
| EMakedirs (path : string)
| ELogError (msg : string)
| ESleep (seconds : Z)
| ESignal (cpu ram storage : Q).

(** A process as [psutil.process_iter(['pid', 'name', 'cmdline'])] shows
    it; a field psutil may not read is [None]; [cpu_percent] and [rss]
    are [None] when the later call on the process raises. *)
Record process := Process {
  proc_name : option string;
  proc_cmdline : option (list string);
  proc_cpu_percent : option Q;
  proc_rss : option Z
}.

Set Warnings "-register-all".

(** A directory entry as [os.scandir] sees it. [Dir None] is a directory
    that may not be listed. *)
Inductive node :=
| File (size : Z)
| Dir (entries : option (list node))
| Other.

(** A file of the desktop-entry directory. [readable = false] stands for
    any error of [open(path, 'r')], [writable = false] for any error of
    [open(path, 'w')]. *)
Record text_file := TextFile {
  content : string;
  readable : bool;
  writable : bool
}.

Record world := World {
  w_db : database;                        (* the handler's store *)
  w_clock : Z;                            (* int(time.time()) *)
  w_strftime : Z -> string;               (* time.strftime('%Y-%m-%d_%H-%M-%S') *)
  w_home : string;                        (* expansion of ~ *)
  w_exec : argv -> outcome;               (* launching a command *)
  w_processes : list process;             (* psutil.process_iter *)
  w_cpu_count : option Z;                 (* psutil.cpu_count() *)
  w_data : option node;                   (* WAYDROID_DATA_PATH, if it exists *)
  w_apps : option (list (string * text_file)); (* WAYDROID_APPS_PATH, if it exists *)
  w_listdir_backups : option (list string);    (* os.listdir(BACKUP_PATH) *)
  w_isdir : string -> bool;               (* os.path.isdir *)
  w_getmtime : string -> Z;               (* os.path.getmtime *)
  w_exists : string -> bool;              (* os.path.exists, on archives *)
  w_makedirs : string -> option exn;      (* error of os.makedirs, if any *)
  w_trace : list event
}.

Definition with_db (db : database) (w : world) : world :=
  World db (w_clock w) (w_strftime w) (w_home w) (w_exec w) (w_processes w)
        (w_cpu_count w) (w_data w) (w_apps w) (w_listdir_backups w)
        (w_isdir w) (w_getmtime w) (w_exists w) (w_makedirs w) (w_trace w).

Definition with_clock (t : Z) (w : world) : world :=
  World (w_db w) t (w_strftime w) (w_home w) (w_exec w) (w_processes w)
        (w_cpu_count w) (w_data w) (w_apps w) (w_listdir_backups w)
        (w_isdir w) (w_getmtime w) (w_exists w) (w_makedirs w) (w_trace w).

Definition with_apps (a : option (list (string * text_file))) (w : world)
    : world :=
  World (w_db w) (w_clock w) (w_strftime w) (w_home w) (w_exec w)
        (w_processes w) (w_cpu_count w) (w_data w) a (w_listdir_backups w)
        (w_isdir w) (w_getmtime w) (w_exists w) (w_makedirs w) (w_trace w).

Definition with_trace (t : list event) (w : world) : world :=
  World (w_db w) (w_clock w) (w_strftime w) (w_home w) (w_exec w)
        (w_processes w) (w_cpu_count w) (w_data w) (w_apps w)
        (w_listdir_backups w) (w_isdir w) (w_getmtime w) (w_exists w)
        (w_makedirs w) t.

(** ** A state-and-exception monad *)

Inductive result (A : Type) :=
| Ok (a : A)
| Raise (e : exn).
Arguments Ok {A} a.
Arguments Raise {A} e.

Definition M (A : Type) : Type := world -> result A * world.

Definition ret {A : Type} (a : A) : M A := fun w => (Ok a, w).

Definition bind {A B : Type} (m : M A) (k : A -> M B) : M B :=
  fun w =>
    match m w with
    | (Ok a, w') => k a w'
    | (Raise e, w') => (Raise e, w')
    end.

Definition raise {A : Type} (e : exn) : M A := fun w => (Raise e, w).

(** [try: m  except Exception as e: h e]. What [m] did before raising
    stays done. *)
Definition try_except {A : Type} (m : M A) (h : exn -> M A) : M A :=
  fun w =>
    match m w with
    | (Ok a, w') => (Ok a, w')
    | (Raise e, w') => h e w'
    end.

Declare Scope py_scope.
Delimit Scope py_scope with py.
Notation "x <- m ;; k" := (bind m (fun x => k))
  (at level 100, m at next level, right associativity) : py_scope.
Notation "m ;; k" := (bind m (fun _ => k))
  (at level 100, right associativity) : py_scope.
Open Scope py_scope.

Definition emit (e : event) : M unit :=
  fun w => (Ok tt, with_trace (w_trace w ++ [e]) w).

Definition get_world : M world := fun w => (Ok w, w).

(** A call on the handler. *)
Definition db_exec (f : database -> database) : M unit :=
  fun w => (Ok tt, with_db (f (w_db w)) w).

(** [logger.error(msg)] *)
Definition log_error (msg : string) : M unit := emit (ELogError msg).

(** [time.sleep(n)] *)
Definition sleep (n : Z) : M unit :=
  fun w => (Ok tt, with_clock (w_clock w + n)
                     (with_trace (w_trace w ++ [ESleep n]) w)).

(** [try: m  except E1: ...  except E2: ...]: [h e] is the handler of the
    first clause that matches [e], if one does. *)
Definition try_except_on {A : Type} (m : M A) (h : exn -> option (M A))
    : M A :=
  fun w =>
    match m w with
    | (Ok a, w') => (Ok a, w')
    | (Raise e, w') =>
        match h e with
        | Some k => k w'
        | None => (Raise e, w')
        end
    end.

(** [when c m]: [if c: m] *)
Definition when (c : bool) (m : M unit) : M unit :=
  if c then m else ret tt.

(** [for x in l: body x] *)
Fixpoint for_each {A : Type} (l : list A) (body : A -> M unit) : M unit :=
  match l with
  | [] => ret tt
  | x :: rest => body x ;; for_each rest body
  end.

Module subprocess.

Definition launch (cmd : argv) : M outcome :=
  fun w =>
    match w_exec w cmd with
    | Missing => (Raise FileNotFoundError, w)
    | Denied => (Raise PermissionError, w)
    | o => (Ok o, w)
    end.

(** [subprocess.check_output(cmd)]: the output of a command that ends
    with status 0. *)
Definition check_output (cmd : argv) : M string :=
  emit (ERun cmd) ;;
  o <- launch cmd ;;
  match o with
  | Exited 0 out => ret out
  | Exited c _ => raise (CalledProcessError c)
  | _ => raise FileNotFoundError
  end.

(** [subprocess.run(cmd, check=True)] *)
Definition run_check (cmd : argv) : M unit :=
  emit (ERun cmd) ;;
  o <- launch cmd ;;
  match o with
  | Exited 0 _ => ret tt
  | Exited c _ => raise (CalledProcessError c)
  | _ => raise FileNotFoundError
  end.

(** [subprocess.Popen(cmd)]: the command is launched and not waited for,
    so its exit status is never looked at. *)
Definition Popen (cmd : argv) : M unit :=
  emit (EPopen cmd) ;;
  _ <- launch cmd ;;
  ret tt.

End subprocess.

(** [os.makedirs(path, exist_ok=True)] *)
Definition makedirs (path : string) : M unit :=
  emit (EMakedirs path) ;;
  w <- get_world ;;
  match w_makedirs w path with
  | Some e => raise e
  | None => ret tt
  end.

(** ** Constants (lines 28-32) *)

Definition WAYDROID_DATA_PATH : string := "/var/lib/waydroid".

(** [os.path.expanduser('~/...')] with [~] standing for [home]. *)
Definition WAYDROID_APPS_PATH (home : string) : string :=
  home +:+ "/.local/share/applications/waydroid".

Definition BACKUP_PATH (home : string) : string :=
  home +:+ "/Documents/WaydroidBackups".

(** ** WaydroidController *)

Module WaydroidController.

(** [is_container_running] (lines 167-176). An exception that is neither
    [CalledProcessError] nor [FileNotFoundError] is not caught. *)
Definition is_container_running : M bool :=
  try_except_on
    (output <- subprocess.check_output ["waydroid"; "status"] ;;
     ret (Py.contains "RUNNING" output))
    (fun e =>
       match e with
       | CalledProcessError _ => Some (ret false)
       | FileNotFoundError =>
           Some (log_error "Waydroid command not found. Is Waydroid installed?" ;;
                 ret false)
       | _ => None
       end).

(** [start_container] (lines 178-185) *)
Definition start_container : M bool :=
  try_except
    (subprocess.Popen ["waydroid"; "session"; "start"] ;;
     ret true)
    (fun e =>
       log_error ("Failed to start container: " +:+ show_exn e) ;;
       ret false).

(** [stop_container] (lines 187-194) *)
Definition stop_container : M bool :=
  try_except
    (subprocess.run_check ["waydroid"; "session"; "stop"] ;;
     ret true)
    (fun e =>
       log_error ("Failed to stop container: " +:+ show_exn e) ;;
       ret false).

(** [restart_container] (lines 196-205) *)
Definition restart_container : M bool :=
  try_except
    (stop_container ;;
     sleep 2 ;;
     start_container ;;
     ret true)
    (fun e =>
       log_error ("Failed to restart container: " +:+ show_exn e) ;;
       ret false).

(** [freeze_container] (lines 207-214) *)
Definition freeze_container : M bool :=
  try_except
    (subprocess.run_check ["waydroid"; "container"; "freeze"] ;;
     ret true)
    (fun e =>
       log_error ("Failed to freeze container: " +:+ show_exn e) ;;
       ret false).

(** [unfreeze_container] (lines 216-223) *)
Definition unfreeze_container : M bool :=
  try_except
    (subprocess.run_check ["waydroid"; "container"; "unfreeze"] ;;
     ret true)
    (fun e =>
       log_error ("Failed to unfreeze container: " +:+ show_exn e) ;;
       ret false).

(** The test of the first loop of [get_container_resource_usage]
    (lines 234-237):
    ['waydroid' in name.lower() or any('waydroid' in cmd.lower() ...)].
    A name that is [None] has no [lower]; a command line that is [None]
    cannot be iterated. *)
Definition is_waydroid_process (p : process) : exn + bool :=
  match proc_name p with
  | None => inl AttributeError
  | Some n =>
      if Py.contains "waydroid" (Py.lower n) then inr true
      else match proc_cmdline p with
           | None => inl TypeError
           | Some cl =>
               inr (existsb (fun cmd => Py.contains "waydroid" (Py.lower cmd))
                      (List.filter (fun cmd => negb (String.eqb cmd "")) cl))
           end
  end.

Fixpoint waydroid_processes (ps : list process) : exn + list process :=
  match ps with
  | [] => inr []
  | p :: rest =>
      match is_waydroid_process p with
      | inl e => inl e
      | inr hit =>
          match waydroid_processes rest with
          | inl e => inl e
          | inr sel => inr (if hit then p :: sel else sel)
          end
      end
  end.

(** [total += f(proc)] over the selected processes (lines 240-245 and
    249-254), a call that raises being passed over ([except: pass]). *)
Definition total_of {A : Type} (f : process -> option A) (add : A -> A -> A)
    (zero : A) (ps : list process) : A :=
  foldl (fun acc p => match f p with Some x => add acc x | None => acc end)
        zero ps.

(** [_get_dir_size(path)] (lines 273-282) where [path] is the node [n]. *)
Fixpoint _get_dir_size (n : node) : exn + Z :=
  match n with
  | Dir (Some entries) =>
      (fix scan (es : list node) : exn + Z :=
         match es with
         | [] => inr 0
         | e :: rest =>
             let here :=
               match e with
               | File size => inr size
               | Dir _ => _get_dir_size e
               | Other => inr 0
               end in
             match here with
             | inl x => inl x
             | inr a =>
                 match scan rest with
                 | inl x => inl x
                 | inr b => inr (a + b)
                 end
             end
         end) entries
  | Dir None => inl PermissionError
  | File _ | Other => inl NotADirectoryError
  end.

(** The [try] block of [get_container_resource_usage] (lines 227-262):
    the values of the
    locals [cpu_usage], [ram_usage], [storage_usage] when the block is
    left, and the exception that ended it, if one did. The locals start
    at 0 and are assigned in this order. *)
Definition measure (w : world) : (Q * Q * Q) * option exn :=
  match waydroid_processes (w_processes w) with
  | inl e => ((0, 0, 0)%Q, Some e)
  | inr procs =>
      let total_cpu := total_of proc_cpu_percent Qplus 0%Q procs in
      let cpu :=
        if Qle_bool total_cpu 0 then inr 0%Q
        else match w_cpu_count w with
             | None => inl TypeError
             | Some 0 => inl ZeroDivisionError
             | Some n => inr (total_cpu / inject_Z n)%Q
             end in
      match cpu with
      | inl e => ((0, 0, 0)%Q, Some e)
      | inr cpu_usage =>
          let total_ram := total_of proc_rss Z.add 0 procs in
          let ram_usage := (inject_Z total_ram / inject_Z (1024 * 1024))%Q in
          match w_data w with
          | None => ((cpu_usage, ram_usage, 0)%Q, None)
          | Some n =>
              match _get_dir_size n with
              | inl e => ((cpu_usage, ram_usage, 0)%Q, Some e)
              | inr size =>
                  ((cpu_usage, ram_usage,
                    inject_Z size / inject_Z (1024 * 1024 * 1024))%Q, None)
              end
          end
      end
  end.

(** [get_container_resource_usage] (lines 225-271). The returned
    dictionary is the triple (cpu_usage, ram_usage, storage_usage). *)
Definition get_container_resource_usage : M (Q * Q * Q) :=
  w <- get_world ;;
  let '((cpu_usage, ram_usage, storage_usage), err) := measure w in
  match err with
  | Some e => log_error ("Failed to get resource usage: " +:+ show_exn e)
  | None => ret tt
  end ;;
  db_exec (WaydroidDBHandler.log_resource_usage (w_clock w)
             cpu_usage ram_usage storage_usage) ;;
  ret (cpu_usage, ram_usage, storage_usage).

(** *** Desktop entries *)

Fixpoint lookup_file (name : string) (l : list (string * text_file))
    : option text_file :=
  match l with
  | [] => None
  | (n, f) :: rest => if String.eqb n name then Some f else lookup_file name rest
  end.

(** [open(path, 'r')] then [read()], for the file [name] of the
    desktop-entry directory. *)
Definition read_text (name : string) : M string :=
  w <- get_world ;;
  match w_apps w with
  | None => raise FileNotFoundError
  | Some files =>
      match lookup_file name files with
      | None => raise FileNotFoundError
      | Some f => if readable f then ret (content f) else raise PermissionError
      end
  end.

Definition store_file (name text : string) (l : list (string * text_file))
    : list (string * text_file) :=
  match lookup_file name l with
  | None => l ++ [(name, TextFile text true true)]
  | Some _ =>
      List.map (fun nf : string * text_file =>
                  if String.eqb nf.1 name
                  then (nf.1, TextFile text (readable nf.2) (writable nf.2))
                  else nf) l
  end.

(** [open(path, 'w')] and the writes that follow, for the file [name]. *)
Definition write_text (name text : string) : M unit :=
  w <- get_world ;;
  match w_apps w with
  | None => raise FileNotFoundError
  | Some files =>
      match lookup_file name files with
      | Some f =>
          if writable f
          then (fun w' => (Ok tt, with_apps (Some (store_file name text files)) w'))
          else raise PermissionError
      | None =>
          fun w' => (Ok tt, with_apps (Some (store_file name text files)) w')
      end
  end.

(** The first loop of [set_app_visibility] (lines 335-343): the
    [.desktop] files whose text contains the package name. A file is
    named by its entry in the directory. *)
Fixpoint find_desktop_files (package_name : string) (names : list string)
    : M (list string) :=
  match names with
  | [] => ret []
  | file_name :: rest =>
      hit <- (if Py.endswith ".desktop" file_name
              then (text <- read_text file_name ;;
                    ret (Py.contains package_name text))
              else ret false) ;;
      more <- find_desktop_files package_name rest ;;
      ret (if hit then file_name :: more else more)
  end.

(** The lines written back for one file (lines 350-360): every line that
    starts with
    [NoDisplay=] is replaced, the others are copied, and the flag is
    written at the end when no line carried it. *)
Definition no_display_line (visible : bool) : string :=
  "NoDisplay=" +:+ Py.str_bool_lower (negb visible) +:+ Py.nl.

Definition rewrite_lines (visible : bool) (lines : list string)
    : list string :=
  let out :=
    List.map (fun line =>
                if Py.startswith "NoDisplay=" line
                then no_display_line visible else line) lines in
  let no_display_found := existsb (Py.startswith "NoDisplay=") lines in
  if no_display_found then out else out ++ [no_display_line visible].

(** The body of the second loop of [set_app_visibility] (lines 346-360). *)
Definition update_desktop_file (visible : bool) (file_name : string)
    : M unit :=
  text <- read_text file_name ;;
  let lines := Py.readlines text in
  write_text file_name (Py.writelines (rewrite_lines visible lines)).

(** [set_app_visibility] (lines 328-365) *)
Definition set_app_visibility (package_name app_name : string)
    (visible : bool) : M bool :=
  try_except
    (db_exec (WaydroidDBHandler.set_app_visibility package_name app_name visible) ;;
     w <- get_world ;;
     desktop_files <-
       match w_apps w with
       | Some files => find_desktop_files package_name (files.*1)
       | None => ret []
       end ;;
     for_each desktop_files (update_desktop_file visible) ;;
     ret true)
    (fun e =>
       log_error ("Failed to set app visibility: " +:+ show_exn e) ;;
       ret false).

(** *** Backup and restore *)

Definition data_archive (backup_dir : string) : string :=
  Py.path_join backup_dir "waydroid_data.tar.gz".

Definition apps_archive (backup_dir : string) : string :=
  Py.path_join backup_dir "waydroid_apps.tar.gz".

(** [os.path.exists] on the data or the desktop-entry directory. *)
Definition path_exists {A : Type} (dir : option A) : bool :=
  match dir with
  | Some _ => true
  | None => false
  end.

(** The timestamped directory [backup_data] writes to. *)
Definition new_backup_dir (w : world) : string :=
  Py.path_join (BACKUP_PATH (w_home w))
    ("waydroid_backup_" +:+ w_strftime w (w_clock w)).

(** The two values of the local [backup_cmd]. *)
Definition backup_cmd_data (backup_dir : string) : argv :=
  ["sudo"; "tar"; "czf"; data_archive backup_dir;
   "-C"; Py.dirname WAYDROID_DATA_PATH; Py.basename WAYDROID_DATA_PATH].

Definition backup_cmd_apps (home backup_dir : string) : argv :=
  ["tar"; "czf"; apps_archive backup_dir;
   "-C"; Py.dirname (WAYDROID_APPS_PATH home);
   Py.basename (WAYDROID_APPS_PATH home)].

(** [backup_data] (lines 367-413) *)
Definition backup_data : M bool :=
  try_except
    (w <- get_world ;;
     makedirs (BACKUP_PATH (w_home w)) ;;
     let backup_dir := new_backup_dir w in
     makedirs backup_dir ;;
     was_running <- is_container_running ;;
     when was_running (stop_container ;; ret tt) ;;
     when (path_exists (w_data w))
       (subprocess.run_check (backup_cmd_data backup_dir)) ;;
     when (path_exists (w_apps w))
       (subprocess.run_check (backup_cmd_apps (w_home w) backup_dir)) ;;
     db_exec (WaydroidDBHandler.set_setting "last_backup_time"
                (Py.VInt (w_clock w))) ;;
     when was_running (start_container ;; ret tt) ;;
     ret true)
    (fun e =>
       log_error ("Failed to backup data: " +:+ show_exn e) ;;
       ret false).

(** [max(x :: l, key=key)]: the first element whose key is greatest. *)
Fixpoint max_by {A : Type} (key : A -> Z) (x : A) (l : list A) : A :=
  match l with
  | [] => x
  | y :: rest => max_by key (if Z.ltb (key x) (key y) then y else x) rest
  end.

(** [not backup_dir] *)
Definition not_given (backup_dir : option string) : bool :=
  match backup_dir with
  | None => true
  | Some s => String.eqb s ""
  end.

(** The list comprehension of [restore_data]: the directories of
    [BACKUP_PATH]. *)
Definition backup_dirs (w : world) (names : list string) : list string :=
  List.filter (w_isdir w)
    (List.map (Py.path_join (BACKUP_PATH (w_home w))) names).

(** The first block of [restore_data] (lines 419-425): the directory to
    restore from,
    [None] when the block returns [False]. *)
Definition choose_backup_dir (backup_dir : option string)
    : M (option string) :=
  if not_given backup_dir then
    w <- get_world ;;
    match w_listdir_backups w with
    | None => raise FileNotFoundError
    | Some names =>
        match backup_dirs w names with
        | [] => log_error "No backup found" ;; ret None
        | d :: rest => ret (Some (max_by (w_getmtime w) d rest))
        end
    end
  else ret backup_dir.

(** The two values of the local [restore_cmd]. *)
Definition restore_cmd_data (data_backup : string) : argv :=
  ["sudo"; "tar"; "xzf"; data_backup; "-C"; Py.dirname WAYDROID_DATA_PATH].

Definition restore_cmd_apps (home apps_backup : string) : argv :=
  ["tar"; "xzf"; apps_backup; "-C"; Py.dirname (WAYDROID_APPS_PATH home)].

(** [restore_data] from the check of the archives on (lines 427-463). *)
Definition restore_from (backup_dir : string) : M bool :=
  w <- get_world ;;
  let data_backup := data_archive backup_dir in
  let apps_backup := apps_archive backup_dir in
  if negb (w_exists w data_backup) && negb (w_exists w apps_backup) then
    log_error "No valid backup files found" ;;
    ret false
  else
    was_running <- is_container_running ;;
    when was_running (stop_container ;; ret tt) ;;
    when (w_exists w data_backup)
      (subprocess.run_check (restore_cmd_data data_backup)) ;;
    when (w_exists w apps_backup)
      (makedirs (Py.dirname (WAYDROID_APPS_PATH (w_home w))) ;;
       subprocess.run_check (restore_cmd_apps (w_home w) apps_backup)) ;;
    when was_running (start_container ;; ret tt) ;;
    ret true.

(** [restore_data] (lines 415-466) *)
Definition restore_data (backup_dir : option string) : M bool :=
  try_except
    (chosen <- choose_backup_dir backup_dir ;;
     match chosen with
     | None => ret false
     | Some dir => restore_from dir
     end)
    (fun e =>
       log_error ("Failed to restore data: " +:+ show_exn e) ;;
       ret false).

End WaydroidController.

(** ** WaydroidDBusService *)

Module WaydroidDBusService.




(** The bus methods (lines 515-568). *)
Definition StartContainer : M bool := WaydroidController.start_container.
Definition StopContainer : M bool := WaydroidController.stop_container.
Definition RestartContainer : M bool := WaydroidController.restart_container.
Definition FreezeContainer : M bool := WaydroidController.freeze_container.
Definition UnfreezeContainer : M bool := WaydroidController.unfreeze_container.
Definition GetResourceUsage : M (Q * Q * Q) :=
  WaydroidController.get_container_resource_usage.
Definition SetAppVisibility (package_name app_name : string) (visible : bool)
    : M bool :=
  WaydroidController.set_app_visibility package_name app_name visible.
Definition BackupData : M bool := WaydroidController.backup_data.
Definition RestoreData (backup_dir : string) : M bool :=
  WaydroidController.restore_data (Some backup_dir).
Definition IsContainerRunning : M bool :=
  WaydroidController.is_container_running.

End WaydroidDBusService.

(** ** Reading a trace *)

Definition cmd_status : argv := ["waydroid"; "status"].
Definition cmd_start : argv := ["waydroid"; "session"; "start"].
Definition cmd_stop : argv := ["waydroid"; "session"; "stop"].
Definition cmd_freeze : argv := ["waydroid"; "container"; "freeze"].
Definition cmd_unfreeze : argv := ["waydroid"; "container"; "unfreeze"].


(** The commands a trace has handed to [Popen]. *)
Definition popen_calls (t : list event) : list argv :=
  omap (fun e => match e with
                 | EPopen cmd => Some cmd
                 | _ => None
                 end) t.

(** The commands a trace has launched with [Popen] and that did start.
    The source drops the handle [Popen] returns: it never waits for
    these commands and never learns that they have ended. *)
Definition launched_unawaited (exec : argv -> outcome) (t : list event)
    : list argv :=
  omap (fun e => match e with
                 | EPopen cmd =>
                     match exec cmd with
                     | Exited _ _ => Some cmd
                     | _ => None
                     end
                 | _ => None
                 end) t.

(** An outcome the caller has to hear about: the executable is missing,
    or the command ended with a status other than 0. *)
Definition failed (o : outcome) : Prop :=
  o = Missing ∨ ∃ c out, c ≠ 0 ∧ o = Exited c out.

(** ** Concrete worlds *)

Module Scenario.

Definition db0 : database := WaydroidDBHandler.init 1700000000 fresh_file.

Definition make (exec : argv -> outcome) (processes : list process)
    (data : option node) (apps : option (list (string * text_file)))
    (listdir : option (list string)) (getmtime : string -> Z)
    (exists_ : string -> bool) : world :=
  World db0 1700000000 (fun _ => "2023-11-14_22-13-20") "/home/user"
        exec processes (Some 4) data apps listdir (fun _ => true) getmtime
        exists_ (fun _ => None) [].

(** Every command runs and ends with status 0; the container runs. *)
Definition exec_ok (cmd : argv) : outcome :=
  if decide (cmd = cmd_status) then Exited 0 "Session: RUNNING"
  else Exited 0 "".

(** As [exec_ok], but the container is stopped. *)
Definition exec_stopped (cmd : argv) : outcome :=
  if decide (cmd = cmd_status) then Exited 0 "Session: STOPPED"
  else Exited 0 "".

(** As [exec_ok], but [tar] without [sudo], which archives the desktop
    entries, ends with status 2. *)
Definition exec_apps_tar_fails (cmd : argv) : outcome :=
  if decide (head cmd = Some "tar") then Exited 2 ""
  else exec_ok cmd.

(** As [exec_ok], but [waydroid session start] ends with status 1. *)
Definition exec_start_fails (cmd : argv) : outcome :=
  if decide (cmd = cmd_start) then Exited 1 ""
  else exec_ok cmd.

(** As [exec_ok], but [waydroid status] ends with status 1. *)
Definition exec_status_fails (cmd : argv) : outcome :=
  if decide (cmd = cmd_status) then Exited 1 "" else Exited 0 "".

(** [waydroid] is not installed. *)
Definition exec_no_waydroid (cmd : argv) : outcome :=
  if decide (head cmd = Some "waydroid") then Missing else Exited 0 "".

Definition foo_desktop : string :=
  "[Desktop Entry]" +:+ Py.nl +:+ "Name=Foo" +:+ Py.nl
  +:+ "Exec=waydroid app launch com.foo".

Definition one_process : list process :=
  [Process (Some "waydroid-container") (Some ["/usr/bin/waydroid"; "container"])
           (Some (50 # 1)%Q) (Some 1048576)].

Definition running : world :=
  make exec_ok one_process (Some (Dir (Some [File 1073741824])))
       (Some [("com.foo.desktop", TextFile foo_desktop true true)])
       None (fun _ => 0) (fun _ => false).

Definition stopped : world :=
  make exec_stopped [] None None None (fun _ => 0) (fun _ => false).

Definition apps_archive_fails : world :=
  make exec_apps_tar_fails one_process (Some (Dir (Some [File 1073741824])))
       (Some [("com.foo.desktop", TextFile foo_desktop true true)])
       None (fun _ => 0) (fun _ => false).

Definition start_fails : world :=
  make exec_start_fails [] None None None (fun _ => 0) (fun _ => false).

Definition no_waydroid : world :=
  make exec_no_waydroid [] None None None (fun _ => 0) (fun _ => false).

Definition status_fails : world :=
  make exec_status_fails [] None None None (fun _ => 0) (fun _ => false).

(** psutil may not read the name of a process. *)
Definition process_unreadable : world :=
  make exec_ok [Process None None (Some (50 # 1)%Q) (Some 1048576)]
       None None None (fun _ => 0) (fun _ => false).

(** The data directory may not be listed. *)
Definition data_unreadable : world :=
  make exec_ok one_process (Some (Dir None)) None None (fun _ => 0)
       (fun _ => false).

(** Two backup directories without archives; the second is the newer. *)
Definition empty_backups : world :=
  make exec_ok [] None None (Some ["old"; "new"])
       (fun p => if decide (p = "/home/user/Documents/WaydroidBackups/new")
                 then 2 else 1)
       (fun _ => false).

(** A database file in which the user has switched [auto_start] on. *)
Definition customised : db_file :=
  DbFile (Some {["auto_start" := "1"]}) None None.

(** [count] samples logged one second apart, from time [first] on. *)
Fixpoint log_samples (first : Z) (count : nat) (db : database) : database :=
  match count with
  | O => db
  | S n =>
      log_samples (first + 1) n
        (WaydroidDBHandler.log_resource_usage first 0 0 0 db)
  end.

End Scenario.

(** What a call adds to the trace of the world it starts in. *)
Definition effects_of {A : Type} (call : M A) (w : world) : list event :=
  drop (length (w_trace w)) (w_trace (call w).2).

(** The ways the effects of two invocations running on two threads can
    follow one another, each invocation keeping its own order. The
    source takes no lock, so none of them is excluded. *)
Fixpoint merges {A : Type} (l1 : list A) : list A -> list (list A) :=
  fix merges_l1 (l2 : list A) : list (list A) :=
    match l1, l2 with
    | [], _ => [l2]
    | _, [] => [l1]
    | x :: rest1, y :: rest2 =>
        (List.map (cons x) (merges rest1 l2)
         ++ List.map (cons y) (merges_l1 rest2))%list
    end.

(** Bus calls handled one after another, as the main loop dispatches
    them; the answers are returned in order. *)
Fixpoint dispatch (calls : list (M bool)) : M (list bool) :=
  match calls with
  | [] => ret []
  | call :: rest =>
      answer <- call ;;
      answers <- dispatch rest ;;
      ret (answer :: answers)
  end.

(** The log line [get_container_resource_usage] writes when its [try]
    block is left by an exception. *)
Definition sampling_log (w : world) : list event :=
  match (WaydroidController.measure w).2 with
  | Some e => [ELogError ("Failed to get resource usage: " +:+ show_exn e)]
  | None => []
  end.

(** ** Proof steps *)

(** Unfolding of the monad and of the [subprocess] calls. *)
Ltac run :=
  unfold subprocess.run_check, subprocess.check_output, subprocess.Popen,
    subprocess.launch, makedirs, log_error, when, try_except, try_except_on,
    bind, ret, raise, emit, get_world, db_exec, sleep;
  cbn [w_db w_clock w_strftime w_home w_exec w_processes w_cpu_count w_data
       w_apps w_listdir_backups w_isdir w_getmtime w_exists w_makedirs
       w_trace with_trace with_db with_clock with_apps fst snd].

(** Two worlds built by the same updates in a different nesting. *)
Ltac world_eq :=
  unfold with_clock, with_db, with_trace, with_apps;
  cbn [w_db w_clock w_strftime w_home w_exec w_processes w_cpu_count w_data
       w_apps w_listdir_backups w_isdir w_getmtime w_exists w_makedirs
       w_trace];
  repeat first [rewrite <- app_assoc | progress cbn [app]];
  reflexivity.

(** * The rest of the controller *)

(** ** More Python string helpers *)

Module PyStr.

(** The ASCII characters [str.strip()] removes: tab to carriage return,
    the four separators 28 to 31, and the space. *)
Definition is_space (c : ascii) : bool :=
  let n := nat_of_ascii c in
  ((9 <=? n)%nat && (n <=? 13)%nat) || ((28 <=? n)%nat && (n <=? 32)%nat).

Fixpoint lstrip (s : string) : string :=
  match s with
  | EmptyString => EmptyString
  | String c rest => if is_space c then lstrip rest else s
  end.

(** [s.strip()] *)
Definition strip (s : string) : string :=
  String.rev (lstrip (String.rev (lstrip s))).

(** [s[n:]] *)
Fixpoint drop (n : nat) (s : string) : string :=
  match n, s with
  | O, _ => s
  | S _, EmptyString => EmptyString
  | S m, String _ rest => drop m rest
  end.

(** The text after the last [sep] of [s], if [sep] occurs in [s]. *)
Fixpoint after_last (sep : ascii) (s : string) : option string :=
  match s with
  | EmptyString => None
  | String c rest =>
      match after_last sep rest with
      | Some t => Some t
      | None => if Ascii.eqb c sep then Some rest else None
      end
  end.

(** [s.split(sep)[-1]] *)
Definition last_field (sep : ascii) (s : string) : string :=
  match after_last sep s with
  | Some t => t
  | None => s
  end.

(** The truth value of a string: it is not empty. *)
Definition truthy (s : string) : bool := negb (String.eqb s EmptyString).

End PyStr.

(** ** The installed apps (lines 284-326) *)

(** The dictionary [app_info] when it is filled. *)
Record app_info := AppInfo {
  info_package_name : string;
  info_app_name : string;
  info_desktop_file : string
}.

(** One turn of the loop [for line in f] of [_parse_desktop_file]
    (lines 309-315), on the locals (package_name, app_name). *)
Definition parse_line (locals : string * string) (line : string)
    : string * string :=
  if Py.startswith "Name=" line then
    (locals.1, PyStr.drop 5 (PyStr.strip line))
  else if Py.startswith "Exec=" line then
    let exec_cmd := PyStr.drop 5 (PyStr.strip line) in
    if Py.contains "waydroid app launch" exec_cmd
    then (PyStr.last_field " " exec_cmd, locals.2)
    else locals
  else locals.

(** The locals after the whole loop; both start empty. *)
Definition parse_lines (lines : list string) : string * string :=
  foldl parse_line (EmptyString, EmptyString) lines.

(** What [_parse_desktop_file] returns for the file [file_name] holding
    [text]: [None] is the empty dictionary. *)
Definition info_of (home file_name text : string) : option app_info :=
  let locals := parse_lines (Py.readlines text) in
  if PyStr.truthy locals.1 && PyStr.truthy locals.2
  then Some (AppInfo locals.1 locals.2
               (Py.basename (Py.path_join (WAYDROID_APPS_PATH home) file_name)))
  else None.

(** [_parse_desktop_file] (lines 301-326), for the file [file_name] of
    the desktop-entry directory. *)
Definition _parse_desktop_file (file_name : string) : M (option app_info) :=
  try_except
    (text <- WaydroidController.read_text file_name ;;
     w <- get_world ;;
     ret (info_of (w_home w) file_name text))
    (fun e =>
       w <- get_world ;;
       log_error ("Failed to parse desktop file "
                  +:+ Py.path_join (WAYDROID_APPS_PATH (w_home w)) file_name
                  +:+ ": " +:+ show_exn e) ;;
       ret None).

(** The loop of [get_installed_apps] (lines 290-295). *)
Fixpoint installed_apps_loop (names : list string) : M (list app_info) :=
  match names with
  | [] => ret []
  | file_name :: rest =>
      found <- (if Py.endswith ".desktop" file_name
                then _parse_desktop_file file_name
                else ret None) ;;
      more <- installed_apps_loop rest ;;
      ret (match found with
           | Some info => info :: more
           | None => more
           end)
  end.

(** [get_installed_apps] (lines 284-299). The loop raises nothing,
    [_parse_desktop_file] catching what it meets, so the handler can
    only be met while the list is still empty. *)
Definition get_installed_apps : M (list app_info) :=
  try_except
    (w <- get_world ;;
     match w_apps w with
     | Some files => installed_apps_loop (files.*1)
     | None => ret []
     end)
    (fun e =>
       log_error ("Failed to get installed apps: " +:+ show_exn e) ;;
       ret []).

(** The bus method [GetInstalledApps] (lines 545-548). *)
Definition GetInstalledApps : M (list app_info) := get_installed_apps.

(** ** Words for the statements below *)

(** The text [set_app_visibility] writes back for a file holding [text]. *)
Definition new_text (visible : bool) (text : string) : string :=
  Py.writelines (WaydroidController.rewrite_lines visible (Py.readlines text)).

(** The test [set_app_visibility] makes on a file of the directory. *)
Definition references (package_name : string) (entry : string * text_file)
    : bool :=
  Py.endswith ".desktop" entry.1 && Py.contains package_name (content entry.2).

(** A file of the directory after [set_app_visibility]. *)
Definition rewritten (package_name : string) (visible : bool)
    (entry : string * text_file) : string * text_file :=
  if references package_name entry
  then (entry.1, TextFile (new_text visible (content entry.2))
                   (readable entry.2) (writable entry.2))
  else entry.

(** What [get_installed_apps] lists for one file of the directory. *)
Definition listed (home : string) (entry : string * text_file)
    : option app_info :=
  if Py.endswith ".desktop" entry.1 && readable entry.2
  then info_of home entry.1 (content entry.2)
  else None.

(** The sizes of the regular files of a tree, in the order
    [_get_dir_size] meets them. *)
Fixpoint file_sizes (n : node) : list Z :=
  match n with
  | File size => [size]
  | Dir (Some entries) =>
      (fix all (es : list node) : list Z :=
         match es with
         | [] => []
         | e :: rest => (file_sizes e ++ all rest)%list
         end) entries
  | Dir None => []
  | Other => []
  end.

(** Every directory of the tree can be listed. *)
Fixpoint listable (n : node) : bool :=
  match n with
  | File _ => true
  | Dir (Some entries) =>
      (fix all (es : list node) : bool :=
         match es with
         | [] => true
         | e :: rest => listable e && all rest
         end) entries
  | Dir None => false
  | Other => true
  end.

(** [steps m w r evs f]: run in [w], with any store and any trace so
    far, [m] gives [r], appends [evs] to the trace and changes the store
    by [f]; it changes nothing else. *)
Definition steps {A : Type} (m : M A) (w : world) (r : result A)
    (evs : list event) (f : database -> database) : Prop :=
  forall t d,
    m (with_db d (with_trace t w))
    = (r, with_db (f d) (with_trace (t ++ evs) w)).

(** [wp m w Q]: [m] steps in [w], and [Q] holds of what it gives. *)
Definition wp {A : Type} (m : M A) (w : world)
    (Q : result A -> list event -> (database -> database) -> Prop) : Prop :=
  exists r evs f, steps m w r evs f /\ Q r evs f.

(** What [subprocess.run(cmd, check=True)] gives for an outcome. *)
Definition run_result (o : outcome) : result unit :=
  match o with
  | Missing => Raise FileNotFoundError
  | Denied => Raise PermissionError
  | Exited 0 _ => Ok tt
  | Exited c _ => Raise (CalledProcessError c)
  end.

(** The events of a trace that ask the runtime to stop or to start the
    container. *)
Definition lifecycle_calls (t : list event) : list event :=
  List.filter (fun e => match e with
                        | ERun cmd => bool_decide (cmd = cmd_stop)
                        | EPopen _ => true
                        | _ => false
                        end) t.

(** The row [log_resource_usage] writes for (time, cpu, ram, storage). *)
Definition as_sample (s : Z * Q * Q * Q) : sample :=
  Sample s.1.1.1 s.1.1.2 s.1.2 s.2.

(** Samples logged one after another: (time, cpu, ram, storage). *)
Definition log_all (samples : list (Z * Q * Q * Q)) (db : database)
    : database :=
  foldl (fun d s =>
           WaydroidDBHandler.log_resource_usage s.1.1.1 s.1.1.2 s.1.2 s.2 d)
        db samples.

(** The rowids grow and the timestamps grow strictly along the table. *)
Definition chronological (t : list (Z * sample)) : Prop :=
  StronglySorted (fun a b => a.1 < b.1 /\ timestamp a.2 < timestamp b.2) t.

(** ** More concrete worlds *)

Module Restoring.

(** As [Scenario.running], and every archive asked for exists. *)
Definition archives_kept : world :=
  Scenario.make Scenario.exec_ok Scenario.one_process
    (Some (Dir (Some [File 1073741824])))
    (Some [("com.foo.desktop", TextFile Scenario.foo_desktop true true)])
    None (fun _ => 0) (fun _ => true).

(** As [archives_kept], but [tar] without [sudo], which extracts the
    desktop entries, ends with status 2. *)
Definition extraction_fails : world :=
  Scenario.make Scenario.exec_apps_tar_fails Scenario.one_process
    (Some (Dir (Some [File 1073741824])))
    (Some [("com.foo.desktop", TextFile Scenario.foo_desktop true true)])
    None (fun _ => 0) (fun _ => true).

Definition a_backup : string :=
  "/home/user/Documents/WaydroidBackups/waydroid_backup_2023-11-14_22-13-20".

(** The desktop entry of [Scenario.foo_desktop], its last line ended by
    a newline. *)
Definition complete_entry : string := Scenario.foo_desktop +:+ Py.nl.

(** A directory of desktop entries: one app, one file that is not a
    desktop entry, one desktop entry that may not be read. *)
Definition entries : list (string * text_file) :=
  [("com.foo.desktop", TextFile complete_entry true true);
   ("notes.txt", TextFile "com.foo" true false);
   ("com.bar.desktop", TextFile "" false false)].

(** As [Scenario.running], with a directory in which every desktop
    entry can be read. *)
Definition tidy : world :=
  Scenario.make Scenario.exec_ok Scenario.one_process
    (Some (Dir (Some [File 1073741824])))
    (Some (take 2 entries)) None (fun _ => 0) (fun _ => false).

(** As [tidy], with the desktop entry that may not be read. *)
Definition untidy : world :=
  Scenario.make Scenario.exec_ok Scenario.one_process
    (Some (Dir (Some [File 1073741824])))
    (Some entries) None (fun _ => 0) (fun _ => false).

End Restoring.


(** * Properties of the store *)

Section Settings.

Import WaydroidDBHandler.

Lemma insert_or_ignore_union {V : Type} (k : string) (v : V)
    (t : gmap string V) :
  Sql.insert_or_ignore k v t = t ∪ {[k := v]}.
Proof.
  unfold Sql.insert_or_ignore. apply map_eq. intros i.
  destruct (t !! k) as [x|] eqn:Hk.
  - destruct (t !! i) as [y|] eqn:Hi.
    + symmetry. apply lookup_union_Some_l. exact Hi.
    + symmetry. apply lookup_union_None. split; [exact Hi|].
      apply lookup_singleton_ne. intros ->. congruence.
  - rewrite insert_union_singleton_r by exact Hk. reflexivity.
Qed.

Lemma foldl_insert_or_ignore {V : Type} (l : list (string * V))
    (t : gmap string V) :
  foldl (λ t kv, Sql.insert_or_ignore kv.1 kv.2 t) t l = t ∪ list_to_map l.
Proof.
  revert t. induction l as [|[k v] l IH]; intros t; simpl.
  - rewrite (right_id_L ∅ (∪)). reflexivity.
  - rewrite IH, insert_or_ignore_union. rewrite <- (assoc_L (∪)).
    rewrite <- insert_union_singleton_l. reflexivity.
Qed.

Lemma settings_ensure (now : Z) (f : db_file) :
  settings (_ensure_db_exists now f)
  = Sql.create_table_if_not_exists ∅ (file_settings f)
      ∪ list_to_map (default_settings now).
Proof.
  unfold _ensure_db_exists. cbn [settings].
  apply foldl_insert_or_ignore.
Qed.

Lemma dom_defaults (now : Z) :
  dom (list_to_map (default_settings now) : gmap string string)
  = {["auto_start"; "auto_update"; "last_update_check"; "last_backup_time"]}.
Proof.
  unfold default_settings. rewrite !list_to_map_cons, !dom_insert_L.
  rewrite list_to_map_nil, dom_empty_L. set_solver.
Qed.

Lemma ensure_again (now now' : Z) (f : db_file) :
  _ensure_db_exists now' (on_disk (_ensure_db_exists now f))
  = _ensure_db_exists now f.
Proof.
  pose proof (settings_ensure now f) as Hdb.
  pose proof (settings_ensure now' (on_disk (_ensure_db_exists now f))) as Hs.
  remember (_ensure_db_exists now f) as db eqn:Edb.
  change (Sql.create_table_if_not_exists ∅ (file_settings (on_disk db)))
    with (settings db) in Hs.
  assert (Hsame : settings db ∪ list_to_map (default_settings now')
                  = settings db).
  { apply map_eq. intros k.
    destruct (settings db !! k) as [v|] eqn:Hk.
    - apply lookup_union_Some_l. exact Hk.
    - apply lookup_union_None. split; [exact Hk|].
      apply not_elem_of_dom. rewrite dom_defaults.
      apply not_elem_of_dom in Hk. rewrite Hdb in Hk.
      rewrite dom_union_L, dom_defaults in Hk.
      intros Hin. apply Hk. apply elem_of_union_r. exact Hin. }
  rewrite Hsame in Hs.
  destruct db as [s a r]. unfold _ensure_db_exists in Hs |- *.
  cbn [settings on_disk file_settings file_app_visibility file_resource_logs
       Sql.create_table_if_not_exists app_visibility resource_logs] in Hs |- *.
  f_equal. exact Hs.
Qed.

(** C6. [_ensure_db_exists] is idempotent. For every database file [f]
    and times [now], [now']: running the initialisation again on the
    store it has produced changes nothing (no table is created a second
    time, no row is added, nothing is raised: the function is total);
    every setting already in the file keeps its value; a key that is
    absent gets its default if it is one of the four default keys and
    stays absent otherwise; the keys after initialisation are those of
    the file and the four defaults, each once; the two other tables keep
    their rows. *)
Theorem ensure_db_exists_idempotent (now now' : Z) (f : db_file) :
  let db := _ensure_db_exists now f in
  let existing := Sql.create_table_if_not_exists ∅ (file_settings f) in
  _ensure_db_exists now' (on_disk db) = db
  ∧ (∀ k v, existing !! k = Some v → get_setting k db = Some v)
  ∧ (∀ k, existing !! k = None →
          get_setting k db
          = (list_to_map (default_settings now) : gmap string string) !! k)
  ∧ dom (settings db)
    = dom existing
      ∪ {["auto_start"; "auto_update"; "last_update_check"; "last_backup_time"]}
  ∧ (∀ t, file_app_visibility f = Some t → app_visibility db = t)
  ∧ (∀ t, file_resource_logs f = Some t → resource_logs db = t).
Proof.
  intros db existing. split; [apply ensure_again|].
  assert (Hs : settings db = existing ∪ list_to_map (default_settings now))
    by apply settings_ensure.
  split; [|split; [|split; [|split]]].
  - intros k v Hk. unfold get_setting. rewrite Hs.
    apply lookup_union_Some_l. exact Hk.
  - intros k Hk. unfold get_setting. rewrite Hs.
    apply lookup_union_r. exact Hk.
  - rewrite Hs, dom_union_L, dom_defaults. reflexivity.
  - intros t Ht. unfold db, _ensure_db_exists. cbn [app_visibility].
    rewrite Ht. reflexivity.
  - intros t Ht. unfold db, _ensure_db_exists. cbn [resource_logs].
    rewrite Ht. reflexivity.
Qed.

(** C9. [set_setting] then [get_setting] returns the value written, for
    every key, string value and store; on a fresh store,
    [set_setting('auto_start', '1')] then [get_setting('auto_start')]
    gives ['1']; [set_setting] is an upsert (the key is added when it is
    new, its row is replaced otherwise, no other row changes) and doing
    it twice is the same as doing it once; [get_setting] on a key without
    a row returns [None]. *)
Theorem set_setting_get_setting :
  (∀ key value db,
      get_setting key (set_setting key (Py.VStr value) db) = Some value)
  ∧ (∀ now,
      get_setting "auto_start"
        (set_setting "auto_start" (Py.VStr "1") (init now fresh_file))
      = Some "1")
  ∧ (∀ key value db,
      dom (settings (set_setting key value db)) = {[key]} ∪ dom (settings db)
      ∧ ∀ other, other ≠ key →
          get_setting other (set_setting key value db) = get_setting other db)
  ∧ (∀ key value db,
      set_setting key value (set_setting key value db)
      = set_setting key value db)
  ∧ (∀ key db, key ∉ dom (settings db) → get_setting key db = None).
Proof.
  split; [|split; [|split; [|split]]].
  - intros key value db. unfold get_setting, set_setting. cbn [settings].
    apply lookup_insert_eq.
  - intros now. unfold get_setting, set_setting. cbn [settings].
    apply lookup_insert_eq.
  - intros key value db. unfold get_setting, set_setting. cbn [settings].
    unfold Sql.insert_or_replace. split.
    + apply dom_insert_L.
    + intros other Hne. apply lookup_insert_ne. congruence.
  - intros key value db. unfold set_setting.
    cbn [settings app_visibility resource_logs].
    unfold Sql.insert_or_replace. rewrite insert_insert_eq. reflexivity.
  - intros key db Hk. unfold get_setting. apply not_elem_of_dom. exact Hk.
Qed.

End Settings.

Section Retention.

Import WaydroidDBHandler.

Lemma le_foldr_max (l : list Z) (x : Z) : x ∈ l → x <= foldr Z.max 0 l.
Proof.
  induction l as [|y l IH]; intros Hx.
  - inversion Hx.
  - apply elem_of_cons in Hx as [->|Hx]; simpl; [lia|].
    specialize (IH Hx). lia.
Qed.

Lemma next_rowid_fresh {R : Type} (t : list (Z * R)) :
  Sql.next_rowid t ∉ t.*1.
Proof.
  intros Hin. apply le_foldr_max in Hin. unfold Sql.next_rowid in Hin. lia.
Qed.

Lemma insert_NoDup {R : Type} (r : R) (t : list (Z * R)) :
  NoDup t.*1 → NoDup (Sql.insert r t).*1.
Proof.
  intros Hnd. unfold Sql.insert. rewrite fmap_app. apply NoDup_app.
  split; [exact Hnd|]. split.
  - intros x Hx Hx'. simpl in Hx'. apply list_elem_of_singleton in Hx'.
    subst x. exact (next_rowid_fresh t Hx).
  - simpl. apply NoDup_singleton.
Qed.

#[local] Instance newer_first_trans : Transitive Sql.newer_first.
Proof. intros a b c. unfold Sql.newer_first. lia. Qed.

#[local] Instance newer_first_total : Total Sql.newer_first.
Proof. intros a b. unfold Sql.newer_first. lia. Qed.

Lemma filter_all {A : Type} (P : A → Prop) `{∀ x, Decision (P x)}
    (l : list A) :
  (∀ x, x ∈ l → P x) → filter P l = l.
Proof.
  induction l as [|y l IH]; intros Hall; [reflexivity|].
  rewrite filter_cons_True by (apply Hall; left).
  f_equal. apply IH. intros x Hx. apply Hall. right. exact Hx.
Qed.

Lemma filter_none {A : Type} (P : A → Prop) `{∀ x, Decision (P x)}
    (l : list A) :
  (∀ x, x ∈ l → ¬ P x) → filter P l = [].
Proof.
  induction l as [|y l IH]; intros Hnone; [reflexivity|].
  rewrite filter_cons_False by (apply Hnone; left).
  apply IH. intros x Hx. apply Hnone. right. exact Hx.
Qed.

(** Deleting the rows whose rowid is not among those of the first [n]
    rows of a rearrangement [s] of the table leaves these [n] rows. *)
Lemma delete_keeps_selected {R : Type} (n : nat) (t s : list (Z * R)) :
  NoDup t.*1 → s ≡ₚ t →
  Sql.delete_rowid_not_in (take n s).*1 t ≡ₚ take n s.
Proof.
  intros Hnd Hperm. unfold Sql.delete_rowid_not_in.
  assert (Hnd' : NoDup ((take n s).*1 ++ (drop n s).*1)).
  { rewrite <- fmap_app, take_drop, Hperm. exact Hnd. }
  apply NoDup_app in Hnd' as (_ & Hdisj & _).
  transitivity (filter (λ r : Z * R, r.1 ∈ (take n s).*1) s).
  { apply filter_Permutation. symmetry. exact Hperm. }
  pose proof (take_drop n s) as Hsplit.
  remember (take n s) as keep eqn:Ekeep. remember (drop n s) as rest eqn:Erest.
  rewrite <- Hsplit, filter_app, filter_all, filter_none.
  - rewrite app_nil_r. reflexivity.
  - intros x Hx Hin. apply (Hdisj x.1 Hin).
    apply list_elem_of_fmap. exists x. split; [reflexivity|exact Hx].
  - intros x Hx. apply list_elem_of_fmap. exists x.
    split; [reflexivity|exact Hx].
Qed.

(** C1. For every store whose rows have distinct rowids and every call
    of [log_resource_usage]: after the call the table holds the 100 rows
    with the greatest timestamps among the rows it had and the new one
    (all of them when there are fewer than 100): its length is the
    smaller of 100 and the number of rows after the insertion; every row
    it holds is one of these rows, unchanged and in the same order; no
    evicted row is newer than a row that was kept; rowids stay distinct;
    the other tables are not touched. *)
Theorem log_resource_usage_keeps_newest_100
    (now : Z) (cpu ram storage : Q) (db : database) :
  NoDup (resource_logs db).*1 →
  let inserted :=
    (resource_logs db
       ++ [(Sql.next_rowid (resource_logs db), Sample now cpu ram storage)])%list in
  let db' := log_resource_usage now cpu ram storage db in
  length (resource_logs db') = Nat.min 100 (length inserted)
  ∧ resource_logs db' `sublist_of` inserted
  ∧ (∀ kept gone,
        kept ∈ resource_logs db' → gone ∈ inserted →
        gone ∉ resource_logs db' →
        timestamp gone.2 <= timestamp kept.2)
  ∧ NoDup (resource_logs db').*1
  ∧ settings db' = settings db
  ∧ app_visibility db' = app_visibility db.
Proof.
  intros Hnd inserted db'.
  assert (Hnd1 : NoDup inserted.*1)
    by exact (insert_NoDup (Sample now cpu ram storage) _ Hnd).
  pose proof (merge_sort_Permutation Sql.newer_first inserted) as Hperm.
  pose proof (StronglySorted_merge_sort Sql.newer_first inserted) as Hsorted.
  assert (Hkept : resource_logs db'
                  ≡ₚ take 100 (merge_sort Sql.newer_first inserted))
    by exact (delete_keeps_selected 100 inserted _ Hnd1 Hperm).
  assert (Hsub : resource_logs db' `sublist_of` inserted)
    by apply sublist_filter.
  split; [|split; [exact Hsub|split; [|split; [|split; reflexivity]]]].
  - rewrite Hkept, length_take, Hperm. reflexivity.
  - intros kept gone Hk Hg Hng.
    rewrite <- (take_drop 100 (merge_sort Sql.newer_first inserted)) in Hsorted.
    apply (StronglySorted_app_1_elem_of _ _ _ kept gone Hsorted).
    + rewrite <- Hkept. exact Hk.
    + rewrite <- Hperm in Hg.
      rewrite <- (take_drop 100 (merge_sort Sql.newer_first inserted)) in Hg.
      apply elem_of_app in Hg as [Hg|Hg]; [|exact Hg].
      exfalso. apply Hng. rewrite Hkept. exact Hg.
  - apply (sublist_NoDup _ inserted.*1); [exact Hnd1|apply fmap_sublist; exact Hsub].
Qed.

End Retention.

(** * Properties of the controller *)

Section Runtime.

Import WaydroidController.

Lemma run_check_failed (cmd : argv) (w : world) :
  failed (w_exec w cmd) →
  ∃ e, subprocess.run_check cmd w
       = (Raise e, with_trace (w_trace w ++ [ERun cmd]) w).
Proof.
  intros [Hm|(c & out & Hc & He)]; run.
  - rewrite Hm. eexists. reflexivity.
  - rewrite He. exists (CalledProcessError c).
    destruct c; [congruence| |]; reflexivity.
Qed.

Lemma with_trace_twice (t1 t2 : list event) (w : world) :
  with_trace t2 (with_trace t1 w) = with_trace t2 w.
Proof. reflexivity. Qed.

Lemma awaited_failure (cmd : argv) (msg : string) (w : world) :
  failed (w_exec w cmd) →
  ∃ e,
    try_except (subprocess.run_check cmd ;; ret true)
      (fun e => log_error (msg +:+ show_exn e) ;; ret false) w
    = (Ok false,
       with_trace (w_trace w ++ [ERun cmd; ELogError (msg +:+ show_exn e)]) w).
Proof.
  intros Hf. destruct (run_check_failed cmd w Hf) as [e He]. exists e.
  unfold try_except at 1. unfold bind at 1. rewrite He.
  run. rewrite <- app_assoc. reflexivity.
Qed.

(** C5, as amended. For every world: when the executable is missing or
    the command ends with a status other than 0, [stop_container],
    [freeze_container] and [unfreeze_container] return [False] and log
    one line; [start_container] returns [False] and logs one line when
    the executable is missing, and returns [True] without a log line
    whenever the command could be launched, whatever its exit status,
    which it does not wait for; [is_container_running] returns [False]
    with one log line when the executable is missing, and [False] without
    a log line when the command ends with a status other than 0. In each
    of these cases the operation returns a value: nothing is raised. *)
Theorem runtime_operations_report_failure (w : world) :
  (failed (w_exec w cmd_stop) →
   ∃ e, stop_container w
        = (Ok false,
           with_trace (w_trace w ++
             [ERun cmd_stop;
              ELogError ("Failed to stop container: " +:+ show_exn e)]) w))
  ∧ (failed (w_exec w cmd_freeze) →
     ∃ e, freeze_container w
          = (Ok false,
             with_trace (w_trace w ++
               [ERun cmd_freeze;
                ELogError ("Failed to freeze container: " +:+ show_exn e)]) w))
  ∧ (failed (w_exec w cmd_unfreeze) →
     ∃ e, unfreeze_container w
          = (Ok false,
             with_trace (w_trace w ++
               [ERun cmd_unfreeze;
                ELogError ("Failed to unfreeze container: " +:+ show_exn e)]) w))
  ∧ (w_exec w cmd_start = Missing →
     start_container w
     = (Ok false,
        with_trace (w_trace w ++
          [EPopen cmd_start;
           ELogError "Failed to start container: FileNotFoundError"]) w))
  ∧ (∀ c out, w_exec w cmd_start = Exited c out →
     start_container w
     = (Ok true, with_trace (w_trace w ++ [EPopen cmd_start]) w))
  ∧ (w_exec w cmd_status = Missing →
     is_container_running w
     = (Ok false,
        with_trace (w_trace w ++
          [ERun cmd_status;
           ELogError "Waydroid command not found. Is Waydroid installed?"]) w))
  ∧ (∀ c out, c ≠ 0 → w_exec w cmd_status = Exited c out →
     is_container_running w
     = (Ok false, with_trace (w_trace w ++ [ERun cmd_status]) w)).
Proof.
  split; [|split; [|split; [|split; [|split; [|split]]]]].
  - apply awaited_failure.
  - apply awaited_failure.
  - apply awaited_failure.
  - intros Hm. unfold start_container. run. fold cmd_start. rewrite Hm.
    cbn. rewrite <- app_assoc. reflexivity.
  - intros c out He. unfold start_container. run. fold cmd_start.
    rewrite He. reflexivity.
  - intros Hm. unfold is_container_running. run. fold cmd_status.
    rewrite Hm. cbn. rewrite <- app_assoc. reflexivity.
  - intros c out Hc He. unfold is_container_running. run. fold cmd_status.
    rewrite He. destruct c; [congruence| |]; reflexivity.
Qed.

End Runtime.

Section Restore.

Import WaydroidController.

Lemma max_by_spec {A : Type} (key : A → Z) (l : list A) (x : A) :
  max_by key x l ∈ x :: l
  ∧ ∀ y, y ∈ x :: l → key y <= key (max_by key x l).
Proof.
  revert x. induction l as [|z l IH]; intros x; simpl.
  - split; [left|]. intros y Hy. apply list_elem_of_singleton in Hy.
    subst. lia.
  - destruct (IH (if Z.ltb (key x) (key z) then z else x)) as [Hin Hmax].
    split.
    + apply elem_of_cons in Hin as [Hin|Hin].
      * rewrite Hin. destruct (Z.ltb (key x) (key z)); [right; left|left].
      * right. right. exact Hin.
    + intros y Hy.
      assert (Hpick : key x <= key (if Z.ltb (key x) (key z) then z else x)
                      ∧ key z <= key (if Z.ltb (key x) (key z) then z else x)).
      { destruct (Z.ltb_spec (key x) (key z)); lia. }
      pose proof (Hmax _ (list_elem_of_here _ _)) as Hhead.
      apply elem_of_cons in Hy as [->|Hy]; [lia|].
      apply elem_of_cons in Hy as [->|Hy]; [lia|].
      apply Hmax. right. exact Hy.
Qed.

(** C4. For every world and every call of [restore_data] without a
    backup directory ([None] or the empty string): when the backup
    directory does not exist, or holds no directory, or none of its
    directories holds one of the two archives, the call returns [False]
    and the only thing it does is to log one line: no command is run (the
    container is not stopped, nothing is extracted), no directory is
    made, the data directory and the desktop entries are as before; and
    when there are candidate directories, the one chosen is among them
    and none of them was modified later. *)
Theorem restore_data_without_backup
    (w : world) (backup_dir : option string) :
  not_given backup_dir = true →
  ((w_listdir_backups w = None
    ∨ (∃ names, w_listdir_backups w = Some names
                ∧ ∀ d, d ∈ backup_dirs w names →
                       w_exists w (data_archive d) = false
                       ∧ w_exists w (apps_archive d) = false)) →
   ∃ msg, restore_data backup_dir w
          = (Ok false, with_trace (w_trace w ++ [ELogError msg]) w))
  ∧ (∀ names, w_listdir_backups w = Some names → backup_dirs w names ≠ [] →
     ∃ latest,
       choose_backup_dir backup_dir w = (Ok (Some latest), w)
       ∧ latest ∈ backup_dirs w names
       ∧ (∀ d, d ∈ backup_dirs w names → w_getmtime w d <= w_getmtime w latest)
       ∧ restore_data backup_dir w
         = try_except (restore_from latest)
             (fun e => log_error ("Failed to restore data: " +:+ show_exn e) ;;
                       ret false) w).
Proof.
  intros Hng.
  assert (Hchoose : ∀ names d rest,
             w_listdir_backups w = Some names → backup_dirs w names = d :: rest →
             choose_backup_dir backup_dir w
             = (Ok (Some (max_by (w_getmtime w) d rest)), w)).
  { intros names d rest Hl Hd. unfold choose_backup_dir. rewrite Hng.
    unfold bind, get_world. rewrite Hl, Hd. reflexivity. }
  split.
  - intros [Hnone|(names & Hl & Hno)].
    + eexists. unfold restore_data, choose_backup_dir. rewrite Hng.
      unfold try_except, bind, get_world. rewrite Hnone.
      unfold raise, log_error, emit, ret. reflexivity.
    + destruct (backup_dirs w names) as [|d rest] eqn:Hd.
      * eexists. unfold restore_data, choose_backup_dir. rewrite Hng.
        unfold try_except, bind, get_world. rewrite Hl, Hd.
        unfold log_error, emit, ret. reflexivity.
      * destruct (max_by_spec (w_getmtime w) rest d) as [Hin _].
        destruct (Hno _ Hin) as [Hdata Happs].
        eexists. unfold restore_data.
        unfold try_except at 1. unfold bind at 1.
        rewrite (Hchoose names d rest Hl Hd).
        unfold restore_from, bind, get_world. rewrite Hdata, Happs.
        unfold log_error, emit, ret. cbn. reflexivity.
  - intros names Hl Hne.
    destruct (backup_dirs w names) as [|d rest] eqn:Hd; [congruence|].
    destruct (max_by_spec (w_getmtime w) rest d) as [Hin Hmax].
    exists (max_by (w_getmtime w) d rest).
    split; [exact (Hchoose names d rest Hl Hd)|].
    split; [exact Hin|]. split; [exact Hmax|].
    unfold restore_data, try_except. unfold bind at 1.
    rewrite (Hchoose names d rest Hl Hd). reflexivity.
Qed.

End Restore.

Section Monitoring.

Import WaydroidController WaydroidDBusService.

Lemma is_container_running_cases (w : world) :
  is_container_running w
  = match w_exec w cmd_status with
    | Missing =>
        (Ok false,
         with_trace (w_trace w ++
           [ERun cmd_status;
            ELogError "Waydroid command not found. Is Waydroid installed?"]) w)
    | Denied =>
        (Raise PermissionError, with_trace (w_trace w ++ [ERun cmd_status]) w)
    | Exited c out =>
        (Ok (if Z.eqb c 0 then Py.contains "RUNNING" out else false),
         with_trace (w_trace w ++ [ERun cmd_status]) w)
    end.
Proof.
  unfold is_container_running. run. fold cmd_status.
  destruct (w_exec w cmd_status) as [| |c out].
  - cbn. rewrite <- app_assoc. reflexivity.
  - reflexivity.
  - destruct c; reflexivity.
Qed.

Lemma get_container_resource_usage_run (w : world) :
  get_container_resource_usage w
  = (Ok (measure w).1,
     with_db (WaydroidDBHandler.log_resource_usage (w_clock w)
                (measure w).1.1.1 (measure w).1.1.2 (measure w).1.2 (w_db w))
       (with_trace (w_trace w ++ sampling_log w) w)).
Proof.
  unfold get_container_resource_usage, sampling_log.
  unfold bind at 1. unfold get_world at 1.
  destruct (measure w) as [[[c r] s] [e|]]; run.
  - reflexivity.
  - rewrite app_nil_r. destruct w; reflexivity.
Qed.








Lemma log_resource_usage_length (now : Z) (cpu ram storage : Q)
    (db : database) :
  NoDup (resource_logs db).*1 →
  length (resource_logs
            (WaydroidDBHandler.log_resource_usage now cpu ram storage db))
  = Nat.min 100 (S (length (resource_logs db))).
Proof.
  intros Hnd. unfold WaydroidDBHandler.log_resource_usage.
  cbn [resource_logs]. unfold Sql.select_newest_rowids.
  rewrite (delete_keeps_selected 100 _ _
             (insert_NoDup (Sample now cpu ram storage) _ Hnd)
             (merge_sort_Permutation Sql.newer_first _)).
  rewrite length_take, merge_sort_Permutation. unfold Sql.insert.
  rewrite length_app. cbn [length]. f_equal. lia.
Qed.

(** C10, as amended. Every call of [get_container_resource_usage], and
    so every call of the bus method [GetResourceUsage], returns the
    figures measured and stores them with exactly one call of
    [log_resource_usage], without asking whether the container runs and
    also when the measurement fails; below 100 rows this is one row more.
    When the measurement fails, a line is logged and the figures not yet
    assigned are 0: the storage figure always, all three when the failure
    comes while the processes are scanned. *)
Theorem resource_usage_logged_on_every_call (w : world) :
  let figures := (measure w).1 in
  let w' := (get_container_resource_usage w).2 in
  GetResourceUsage w = get_container_resource_usage w
  ∧ get_container_resource_usage w
    = (Ok figures,
       with_db (WaydroidDBHandler.log_resource_usage (w_clock w)
                  figures.1.1 figures.1.2 figures.2 (w_db w))
         (with_trace (w_trace w ++ sampling_log w) w))
  ∧ (NoDup (resource_logs (w_db w)).*1 →
     (length (resource_logs (w_db w)) < 100)%nat →
     length (resource_logs (w_db w')) = S (length (resource_logs (w_db w))))
  ∧ (∀ e, (measure w).2 = Some e →
          sampling_log w
          = [ELogError ("Failed to get resource usage: " +:+ show_exn e)]
          ∧ (figures.2 == 0)%Q)
  ∧ (∀ e, waydroid_processes (w_processes w) = inl e →
          (measure w).2 = Some e ∧ figures = (0, 0, 0)%Q).
Proof.
  intros figures w'. unfold w', figures.
  split; [reflexivity|].
  rewrite get_container_resource_usage_run. cbn [fst snd].
  split; [reflexivity|]. split; [|split].
  - intros Hnd Hlt. cbn [w_db with_db].
    rewrite log_resource_usage_length by exact Hnd. lia.
  - intros e He. unfold sampling_log. rewrite He. split; [reflexivity|].
    revert He. unfold measure.
    destruct (waydroid_processes (w_processes w)) as [e1|procs];
      [intros _; reflexivity|].
    destruct (Qle_bool _ 0).
    + destruct (w_data w) as [n|]; [|discriminate].
      destruct (_get_dir_size n); [intros _; reflexivity|discriminate].
    + destruct (w_cpu_count w) as [[|p|p]|]; try (intros _; reflexivity);
        (destruct (w_data w) as [n|]; [|discriminate];
         destruct (_get_dir_size n); [intros _; reflexivity|discriminate]).
  - intros e He. unfold measure. rewrite He. split; reflexivity.
Qed.

End Monitoring.

Section InFlight.

Import WaydroidController WaydroidDBusService.

Lemma launched_unawaited_app (exec : argv → outcome) (t1 t2 : list event) :
  launched_unawaited exec (t1 ++ t2)
  = (launched_unawaited exec t1 ++ launched_unawaited exec t2)%list.
Proof. unfold launched_unawaited. apply omap_app. Qed.

Lemma launched_replicate (exec : argv → outcome) (n : nat) (c : Z)
    (out : string) :
  exec cmd_start = Exited c out →
  launched_unawaited exec (replicate n (EPopen cmd_start))
  = replicate n cmd_start.
Proof.
  intros He. induction n as [|n IH]; [reflexivity|].
  cbn [replicate].
  change (EPopen cmd_start :: replicate n (EPopen cmd_start))
    with ([EPopen cmd_start] ++ replicate n (EPopen cmd_start))%list.
  rewrite launched_unawaited_app, IH.
  unfold launched_unawaited at 1. cbn [omap list_omap].
  rewrite He. reflexivity.
Qed.

Lemma awaited_leaves_nothing (cmd : argv) (msg : string) (w : world) :
  ∃ answer evs,
    try_except (subprocess.run_check cmd ;; ret true)
      (fun e => log_error (msg +:+ show_exn e) ;; ret false) w
    = (answer, with_trace (w_trace w ++ evs) w)
    ∧ launched_unawaited (w_exec w) evs = [].
Proof.
  run. destruct (w_exec w cmd) as [| |c out].
  - eexists _, [ERun cmd; ELogError _]. split; [world_eq|reflexivity].
  - eexists _, [ERun cmd; ELogError _]. split; [world_eq|reflexivity].
  - destruct c.
    + eexists _, [ERun cmd]. split; [world_eq|reflexivity].
    + eexists _, [ERun cmd; ELogError _]. split; [world_eq|reflexivity].
    + eexists _, [ERun cmd; ELogError _]. split; [world_eq|reflexivity].
Qed.

Lemma start_container_launched (w : world) (c : Z) (out : string) :
  w_exec w cmd_start = Exited c out →
  start_container w
  = (Ok true, with_trace (w_trace w ++ [EPopen cmd_start]) w).
Proof.
  intros He. unfold start_container. run. fold cmd_start.
  rewrite He. reflexivity.
Qed.

Lemma dispatch_starts (n : nat) (w : world) (c : Z) (out : string) :
  w_exec w cmd_start = Exited c out →
  dispatch (replicate n StartContainer) w
  = (Ok (replicate n true),
     with_trace (w_trace w ++ replicate n (EPopen cmd_start)) w).
Proof.
  revert w. induction n as [|n IH]; intros w He.
  - cbn. unfold ret. rewrite app_nil_r. destruct w; reflexivity.
  - cbn [replicate dispatch]. unfold bind at 1. unfold StartContainer at 1.
    rewrite (start_container_launched w c out He).
    unfold bind at 1.
    rewrite (IH (with_trace (w_trace w ++ [EPopen cmd_start]) w) He).
    unfold ret. f_equal. world_eq.
Qed.

(** C8, as amended. The controller takes no lock: what keeps two
    invocations apart is only that they are handled one after another.
    In every world, [stop_container], [freeze_container],
    [unfreeze_container] and [is_container_running] wait for the command
    they launch, so none of them leaves a command running when it
    returns; [start_container] launches [waydroid session start] and
    returns without waiting for it, so [n] start invocations handled one
    after another all answer [True] and leave [n] start commands
    launched and not waited for, and two start invocations on two
    threads leave two, in whatever order they are scheduled. *)
Theorem start_commands_are_not_awaited (w : world) :
  (∀ op,
      op = stop_container ∨ op = freeze_container
      ∨ op = unfreeze_container ∨ op = is_container_running →
      ∃ answer evs,
        op w = (answer, with_trace (w_trace w ++ evs) w)
        ∧ launched_unawaited (w_exec w) evs = [])
  ∧ (∀ c out n,
      w_exec w cmd_start = Exited c out →
      let after := dispatch (replicate n StartContainer) w in
      after.1 = Ok (replicate n true)
      ∧ launched_unawaited (w_exec w) (w_trace after.2)
        = (launched_unawaited (w_exec w) (w_trace w)
           ++ replicate n cmd_start)%list)
  ∧ (∀ c out schedule,
      w_exec w cmd_start = Exited c out →
      schedule ∈ merges (effects_of StartContainer w)
                        (effects_of StartContainer w) →
      launched_unawaited (w_exec w) schedule = [cmd_start; cmd_start]).
Proof.
  split; [|split].
  - intros op [->|[->|[->| ->]]]; try apply awaited_leaves_nothing.
    rewrite is_container_running_cases.
    destruct (w_exec w cmd_status) as [| |c out].
    + eexists _, [ERun cmd_status; ELogError _].
      split; [reflexivity|reflexivity].
    + eexists _, [ERun cmd_status]. split; reflexivity.
    + eexists _, [ERun cmd_status]. split; reflexivity.
  - intros c out n He after. unfold after.
    rewrite (dispatch_starts n w c out He). cbn [fst snd w_trace with_trace].
    split; [reflexivity|]. rewrite launched_unawaited_app. f_equal.
    exact (launched_replicate (w_exec w) n c out He).
  - intros c out schedule He Hin.
    assert (Heff : effects_of StartContainer w = [EPopen cmd_start]).
    { unfold effects_of, StartContainer.
      rewrite (start_container_launched w c out He).
      cbn [snd w_trace with_trace]. apply drop_app_length. }
    rewrite Heff in Hin. cbn [merges List.map app] in Hin.
    assert (Hs : schedule = [EPopen cmd_start; EPopen cmd_start]).
    { apply elem_of_cons in Hin as [Hin|Hin]; [exact Hin|].
      apply list_elem_of_singleton in Hin. exact Hin. }
    rewrite Hs. exact (launched_replicate (w_exec w) 2 c out He).
Qed.

End InFlight.

Section Backup.

Import WaydroidController.

Lemma bind_ok {A B : Type} (m : M A) (k : A → M B) (w w' : world) (a : A) :
  m w = (Ok a, w') → bind m k w = k a w'.
Proof. intros H. unfold bind. rewrite H. reflexivity. Qed.

Lemma bind_raise {A B : Type} (m : M A) (k : A → M B) (w w' : world)
    (e : exn) :
  m w = (Raise e, w') → bind m k w = (Raise e, w').
Proof. intros H. unfold bind. rewrite H. reflexivity. Qed.

Lemma with_trace_id (w : world) : with_trace (w_trace w) w = w.
Proof. destruct w; reflexivity. Qed.

Lemma makedirs_tr (path : string) (t : list event) (w : world) :
  w_makedirs w path = None →
  makedirs path (with_trace t w)
  = (Ok tt, with_trace (t ++ [EMakedirs path]) w).
Proof. intros H. run. rewrite H. reflexivity. Qed.

Lemma makedirs_ok (path : string) (w : world) :
  w_makedirs w path = None →
  makedirs path w = (Ok tt, with_trace (w_trace w ++ [EMakedirs path]) w).
Proof. intros H. run. rewrite H. reflexivity. Qed.

Lemma is_container_running_tr (t : list event) (w : world) (out : string) :
  w_exec w cmd_status = Exited 0 out →
  is_container_running (with_trace t w)
  = (Ok (Py.contains "RUNNING" out), with_trace (t ++ [ERun cmd_status]) w).
Proof.
  intros H. rewrite is_container_running_cases.
  cbn [w_exec w_trace with_trace]. rewrite H. reflexivity.
Qed.

Lemma run_check_ok_tr (cmd : argv) (t : list event) (w : world)
    (out : string) :
  w_exec w cmd = Exited 0 out →
  subprocess.run_check cmd (with_trace t w)
  = (Ok tt, with_trace (t ++ [ERun cmd]) w).
Proof. intros H. run. rewrite H. reflexivity. Qed.

Lemma run_check_failed_tr (cmd : argv) (t : list event) (w : world) :
  failed (w_exec w cmd) →
  ∃ e, subprocess.run_check cmd (with_trace t w)
       = (Raise e, with_trace (t ++ [ERun cmd]) w).
Proof.
  intros Hf.
  destruct (run_check_failed cmd (with_trace t w) Hf) as [e He].
  exists e. rewrite He. reflexivity.
Qed.

Lemma stop_container_tr (w : world) :
  ∃ answer evs,
    (∀ t, stop_container (with_trace t w)
          = (Ok answer, with_trace (t ++ evs) w))
    ∧ ERun cmd_stop ∈ evs
    ∧ popen_calls evs = [].
Proof.
  pose (failure := fun e : exn =>
    [ERun cmd_stop;
     ELogError ("Failed to stop container: " +:+ show_exn e)]).
  unfold stop_container. fold cmd_stop.
  destruct (w_exec w cmd_stop) as [| |c out] eqn:He.
  - exists false, (failure FileNotFoundError).
    split; [|split; [left|reflexivity]].
    intros t. run. rewrite He. world_eq.
  - exists false, (failure PermissionError).
    split; [|split; [left|reflexivity]].
    intros t. run. rewrite He. world_eq.
  - destruct c as [|p|p].
    + exists true, [ERun cmd_stop]. split; [|split; [left|reflexivity]].
      intros t. run. rewrite He. world_eq.
    + exists false, (failure (CalledProcessError (Z.pos p))).
      split; [|split; [left|reflexivity]].
      intros t. run. rewrite He. world_eq.
    + exists false, (failure (CalledProcessError (Z.neg p))).
      split; [|split; [left|reflexivity]].
      intros t. run. rewrite He. world_eq.
Qed.

Lemma popen_calls_app (t1 t2 : list event) :
  popen_calls (t1 ++ t2) = (popen_calls t1 ++ popen_calls t2)%list.
Proof. unfold popen_calls. apply omap_app. Qed.

(** Whatever [waydroid session stop] gives, the failure of [tar] on the
    desktop entries ends [backup_data] before its restart step: the
    container has been asked to stop and is never asked to start. *)
Lemma backup_data_apps_archive_failure (w : world) (out out' : string) :
  w_makedirs w (BACKUP_PATH (w_home w)) = None →
  w_makedirs w (new_backup_dir w) = None →
  w_exec w cmd_status = Exited 0 out → Py.contains "RUNNING" out = true →
  (w_data w = None
   ∨ w_exec w (backup_cmd_data (new_backup_dir w)) = Exited 0 out') →
  path_exists (w_apps w) = true →
  failed (w_exec w (backup_cmd_apps (w_home w) (new_backup_dir w))) →
  ∃ evs,
    backup_data w = (Ok false, with_trace (w_trace w ++ evs) w)
    ∧ ERun cmd_stop ∈ evs
    ∧ popen_calls evs = [].
Proof.
  intros Hmk1 Hmk2 Hst Hrun Hdata Happs Hfail.
  destruct (stop_container_tr w) as (answer & stop_evs & Hstop & Hin & Hpop).
  set (data_evs := if path_exists (w_data w)
                   then [ERun (backup_cmd_data (new_backup_dir w))]
                   else []).
  destruct (run_check_failed_tr _
              (w_trace w ++ [EMakedirs (BACKUP_PATH (w_home w))]
               ++ [EMakedirs (new_backup_dir w)] ++ [ERun cmd_status]
               ++ stop_evs ++ data_evs) w Hfail) as [e He].
  exists ([EMakedirs (BACKUP_PATH (w_home w))]
          ++ [EMakedirs (new_backup_dir w)] ++ [ERun cmd_status]
          ++ stop_evs ++ data_evs
          ++ [ERun (backup_cmd_apps (w_home w) (new_backup_dir w));
              ELogError ("Failed to backup data: " +:+ show_exn e)])%list.
  split; [|split].
  - unfold backup_data, try_except.
    rewrite (bind_ok get_world _ w w w eq_refl). cbv beta.
    rewrite (bind_ok _ _ _ _ _ (makedirs_ok _ w Hmk1)).
    rewrite (bind_ok _ _ _ _ _ (makedirs_tr _ _ w Hmk2)).
    rewrite (bind_ok _ _ _ _ _ (is_container_running_tr _ w out Hst)).
    rewrite Hrun. cbv beta. unfold when at 1.
    rewrite (bind_ok _ _ _ _ _
               (bind_ok _ _ _ _ _ (Hstop _))). unfold ret at 1.
    rewrite Happs. unfold when at 2.
    assert (Hd : ∀ (B : Type) (t : list event) (k : unit → M B),
      bind (when (path_exists (w_data w))
              (subprocess.run_check (backup_cmd_data (new_backup_dir w))))
           k (with_trace t w)
      = k tt (with_trace (t ++ data_evs) w)).
    { intros B t k. unfold data_evs. destruct Hdata as [Hnone|Hok].
      - rewrite Hnone. cbn [path_exists when]. unfold bind, ret.
        rewrite app_nil_r. reflexivity.
      - destruct (w_data w); cbn [path_exists when].
        + apply bind_ok. exact (run_check_ok_tr _ t w out' Hok).
        + unfold bind, ret. rewrite app_nil_r. reflexivity. }
    rewrite Hd.
    repeat rewrite <- app_assoc.
    repeat rewrite <- app_assoc in He.
    rewrite (bind_raise _ _ _ _ _ He).
    run. world_eq.
  - apply elem_of_app. right. apply elem_of_app. right.
    apply elem_of_app. right. apply elem_of_app. left. exact Hin.
  - rewrite !popen_calls_app, Hpop. unfold data_evs.
    destruct (path_exists (w_data w)); reflexivity.
Qed.

End Backup.

Section DesktopEntries.

Import WaydroidController.

Lemma readlines_line_app (l s : string) :
  Py.is_line l = true → Py.readlines (l +:+ s) = l :: Py.readlines s.
Proof.
  induction l as [|c rest IH]; [discriminate|].
  intros Hl. cbn [Py.is_line] in Hl.
  change (String c rest +:+ s) with (String c (rest +:+ s)).
  cbn [Py.readlines].
  destruct (Ascii.eqb c Py.newline).
  - apply String.eqb_eq in Hl. subst rest. reflexivity.
  - rewrite (IH Hl). reflexivity.
Qed.

(** Complete lines written one after another are read back as written. *)
Lemma readlines_writelines (ls : list string) :
  Forall (λ l, Py.is_line l = true) ls →
  Py.readlines (Py.writelines ls) = ls.
Proof.
  induction 1 as [|l ls Hl _ IH]; [reflexivity|].
  unfold Py.writelines in *. cbn [foldr].
  rewrite (readlines_line_app _ _ Hl), IH. reflexivity.
Qed.

Lemma no_display_line_is_line (visible : bool) :
  Py.is_line (no_display_line visible) = true.
Proof. destruct visible; reflexivity. Qed.

Lemma no_display_line_starts (visible : bool) :
  Py.startswith "NoDisplay=" (no_display_line visible) = true.
Proof. destruct visible; reflexivity. Qed.

Lemma rewrite_lines_complete (visible : bool) (lines : list string) :
  Forall (λ l, Py.is_line l = true) lines →
  Forall (λ l, Py.is_line l = true) (rewrite_lines visible lines).
Proof.
  intros Hall. unfold rewrite_lines.
  assert (Hmap : Forall (λ l, Py.is_line l = true)
            (List.map (λ line, if Py.startswith "NoDisplay=" line
                               then no_display_line visible else line) lines)).
  { induction Hall as [|l ls Hl _ IH]; cbn [List.map]; constructor.
    - destruct (Py.startswith "NoDisplay=" l);
        [apply no_display_line_is_line|exact Hl].
    - exact IH. }
  destruct (existsb _ lines); [exact Hmap|].
  apply Forall_app. split; [exact Hmap|].
  constructor; [apply no_display_line_is_line|constructor].
Qed.

(** In the lines [set_app_visibility] writes, every line that carries
    the flag is the new flag line, and one such line is there. *)
Lemma rewrite_lines_flag (visible : bool) (lines : list string) :
  (∀ l, l ∈ rewrite_lines visible lines →
        Py.startswith "NoDisplay=" l = true → l = no_display_line visible)
  ∧ existsb (Py.startswith "NoDisplay=") (rewrite_lines visible lines) = true.
Proof.
  unfold rewrite_lines.
  set (f := λ line, if Py.startswith "NoDisplay=" line
                    then no_display_line visible else line).
  assert (Hmap : ∀ l, l ∈ List.map f lines →
            Py.startswith "NoDisplay=" l = true → l = no_display_line visible).
  { intros l Hin Hs. apply list_elem_of_In in Hin.
    apply in_map_iff in Hin. destruct Hin as (x & Hx & _). subst l.
    unfold f in *.
    destruct (Py.startswith "NoDisplay=" x) eqn:Hstart;
      [reflexivity|congruence]. }
  assert (Hex : existsb (Py.startswith "NoDisplay=") (List.map f lines)
                = existsb (Py.startswith "NoDisplay=") lines).
  { clear Hmap. induction lines as [|x xs IH]; [reflexivity|].
    cbn [List.map existsb]. rewrite IH. f_equal. unfold f.
    destruct (Py.startswith "NoDisplay=" x) eqn:Hx;
      [apply no_display_line_starts|exact Hx]. }
  destruct (existsb (Py.startswith "NoDisplay=") lines) eqn:Hfound.
  - split; [exact Hmap|]. rewrite Hex. reflexivity.
  - split.
    + intros l Hin Hs. apply elem_of_app in Hin as [Hin|Hin].
      * exact (Hmap l Hin Hs).
      * apply list_elem_of_singleton in Hin. exact Hin.
    + rewrite existsb_app. cbn [existsb].
      rewrite no_display_line_starts. apply orb_true_iff. right. reflexivity.
Qed.

(** For a desktop entry all of whose lines are complete, the text
    written back does carry the flag, on lines of its own. *)
Lemma rewritten_text_carries_flag (visible : bool) (text : string) :
  Forall (λ l, Py.is_line l = true) (Py.readlines text) →
  let text' := Py.writelines (rewrite_lines visible (Py.readlines text)) in
  (∀ l, l ∈ Py.readlines text' →
        Py.startswith "NoDisplay=" l = true → l = no_display_line visible)
  ∧ existsb (Py.startswith "NoDisplay=") (Py.readlines text') = true.
Proof.
  intros Hall text'. unfold text'.
  rewrite (readlines_writelines _ (rewrite_lines_complete visible _ Hall)).
  apply rewrite_lines_flag.
Qed.

(** [set_app_visibility] always answers: an exception met on the way
    becomes the answer [False]. *)
Lemma set_app_visibility_answers (package_name app_name : string)
    (visible : bool) (w : world) :
  ∃ answer, (set_app_visibility package_name app_name visible w).1 = Ok answer.
Proof.
  unfold set_app_visibility, try_except.
  match goal with |- context [match ?body w with _ => _ end] =>
    destruct (body w) as [[a|e] w'] end.
  - exists a. reflexivity.
  - exists false. reflexivity.
Qed.

Lemma read_text_world (name : string) (w : world) :
  (read_text name w).2 = w.
Proof.
  unfold read_text. run.
  destruct (w_apps w) as [files|]; [|reflexivity].
  destruct (lookup_file name files) as [f|]; [|reflexivity].
  destruct (readable f); reflexivity.
Qed.

Lemma find_desktop_files_world (package_name : string) (names : list string)
    (w : world) :
  (find_desktop_files package_name names w).2 = w.
Proof.
  induction names as [|n names IH]; [reflexivity|].
  cbn [find_desktop_files]. unfold bind at 1.
  destruct (Py.endswith ".desktop" n).
  - unfold bind at 1. pose proof (read_text_world n w) as Hr.
    destruct (read_text n w) as [[text|e] w1]; cbn [snd] in Hr; subst w1;
      [|reflexivity].
    unfold ret at 1. unfold bind at 1.
    destruct (find_desktop_files package_name names w) as [[more|e] w2];
      cbn [snd] in IH; subst w2; reflexivity.
  - unfold ret at 1. unfold bind at 1.
    destruct (find_desktop_files package_name names w) as [[more|e] w2];
      cbn [snd] in IH; subst w2; reflexivity.
Qed.

Lemma update_desktop_file_db (visible : bool) (name : string) (w : world) :
  w_db (update_desktop_file visible name w).2 = w_db w.
Proof.
  unfold update_desktop_file. unfold bind at 1.
  pose proof (read_text_world name w) as Hr.
  destruct (read_text name w) as [[text|e] w1]; cbn [snd] in Hr; subst w1;
    [|reflexivity].
  unfold write_text. run.
  destruct (w_apps w) as [files|]; [|reflexivity].
  destruct (lookup_file name files) as [f|]; [|reflexivity].
  destruct (writable f); reflexivity.
Qed.

Lemma for_each_db {A : Type} (body : A → M unit) (l : list A) (w : world) :
  (∀ x w1, w_db (body x w1).2 = w_db w1) →
  w_db (for_each l body w).2 = w_db w.
Proof.
  intros Hbody. revert w. induction l as [|x l IH]; intros w; [reflexivity|].
  cbn [for_each]. unfold bind. specialize (Hbody x w).
  destruct (body x w) as [[u|e] w1]; cbn [snd] in Hbody |- *.
  - rewrite IH. exact Hbody.
  - exact Hbody.
Qed.

(** However the rewriting of the desktop entries goes,
    [set_app_visibility] leaves in the store the row it has written
    first. *)
Lemma set_app_visibility_store (package_name app_name : string)
    (visible : bool) (w : world) :
  w_db (set_app_visibility package_name app_name visible w).2
  = WaydroidDBHandler.set_app_visibility package_name app_name visible
      (w_db w)
  ∧ app_visibility
      (w_db (set_app_visibility package_name app_name visible w).2)
    !! package_name
    = Some (app_name, if visible then 1 else 0).
Proof.
  assert (Hdb : w_db (set_app_visibility package_name app_name visible w).2
                = WaydroidDBHandler.set_app_visibility package_name app_name
                    visible (w_db w)).
  { unfold set_app_visibility, try_except.
    unfold bind at 1. unfold db_exec at 1.
    set (w1 := with_db _ w).
    unfold bind at 1. unfold get_world at 1. unfold bind at 1.
    set (find := match w_apps w1 with
                 | Some files => find_desktop_files package_name files.*1
                 | None => ret []
                 end).
    assert (Hfind : (find w1).2 = w1).
    { unfold find. destruct (w_apps w1);
        [apply find_desktop_files_world|reflexivity]. }
    destruct (find w1) as [[files|e] w2]; cbn [snd] in Hfind; subst w2.
    - unfold bind at 1.
      pose proof (for_each_db (update_desktop_file visible) files w1
                    (update_desktop_file_db visible)) as Hfor.
      destruct (for_each files (update_desktop_file visible) w1)
        as [[u|e] w3]; cbn [snd] in Hfor |- *.
      + unfold ret. cbn [snd]. rewrite Hfor. reflexivity.
      + run. rewrite Hfor. reflexivity.
    - run. reflexivity. }
  split; [exact Hdb|]. rewrite Hdb.
  unfold WaydroidDBHandler.set_app_visibility. cbn [app_visibility].
  apply lookup_insert_eq.
Qed.

End DesktopEntries.

(** * The code at concrete worlds *)

Section Evaluation.

Import WaydroidController WaydroidDBusService.

(** C2: evaluation at the failing input. The container runs, the data
    archive is written and [tar] fails on the desktop entries:
    [backup_data] stops the container, returns [False], and does not
    call [start_container]; the container stays stopped. When no step
    fails, the same function does restart it as its last step. *)
Theorem backup_data_failure_leaves_container_stopped :
  let w := Scenario.apps_archive_fails in
  (is_container_running w).1 = Ok true
  ∧ (backup_data w).1 = Ok false
  ∧ w_trace (backup_data w).2
    = [EMakedirs "/home/user/Documents/WaydroidBackups";
       EMakedirs "/home/user/Documents/WaydroidBackups/waydroid_backup_2023-11-14_22-13-20";
       ERun cmd_status;
       ERun cmd_stop;
       ERun ["sudo"; "tar"; "czf";
             "/home/user/Documents/WaydroidBackups/waydroid_backup_2023-11-14_22-13-20/waydroid_data.tar.gz";
             "-C"; "/var/lib"; "waydroid"];
       ERun ["tar"; "czf";
             "/home/user/Documents/WaydroidBackups/waydroid_backup_2023-11-14_22-13-20/waydroid_apps.tar.gz";
             "-C"; "/home/user/.local/share/applications"; "waydroid"];
       ELogError "Failed to backup data: CalledProcessError 2"]
  ∧ (EPopen cmd_start ∉ w_trace (backup_data w).2)
  ∧ (backup_data Scenario.running).1 = Ok true
  ∧ last (w_trace (backup_data Scenario.running).2) = Some (EPopen cmd_start).
Proof.
  cbv zeta.
  assert (Htrace : w_trace (backup_data Scenario.apps_archive_fails).2
    = [EMakedirs "/home/user/Documents/WaydroidBackups";
       EMakedirs "/home/user/Documents/WaydroidBackups/waydroid_backup_2023-11-14_22-13-20";
       ERun cmd_status;
       ERun cmd_stop;
       ERun ["sudo"; "tar"; "czf";
             "/home/user/Documents/WaydroidBackups/waydroid_backup_2023-11-14_22-13-20/waydroid_data.tar.gz";
             "-C"; "/var/lib"; "waydroid"];
       ERun ["tar"; "czf";
             "/home/user/Documents/WaydroidBackups/waydroid_backup_2023-11-14_22-13-20/waydroid_apps.tar.gz";
             "-C"; "/home/user/.local/share/applications"; "waydroid"];
       ELogError "Failed to backup data: CalledProcessError 2"])
    by (vm_compute; reflexivity).
  split; [vm_compute; reflexivity|]. split; [vm_compute; reflexivity|].
  split; [exact Htrace|]. split; [|split; vm_compute; reflexivity].
  rewrite Htrace. intros Hin.
  repeat (apply elem_of_cons in Hin as [Hin|Hin]; [discriminate|]).
  inversion Hin.
Qed.

(** C3: evaluation at the failing input. The desktop entry of [com.foo]
    has no [NoDisplay] line and its last line has no newline:
    [set_app_visibility] returns [True] and records the flag in the
    store, but what it appends is glued to the last line, so that the
    file still has no line that starts with [NoDisplay=]. *)
Theorem set_app_visibility_glues_flag_to_last_line :
  let w := Scenario.running in
  let after := set_app_visibility "com.foo" "Foo" true w in
  (∃ f, w_apps w = Some [("com.foo.desktop", f)]
        ∧ Py.contains "com.foo" (content f) = true
        ∧ existsb (Py.startswith "NoDisplay=") (Py.readlines (content f))
          = false)
  ∧ after.1 = Ok true
  ∧ app_visibility (w_db after.2) !! "com.foo" = Some ("Foo", 1)
  ∧ ∃ f', w_apps after.2 = Some [("com.foo.desktop", f')]
          ∧ content f'
            = "[Desktop Entry]" +:+ Py.nl +:+ "Name=Foo" +:+ Py.nl
              +:+ "Exec=waydroid app launch com.fooNoDisplay=false" +:+ Py.nl
          ∧ existsb (Py.startswith "NoDisplay=") (Py.readlines (content f'))
            = false.
Proof.
  cbv zeta. split; [|split; [|split]].
  - eexists. split; [reflexivity|]. split; vm_compute; reflexivity.
  - vm_compute. reflexivity.
  - vm_compute. reflexivity.
  - eexists. split; [vm_compute; reflexivity|].
    split; vm_compute; reflexivity.
Qed.

(** C5: counterexample. [waydroid session start] ends with status 1, and
    [start_container] returns [True] without a log line. *)
Lemma start_container_ignores_exit_status :
  let w := Scenario.start_fails in
  failed (w_exec w cmd_start)
  ∧ (start_container w).1 = Ok true
  ∧ w_trace (start_container w).2 = [EPopen cmd_start].
Proof.
  cbv zeta. split; [|split; vm_compute; reflexivity].
  right. exists 1, "". split; [lia|]. vm_compute. reflexivity.
Qed.

(** C8: counterexample. Two [StartContainer] calls, handled one after
    the other, both answer [True] and leave two
    [waydroid session start] commands launched, neither waited for; and
    in whatever order two threads running the two calls are scheduled,
    the two commands are launched with nothing waited for in between. *)
Lemma two_starts_leave_two_commands_running :
  let w := Scenario.stopped in
  let after := dispatch [StartContainer; StartContainer] w in
  after.1 = Ok [true; true]
  ∧ launched_unawaited (w_exec w) (w_trace after.2) = [cmd_start; cmd_start]
  ∧ Forall (λ schedule,
              schedule = [EPopen cmd_start; EPopen cmd_start]
              ∧ launched_unawaited (w_exec w) schedule
                = [cmd_start; cmd_start])
      (merges (effects_of StartContainer w) (effects_of StartContainer w)).
Proof.
  cbv zeta. split; [vm_compute; reflexivity|].
  split; [vm_compute; reflexivity|].
  assert (He : effects_of StartContainer Scenario.stopped = [EPopen cmd_start])
    by (vm_compute; reflexivity).
  rewrite He. cbn [merges List.map app].
  repeat constructor.
Qed.

(** C10: counterexample. The data directory may not be listed, so the
    measurement fails after the CPU and RAM figures have been assigned:
    the sample returned and stored is not (0, 0, 0). *)
Lemma sampling_failure_keeps_measured_figures :
  let w := Scenario.data_unreadable in
  let after := get_container_resource_usage w in
  (measure w).2 = Some PermissionError
  ∧ after.1 = Ok ((50 # 4)%Q, (1048576 # 1048576)%Q, 0%Q)
  ∧ resource_logs (w_db after.2)
    = [(1, Sample 1700000000 (50 # 4) (1048576 # 1048576) 0)]
  ∧ ¬ (50 # 4 == 0)%Q ∧ ¬ (1048576 # 1048576 == 0)%Q.
Proof.
  cbv zeta. split; [vm_compute; reflexivity|].
  split; [vm_compute; reflexivity|]. split; [vm_compute; reflexivity|].
  split; intros H; discriminate H.
Qed.

End Evaluation.

Section Witnesses.

Import WaydroidDBHandler WaydroidController WaydroidDBusService.

(** The scenario of the specification: after samples with timestamps
    1 to 150 the table holds 100 rows, with timestamps 51 to 150. *)
Example retention_scenario_150 :
  (λ r : Z * sample, timestamp r.2)
    <$> resource_logs (Scenario.log_samples 1 150 Scenario.db0)
  = seqZ 51 100.
Proof. vm_compute. reflexivity. Qed.

(** A full table: the 101st sample evicts one row. *)
Lemma log_resource_usage_keeps_newest_100_witness :
  NoDup (resource_logs (Scenario.log_samples 1 100 Scenario.db0)).*1
  ∧ length (resource_logs
              (log_resource_usage 101 0 0 0
                 (Scenario.log_samples 1 100 Scenario.db0)))
    = Nat.min 100
        (length (resource_logs (Scenario.log_samples 1 100 Scenario.db0)
                 ++ [(Sql.next_rowid
                        (resource_logs (Scenario.log_samples 1 100 Scenario.db0)),
                      Sample 101 0 0 0)])%list).
Proof.
  assert (H : NoDup (resource_logs (Scenario.log_samples 1 100 Scenario.db0)).*1).
  { apply (bool_decide_unpack _). vm_compute. exact I. }
  split; [exact H|].
  exact (proj1 (log_resource_usage_keeps_newest_100 101 0 0 0 _ H)).
Defined.

Lemma ensure_db_exists_idempotent_witness :
  (({["auto_start" := "1"]} : gmap string string) !! "auto_start" = Some "1"
   ∧ get_setting "auto_start"
       (_ensure_db_exists 1700000000 Scenario.customised)
     = Some "1")
  ∧ (({["auto_start" := "1"]} : gmap string string) !! "last_backup_time"
     = None
     ∧ get_setting "last_backup_time"
         (_ensure_db_exists 1700000000 Scenario.customised)
       = (list_to_map (default_settings 1700000000) : gmap string string)
           !! "last_backup_time")
  ∧ (file_resource_logs (on_disk Scenario.db0) = Some []
     ∧ resource_logs (_ensure_db_exists 5 (on_disk Scenario.db0)) = []).
Proof.
  assert (H1 : ({["auto_start" := "1"]} : gmap string string) !! "auto_start"
               = Some "1") by reflexivity.
  assert (H2 : ({["auto_start" := "1"]} : gmap string string)
                 !! "last_backup_time" = None) by reflexivity.
  assert (H3 : file_resource_logs (on_disk Scenario.db0) = Some [])
    by reflexivity.
  split; [split; [exact H1|]|split; [split; [exact H2|]|split; [exact H3|]]].
  - exact (proj1 (proj2 (ensure_db_exists_idempotent 1700000000 0
                           Scenario.customised)) "auto_start" "1" H1).
  - exact (proj1 (proj2 (proj2 (ensure_db_exists_idempotent 1700000000 0
                                  Scenario.customised)))
             "last_backup_time" H2).
  - exact (proj2 (proj2 (proj2 (proj2 (proj2
             (ensure_db_exists_idempotent 5 0 (on_disk Scenario.db0))))))
             [] H3).
Defined.

Lemma set_setting_get_setting_witness :
  (("volume" ∉ dom (settings Scenario.db0))
   ∧ get_setting "volume" Scenario.db0 = None)
  ∧ ("auto_update" ≠ "auto_start"
     ∧ get_setting "auto_update"
         (set_setting "auto_start" (Py.VStr "1") Scenario.db0)
       = get_setting "auto_update" Scenario.db0).
Proof.
  assert (H1 : "volume" ∉ dom (settings Scenario.db0)).
  { apply not_elem_of_dom. vm_compute. reflexivity. }
  assert (H2 : "auto_update" ≠ "auto_start") by discriminate.
  split; (split; [assumption|]).
  - exact (proj2 (proj2 (proj2 (proj2 set_setting_get_setting)))
             "volume" Scenario.db0 H1).
  - exact (proj2 (proj1 (proj2 (proj2 set_setting_get_setting))
                    "auto_start" (Py.VStr "1") Scenario.db0)
             "auto_update" H2).
Defined.

Lemma restore_data_without_backup_witness :
  not_given None = true
  ∧ (∃ msg, restore_data None Scenario.empty_backups
            = (Ok false,
               with_trace (w_trace Scenario.empty_backups ++ [ELogError msg])
                 Scenario.empty_backups))
  ∧ (∃ latest,
       choose_backup_dir None Scenario.empty_backups
       = (Ok (Some latest), Scenario.empty_backups)
       ∧ latest ∈ backup_dirs Scenario.empty_backups ["old"; "new"]
       ∧ ∀ d, d ∈ backup_dirs Scenario.empty_backups ["old"; "new"] →
              w_getmtime Scenario.empty_backups d
              <= w_getmtime Scenario.empty_backups latest).
Proof.
  split; [reflexivity|]. split.
  - apply (proj1 (restore_data_without_backup Scenario.empty_backups None
                    eq_refl)).
    right. exists ["old"; "new"]. split; [reflexivity|].
    intros d _. split; reflexivity.
  - destruct (proj2 (restore_data_without_backup Scenario.empty_backups None
                       eq_refl) ["old"; "new"] eq_refl)
      as (latest & Hchoose & Hin & Hmax & _).
    + vm_compute. discriminate.
    + exists latest. split; [exact Hchoose|]. split; [exact Hin|exact Hmax].
Defined.

Lemma runtime_operations_report_failure_witness :
  (failed (w_exec Scenario.no_waydroid cmd_stop)
   ∧ ∃ e, stop_container Scenario.no_waydroid
          = (Ok false,
             with_trace (w_trace Scenario.no_waydroid ++
               [ERun cmd_stop;
                ELogError ("Failed to stop container: " +:+ show_exn e)])
               Scenario.no_waydroid))
  ∧ (w_exec Scenario.no_waydroid cmd_start = Missing
     ∧ (start_container Scenario.no_waydroid).1 = Ok false)
  ∧ (w_exec Scenario.start_fails cmd_start = Exited 1 ""
     ∧ (start_container Scenario.start_fails).1 = Ok true)
  ∧ (w_exec Scenario.no_waydroid cmd_status = Missing
     ∧ (is_container_running Scenario.no_waydroid).1 = Ok false)
  ∧ (1 ≠ 0 ∧ w_exec Scenario.status_fails cmd_status = Exited 1 ""
     ∧ (is_container_running Scenario.status_fails).1 = Ok false).
Proof.
  assert (H1 : failed (w_exec Scenario.no_waydroid cmd_stop))
    by (left; reflexivity).
  assert (H2 : w_exec Scenario.no_waydroid cmd_start = Missing)
    by reflexivity.
  assert (H3 : w_exec Scenario.start_fails cmd_start = Exited 1 "")
    by reflexivity.
  assert (H4 : w_exec Scenario.no_waydroid cmd_status = Missing)
    by reflexivity.
  assert (H5 : w_exec Scenario.status_fails cmd_status = Exited 1 "")
    by reflexivity.
  assert (H6 : 1 ≠ 0) by lia.
  pose proof (runtime_operations_report_failure Scenario.no_waydroid)
    as (Hstop & _ & _ & Hstart & _ & Hstatus & _).
  pose proof (runtime_operations_report_failure Scenario.start_fails)
    as (_ & _ & _ & _ & Hlaunched & _).
  pose proof (runtime_operations_report_failure Scenario.status_fails)
    as (_ & _ & _ & _ & _ & _ & Hexit).
  split; [split; [exact H1|exact (Hstop H1)]|].
  split; [split; [exact H2|rewrite (Hstart H2); reflexivity]|].
  split; [split; [exact H3|rewrite (Hlaunched 1 "" H3); reflexivity]|].
  split; [split; [exact H4|rewrite (Hstatus H4); reflexivity]|].
  split; [exact H6|]. split; [exact H5|].
  rewrite (Hexit 1 "" H6 H5). reflexivity.
Defined.


Lemma start_commands_are_not_awaited_witness :
  (w_exec Scenario.stopped cmd_start = Exited 0 ""
   ∧ launched_unawaited (w_exec Scenario.stopped)
       (w_trace (dispatch (replicate 2 StartContainer) Scenario.stopped).2)
     = (launched_unawaited (w_exec Scenario.stopped)
          (w_trace Scenario.stopped)
        ++ replicate 2 cmd_start)%list)
  ∧ (∃ answer evs,
       stop_container Scenario.stopped
       = (answer, with_trace (w_trace Scenario.stopped ++ evs)
                    Scenario.stopped)
       ∧ launched_unawaited (w_exec Scenario.stopped) evs = [])
  ∧ ([EPopen cmd_start; EPopen cmd_start]
       ∈ merges (effects_of StartContainer Scenario.stopped)
                (effects_of StartContainer Scenario.stopped)
     ∧ launched_unawaited (w_exec Scenario.stopped)
         [EPopen cmd_start; EPopen cmd_start]
       = [cmd_start; cmd_start]).
Proof.
  assert (H : w_exec Scenario.stopped cmd_start = Exited 0 "") by reflexivity.
  assert (Hin : [EPopen cmd_start; EPopen cmd_start]
                  ∈ merges (effects_of StartContainer Scenario.stopped)
                           (effects_of StartContainer Scenario.stopped))
    by (vm_compute; left).
  pose proof (start_commands_are_not_awaited Scenario.stopped)
    as (Hwait & Hseq & Hmerge).
  split; [split; [exact H|exact (proj2 (Hseq 0 "" 2%nat H))]|].
  split; [exact (Hwait stop_container (or_introl eq_refl))|].
  split; [exact Hin|exact (Hmerge 0 "" _ H Hin)].
Defined.

Lemma resource_usage_logged_on_every_call_witness :
  ((measure Scenario.data_unreadable).2 = Some PermissionError
   ∧ ((measure Scenario.data_unreadable).1.2 == 0)%Q)
  ∧ (waydroid_processes (w_processes Scenario.process_unreadable)
     = inl AttributeError
     ∧ (measure Scenario.process_unreadable).1 = (0, 0, 0)%Q)
  ∧ (NoDup (resource_logs (w_db Scenario.running)).*1
     ∧ (length (resource_logs (w_db Scenario.running)) < 100)%nat
     ∧ length (resource_logs
                 (w_db (get_container_resource_usage Scenario.running).2))
       = S (length (resource_logs (w_db Scenario.running)))).
Proof.
  assert (H1 : (measure Scenario.data_unreadable).2 = Some PermissionError)
    by (vm_compute; reflexivity).
  assert (H2 : waydroid_processes (w_processes Scenario.process_unreadable)
               = inl AttributeError) by reflexivity.
  assert (H3 : NoDup (resource_logs (w_db Scenario.running)).*1)
    by apply NoDup_nil_2.
  assert (H4 : (length (resource_logs (w_db Scenario.running)) < 100)%nat)
    by (vm_compute; lia).
  pose proof (resource_usage_logged_on_every_call Scenario.data_unreadable)
    as (_ & _ & _ & Hfail & _).
  pose proof (resource_usage_logged_on_every_call Scenario.process_unreadable)
    as (_ & _ & _ & _ & Hscan).
  pose proof (resource_usage_logged_on_every_call Scenario.running)
    as (_ & _ & Hrow & _).
  split; [split; [exact H1|exact (proj2 (Hfail _ H1))]|].
  split; [split; [exact H2|exact (proj2 (Hscan _ H2))]|].
  split; [exact H3|]. split; [exact H4|exact (Hrow H3 H4)].
Defined.

End Witnesses.

(** * More of the code: the store as a queue, the outcomes of backup and
    restore, the desktop entries as a directory *)

(** ** The table of app visibility *)

Section StoreExtras.
Import WaydroidDBHandler.

(** X1. Writing a row of [app_visibility] and reading the table back:
    after [set_app_visibility] the table lists the package once, with
    the name and the flag just given (1 for visible, 0 for hidden), and
    every other package as before; the package names stay distinct and
    the two other tables are not touched. *)
Theorem app_visibility_round_trip (package_name app_name : string)
    (visible : bool) (db : database) :
  let db' := set_app_visibility package_name app_name visible db in
  (∀ q row,
      (q, row) ∈ get_app_visibility db'
      ↔ (q = package_name ∧ row = (app_name, if visible then 1 else 0))
        ∨ (q ≠ package_name ∧ (q, row) ∈ get_app_visibility db))
  ∧ NoDup (get_app_visibility db').*1
  ∧ settings db' = settings db
  ∧ resource_logs db' = resource_logs db.
Proof.
  intros db'. split; [|split; [|split; reflexivity]].
  - intros q row. unfold get_app_visibility, db', set_app_visibility.
    cbn [app_visibility]. unfold Sql.insert_or_replace.
    rewrite !elem_of_map_to_list.
    destruct (decide (q = package_name)) as [->|Hne].
    + rewrite lookup_insert_eq. split.
      * intros [= <-]. left. split; reflexivity.
      * intros [[_ ->]|[Hne _]]; [reflexivity|congruence].
    + rewrite lookup_insert_ne by congruence. split.
      * intros H. right. split; assumption.
      * intros [[-> _]|[_ H]]; [congruence|exact H].
  - apply NoDup_fst_map_to_list.
Qed.

End StoreExtras.

(** ** The table of samples as a queue *)

Section Fifo.
Import WaydroidDBHandler.

#[local] Instance newer_first_transitive : Transitive Sql.newer_first.
Proof. intros a b c. unfold Sql.newer_first. lia. Qed.

#[local] Instance newer_first_is_total : Total Sql.newer_first.
Proof. intros a b. unfold Sql.newer_first. lia. Qed.

Lemma chronological_snoc (t : list (Z * sample)) (s : sample) :
  chronological t →
  (∀ r, r ∈ t → timestamp r.2 < timestamp s) →
  chronological (t ++ [(Sql.next_rowid t, s)]).
Proof.
  intros Hc Hnew. unfold chronological. apply StronglySorted_app_2.
  - intros a b Ha Hb. apply list_elem_of_singleton in Hb. subst b.
    cbn [fst snd]. split; [|exact (Hnew a Ha)].
    assert (a.1 ∈ t.*1) as Hin.
    { apply list_elem_of_fmap. exists a. split; [reflexivity|exact Ha]. }
    apply le_foldr_max in Hin. unfold Sql.next_rowid. lia.
  - exact Hc.
  - repeat constructor.
Qed.

Lemma chronological_NoDup (t : list (Z * sample)) :
  chronological t → NoDup t.*1.
Proof.
  induction 1 as [|a t Hs IH Hall]; [constructor|].
  cbn [fmap list_fmap]. constructor; [|exact IH].
  intros Hin. apply list_elem_of_fmap in Hin as (b & Hab & Hb).
  rewrite Forall_forall in Hall. specialize (Hall b Hb). lia.
Qed.

Lemma chronological_reverse (t : list (Z * sample)) :
  chronological t → StronglySorted Sql.newer_first (reverse t).
Proof.
  induction 1 as [|a t Hs IH Hall]; [constructor|].
  rewrite reverse_cons. apply StronglySorted_app_2.
  - intros b c Hb Hc. apply list_elem_of_singleton in Hc. subst c.
    rewrite elem_of_reverse in Hb. rewrite Forall_forall in Hall.
    specialize (Hall b Hb). unfold Sql.newer_first. lia.
  - exact IH.
  - repeat constructor.
Qed.

Lemma chronological_same_time (t : list (Z * sample)) (a b : Z * sample) :
  chronological t → a ∈ t → b ∈ t →
  timestamp a.2 = timestamp b.2 → a = b.
Proof.
  induction 1 as [|x t Hs IH Hall]; intros Ha Hb Heq; [inversion Ha|].
  rewrite Forall_forall in Hall.
  apply elem_of_cons in Ha as [->|Ha]; apply elem_of_cons in Hb as [->|Hb].
  - reflexivity.
  - specialize (Hall b Hb). lia.
  - specialize (Hall a Ha). lia.
  - exact (IH Ha Hb Heq).
Qed.

Lemma chronological_drop (k : nat) (t : list (Z * sample)) :
  chronological t → chronological (drop k t).
Proof.
  intros Hc. unfold chronological in *.
  rewrite <- (take_drop k t) in Hc. exact (StronglySorted_app_1_r _ _ _ Hc).
Qed.

Lemma order_by_chronological (t : list (Z * sample)) :
  chronological t → merge_sort Sql.newer_first t = reverse t.
Proof.
  intros Hc. apply (StronglySorted_unique_strong Sql.newer_first).
  - intros a b Ha Hb Hab Hba.
    rewrite merge_sort_Permutation in Ha. rewrite elem_of_reverse in Hb.
    apply (chronological_same_time t a b Hc Ha Hb).
    unfold Sql.newer_first in *. lia.
  - apply StronglySorted_merge_sort; apply _.
  - exact (chronological_reverse t Hc).
  - rewrite merge_sort_Permutation. symmetry. apply reverse_Permutation.
Qed.

Lemma log_resource_usage_drops_front (now : Z) (cpu ram storage : Q)
    (db : database) :
  chronological (resource_logs db) →
  (∀ r, r ∈ resource_logs db → timestamp r.2 < now) →
  let inserted :=
    (resource_logs db
       ++ [(Sql.next_rowid (resource_logs db), Sample now cpu ram storage)])%list in
  resource_logs (log_resource_usage now cpu ram storage db)
  = drop (length inserted - 100) inserted.
Proof.
  intros Hc Hnew inserted.
  assert (Hci : chronological inserted)
    by exact (chronological_snoc _ (Sample now cpu ram storage) Hc Hnew).
  unfold log_resource_usage. cbn [resource_logs].
  unfold Sql.select_newest_rowids, Sql.delete_rowid_not_in.
  fold inserted. unfold Sql.insert. fold inserted.
  rewrite (order_by_chronological inserted Hci), take_reverse.
  pose proof (chronological_NoDup inserted Hci) as Hnd.
  set (k := (length inserted - 100)%nat) in *.
  pose proof (take_drop k inserted) as Hsplit.
  remember (take k inserted) as front eqn:Efront.
  remember (drop k inserted) as keep eqn:Ekeep.
  rewrite <- Hsplit in Hnd |- *.
  rewrite fmap_app in Hnd. apply NoDup_app in Hnd as (_ & Hdisj & _).
  rewrite filter_app, filter_none, filter_all; [reflexivity| |].
  - intros x Hx. apply list_elem_of_fmap. exists x. split; [reflexivity|].
    rewrite elem_of_reverse. exact Hx.
  - intros x Hx Hin. apply (Hdisj x.1).
    + apply list_elem_of_fmap. exists x. split; [reflexivity|exact Hx].
    + apply list_elem_of_fmap in Hin as (y & Hxy & Hy).
      rewrite elem_of_reverse in Hy.
      apply list_elem_of_fmap. exists y. split; [exact Hxy|exact Hy].
Qed.

Lemma log_all_snoc (l : list (Z * Q * Q * Q)) (s : Z * Q * Q * Q)
    (db : database) :
  log_all (l ++ [s]) db
  = log_resource_usage s.1.1.1 s.1.1.2 s.1.2 s.2 (log_all l db).
Proof. unfold log_all. rewrite foldl_app. reflexivity. Qed.

Lemma log_all_queue (l : list (Z * Q * Q * Q)) (db : database) :
  resource_logs db = [] →
  StronglySorted (λ a b, a.1.1.1 < b.1.1.1) l →
  (resource_logs (log_all l db)).*2
  = drop (length l - 100) (as_sample <$> l)
  ∧ chronological (resource_logs (log_all l db)).
Proof.
  intros Hempty. induction l as [|s l IH] using rev_ind; intros Hs.
  - cbn. rewrite Hempty. split; [reflexivity|constructor].
  - apply StronglySorted_app in Hs as (Hlt & Hl & _).
    destruct (IH Hl) as [Hrows Hc].
    rewrite log_all_snoc.
    assert (Hnew : ∀ r, r ∈ resource_logs (log_all l db) →
                        timestamp r.2 < s.1.1.1).
    { intros r Hr.
      assert (r.2 ∈ (resource_logs (log_all l db)).*2) as Hin.
      { apply list_elem_of_fmap. exists r. split; [reflexivity|exact Hr]. }
      rewrite Hrows in Hin.
      apply (λ H, elem_of_sublist _ _ _ H (sublist_drop _ _)) in Hin.
      apply list_elem_of_fmap in Hin as (x & -> & Hx).
      cbn [timestamp as_sample]. apply (Hlt x s Hx). left. }
    pose proof (log_resource_usage_drops_front s.1.1.1 s.1.1.2 s.1.2 s.2
                  (log_all l db) Hc Hnew) as Hq. cbv zeta in Hq.
    split;
      [|rewrite Hq; apply chronological_drop, chronological_snoc; assumption].
    rewrite Hq. rewrite fmap_drop, fmap_app, Hrows. cbn [fmap list_fmap snd].
    rewrite fmap_app. cbn [fmap list_fmap].
    rewrite !length_app. cbn [length].
    assert (Hlen : length (resource_logs (log_all l db))
                   = (length l - (length l - 100))%nat).
    { rewrite <- (length_fmap snd), Hrows, length_drop, length_fmap.
      reflexivity. }
    rewrite Hlen.
    change (Sample s.1.1.1 s.1.1.2 s.1.2 s.2) with (as_sample s).
    destruct (decide (length l < 100)%nat) as [Hsmall|Hbig].
    + replace (length l - 100)%nat with 0%nat by lia.
      replace (length l - 0 + 1 - 100)%nat with 0%nat by lia.
      replace (length l + 1 - 100)%nat with 0%nat by lia.
      reflexivity.
    + replace (length l - (length l - 100) + 1 - 100)%nat with 1%nat by lia.
      rewrite drop_app_le by (rewrite length_drop, length_fmap; lia).
      rewrite drop_drop.
      rewrite drop_app_le by (rewrite length_fmap; lia).
      f_equal. f_equal. lia.
Qed.

(** X2. The table of samples is a queue. When the rows are in the order
    of their timestamps (and of their rowids) and the new sample is
    newer than all of them, [log_resource_usage] appends it at the end
    and, beyond 100 rows, drops rows from the front only: the table is
    the last 100 rows of the old table followed by the new row, it is
    still in the order of its timestamps, and its last row is the new
    sample. *)
Theorem log_resource_usage_is_a_queue (now : Z) (cpu ram storage : Q)
    (db : database) :
  chronological (resource_logs db) →
  (∀ r, r ∈ resource_logs db → timestamp r.2 < now) →
  let inserted :=
    (resource_logs db
       ++ [(Sql.next_rowid (resource_logs db), Sample now cpu ram storage)])%list in
  let db' := log_resource_usage now cpu ram storage db in
  resource_logs db' = drop (length inserted - 100) inserted
  ∧ chronological (resource_logs db')
  ∧ last (resource_logs db')
    = Some (Sql.next_rowid (resource_logs db), Sample now cpu ram storage).
Proof.
  intros Hc Hnew inserted db'.
  assert (Hrows : resource_logs db' = drop (length inserted - 100) inserted)
    by exact (log_resource_usage_drops_front now cpu ram storage db Hc Hnew).
  split; [exact Hrows|]. rewrite Hrows. split.
  - apply chronological_drop.
    exact (chronological_snoc _ (Sample now cpu ram storage) Hc Hnew).
  - unfold inserted.
    rewrite drop_app_le by (rewrite length_app; cbn [length]; lia).
    apply last_snoc.
Qed.

(** X3. Samples logged one after another into an empty table, at
    strictly growing times: whatever their number, the table then holds
    the last 100 of them (all of them when they are fewer), in the order
    in which they were logged; it never holds more than 100 rows, and
    the rowids are distinct. *)
Theorem successive_samples_keep_the_latest_100
    (samples : list (Z * Q * Q * Q)) (db : database) :
  resource_logs db = [] →
  StronglySorted (λ a b, a.1.1.1 < b.1.1.1) samples →
  (resource_logs (log_all samples db)).*2
  = drop (length samples - 100) (as_sample <$> samples)
  ∧ length (resource_logs (log_all samples db))
    = Nat.min 100 (length samples)
  ∧ NoDup (resource_logs (log_all samples db)).*1.
Proof.
  intros Hempty Hsorted.
  destruct (log_all_queue samples db Hempty Hsorted) as [Hrows Hc].
  split; [exact Hrows|]. split.
  - rewrite <- (length_fmap snd), Hrows, length_drop, length_fmap. lia.
  - exact (chronological_NoDup _ Hc).
Qed.

End Fifo.

Section MonitorQueue.
Import WaydroidController WaydroidDBusService.






End MonitorQueue.

(** ** A call by its steps *)

Section Wp.
Import WaydroidController.

Lemma world_normal (w : world) :
  with_db (w_db w) (with_trace (w_trace w) w) = w.
Proof. destruct w; reflexivity. Qed.

Lemma steps_run {A : Type} (m : M A) (w : world) (r : result A)
    (evs : list event) (f : database → database) :
  steps m w r evs f →
  m w = (r, with_db (f (w_db w)) (with_trace (w_trace w ++ evs) w)).
Proof. intros H. rewrite <- (world_normal w) at 1. apply H. Qed.

Lemma steps_ret {A : Type} (a : A) (w : world) : steps (ret a) w (Ok a) [] id.
Proof. intros t d. unfold ret. rewrite app_nil_r. reflexivity. Qed.

Lemma steps_db_exec (g : database → database) (w : world) :
  steps (db_exec g) w (Ok tt) [] g.
Proof. intros t d. unfold db_exec. cbn. rewrite app_nil_r. reflexivity. Qed.

Lemma steps_makedirs (path : string) (w : world) :
  steps (makedirs path) w
    (match w_makedirs w path with Some e => Raise e | None => Ok tt end)
    [EMakedirs path] id.
Proof.
  intros t d. run. destruct (w_makedirs w path); reflexivity.
Qed.

Lemma steps_run_check (cmd : argv) (w : world) :
  steps (subprocess.run_check cmd) w (run_result (w_exec w cmd)) [ERun cmd] id.
Proof.
  intros t d. run. destruct (w_exec w cmd) as [| |c out]; try reflexivity.
  destruct c; reflexivity.
Qed.

Lemma steps_bind_ok {A B : Type} (m : M A) (k : A → M B) (w : world) (a : A)
    (r : result B) (e1 e2 : list event) (f1 f2 : database → database) :
  steps m w (Ok a) e1 f1 → steps (k a) w r e2 f2 →
  steps (bind m k) w r (e1 ++ e2) (λ d, f2 (f1 d)).
Proof.
  intros H1 H2 t d. unfold bind. rewrite H1, H2, app_assoc. reflexivity.
Qed.

Lemma steps_bind_raise {A B : Type} (m : M A) (k : A → M B) (w : world)
    (e : exn) (e1 : list event) (f1 : database → database) :
  steps m w (Raise e) e1 f1 → steps (bind m k) w (Raise e) e1 f1.
Proof. intros H1 t d. unfold bind. rewrite H1. reflexivity. Qed.

Lemma wp_ret {A : Type} (a : A) (w : world)
    (Q : result _ → list event → (database → database) → Prop) :
  Q (Ok a) [] id → wp (ret a) w Q.
Proof. intros H. exists (Ok a), [], id. split; [apply steps_ret|exact H]. Qed.

Lemma wp_bind {A B : Type} (m : M A) (k : A → M B) (w : world)
    (r1 : result A) (e1 : list event) (f1 : database → database)
    (Q : result B → list event → (database → database) → Prop) :
  steps m w r1 e1 f1 →
  match r1 with
  | Ok a => wp (k a) w (λ r evs f, Q r (e1 ++ evs)%list (λ d, f (f1 d)))
  | Raise e => Q (Raise e) e1 f1
  end →
  wp (bind m k) w Q.
Proof.
  intros H1 H2. destruct r1 as [a|e].
  - destruct H2 as (r & e2 & f2 & Hs & HQ).
    exists r, (e1 ++ e2)%list, (λ d, f2 (f1 d)).
    split; [exact (steps_bind_ok _ _ _ _ _ _ _ _ _ H1 Hs)|exact HQ].
  - exists (Raise e), e1, f1.
    split; [exact (steps_bind_raise _ _ _ _ _ _ H1)|exact H2].
Qed.

Lemma wp_try_except {A : Type} (m : M A) (h : exn → M A) (w : world)
    (Q : result _ → list event → (database → database) → Prop) :
  wp m w (λ r1 e1 f1,
            match r1 with
            | Ok a => Q (Ok a) e1 f1
            | Raise e =>
                wp (h e) w (λ r evs f, Q r (e1 ++ evs)%list (λ d, f (f1 d)))
            end) →
  wp (try_except m h) w Q.
Proof.
  intros (r1 & e1 & f1 & Hs & H). destruct r1 as [a|e].
  - exists (Ok a), e1, f1. split; [|exact H].
    intros t d. unfold try_except. rewrite Hs. reflexivity.
  - destruct H as (r & e2 & f2 & Hh & HQ).
    exists r, (e1 ++ e2)%list, (λ d, f2 (f1 d)). split; [|exact HQ].
    intros t d. unfold try_except. rewrite Hs, Hh, app_assoc. reflexivity.
Qed.

Lemma wp_get_world {A : Type} (k : world → M A) (w : world)
    (Q : result _ → list event → (database → database) → Prop) :
  (∀ t d, k (with_db d (with_trace t w)) = k w) →
  wp (k w) w Q → wp (bind get_world k) w Q.
Proof.
  intros Hk (r & evs & f & Hs & HQ). exists r, evs, f. split; [|exact HQ].
  intros t d. unfold bind, get_world. rewrite Hk. apply Hs.
Qed.

Lemma wp_log_ret {A : Type} (msg : string) (a : A) (w : world)
    (Q : result _ → list event → (database → database) → Prop) :
  Q (Ok a) [ELogError msg] id → wp (log_error msg ;; ret a) w Q.
Proof.
  intros H. exists (Ok a), [ELogError msg], id. split; [|exact H].
  intros t d. reflexivity.
Qed.

End Wp.

(** ** The steps of backup and restore *)

Section Lifecycle.
Import WaydroidController.

Lemma lifecycle_calls_app (t1 t2 : list event) :
  lifecycle_calls (t1 ++ t2) = (lifecycle_calls t1 ++ lifecycle_calls t2)%list.
Proof. unfold lifecycle_calls. apply List.filter_app. Qed.

Lemma lifecycle_calls_archive (c : bool) (cmd : argv) :
  cmd ≠ cmd_stop → lifecycle_calls (if c then [ERun cmd] else []) = [].
Proof.
  intros Hne. destruct c; [|reflexivity].
  unfold lifecycle_calls. cbn [List.filter].
  rewrite (bool_decide_eq_false_2 _ Hne). reflexivity.
Qed.

Lemma steps_awaited (cmd : argv) (msg : string) (w : world) :
  steps (try_except (subprocess.run_check cmd ;; ret true)
           (λ e, log_error (msg +:+ show_exn e) ;; ret false)) w
    (Ok (match run_result (w_exec w cmd) with Ok _ => true | Raise _ => false end))
    (ERun cmd :: match run_result (w_exec w cmd) with
                 | Ok _ => []
                 | Raise e => [ELogError (msg +:+ show_exn e)]
                 end) id.
Proof.
  intros t d. run.
  destruct (w_exec w cmd) as [| |[|p|p] out]; cbn [run_result]; world_eq.
Qed.

Lemma steps_is_container_running (w : world) :
  ∃ evs, steps is_container_running w (is_container_running w).1 evs id
         ∧ lifecycle_calls evs = [].
Proof.
  rewrite is_container_running_cases.
  destruct (w_exec w cmd_status) as [| |c out] eqn:He; cbn [fst].
  - exists [ERun cmd_status;
             ELogError "Waydroid command not found. Is Waydroid installed?"].
    split; [|reflexivity].
    intros t d. rewrite is_container_running_cases.
    cbn [w_exec with_db with_trace w_trace]. rewrite He. reflexivity.
  - exists [ERun cmd_status]. split; [|reflexivity].
    intros t d. rewrite is_container_running_cases.
    cbn [w_exec with_db with_trace w_trace]. rewrite He. reflexivity.
  - exists [ERun cmd_status]. split; [|reflexivity].
    intros t d. rewrite is_container_running_cases.
    cbn [w_exec with_db with_trace w_trace]. rewrite He. reflexivity.
Qed.

Lemma steps_stop_container (w : world) :
  ∃ b evs, steps stop_container w (Ok b) evs id
           ∧ lifecycle_calls evs = [ERun cmd_stop].
Proof.
  eexists _, _. split; [apply steps_awaited|].
  fold cmd_stop. destruct (run_result (w_exec w cmd_stop)); reflexivity.
Qed.

Lemma steps_start_container (w : world) :
  ∃ b evs, steps start_container w (Ok b) evs id
           ∧ lifecycle_calls evs = [EPopen cmd_start].
Proof.
  unfold start_container. fold cmd_start.
  destruct (w_exec w cmd_start) as [| |c out] eqn:He.
  - exists false, [EPopen cmd_start;
                   ELogError ("Failed to start container: "
                              +:+ show_exn FileNotFoundError)].
    split; [|reflexivity]. intros t d. run. rewrite He. world_eq.
  - exists false, [EPopen cmd_start;
                   ELogError ("Failed to start container: "
                              +:+ show_exn PermissionError)].
    split; [|reflexivity]. intros t d. run. rewrite He. world_eq.
  - exists true, [EPopen cmd_start].
    split; [|reflexivity]. intros t d. run. rewrite He. world_eq.
Qed.

Lemma steps_when_stop (c : bool) (w : world) :
  ∃ evs, steps (when c (stop_container ;; ret tt)) w (Ok tt) evs id
         ∧ lifecycle_calls evs = if c then [ERun cmd_stop] else [].
Proof.
  destruct c; cbn [when].
  - destruct (steps_stop_container w) as (b & evs & Hs & Hl).
    exists evs. split; [|exact Hl].
    intros t d. unfold bind. rewrite Hs. reflexivity.
  - exists []. split; [apply steps_ret|reflexivity].
Qed.

Lemma steps_when_start (c : bool) (w : world) :
  ∃ evs, steps (when c (start_container ;; ret tt)) w (Ok tt) evs id
         ∧ lifecycle_calls evs = if c then [EPopen cmd_start] else [].
Proof.
  destruct c; cbn [when].
  - destruct (steps_start_container w) as (b & evs & Hs & Hl).
    exists evs. split; [|exact Hl].
    intros t d. unfold bind. rewrite Hs. reflexivity.
  - exists []. split; [apply steps_ret|reflexivity].
Qed.

Lemma steps_when_run_check (c : bool) (cmd : argv) (w : world) :
  steps (when c (subprocess.run_check cmd)) w
    (if c then run_result (w_exec w cmd) else Ok tt)
    (if c then [ERun cmd] else []) id.
Proof.
  destruct c; cbn [when]; [apply steps_run_check|apply steps_ret].
Qed.

Lemma run_result_ok (o : outcome) :
  run_result o = Ok tt → ∃ out, o = Exited 0 out.
Proof.
  destruct o as [| |[|p|p] out]; try discriminate. intros _. exists out.
  reflexivity.
Qed.

Lemma backup_cmd_data_not_stop (d : string) : backup_cmd_data d ≠ cmd_stop.
Proof. discriminate. Qed.

Lemma backup_cmd_apps_not_stop (home d : string) :
  backup_cmd_apps home d ≠ cmd_stop.
Proof. discriminate. Qed.

Lemma backup_data_wp (w : world) :
  wp backup_data w (λ r evs f,
    ∃ b, r = Ok b
      ∧ f = (if b then WaydroidDBHandler.set_setting "last_backup_time"
                         (Py.VInt (w_clock w)) else id)
      ∧ (b = true →
           w_makedirs w (BACKUP_PATH (w_home w)) = None
           ∧ w_makedirs w (new_backup_dir w) = None
           ∧ (∃ running, (is_container_running w).1 = Ok running
                ∧ lifecycle_calls evs
                  = if running then [ERun cmd_stop; EPopen cmd_start] else [])
           ∧ (path_exists (w_data w) = true →
                ∃ out, w_exec w (backup_cmd_data (new_backup_dir w))
                       = Exited 0 out)
           ∧ (path_exists (w_apps w) = true →
                ∃ out, w_exec w (backup_cmd_apps (w_home w) (new_backup_dir w))
                       = Exited 0 out))).
Proof.
  unfold backup_data. apply wp_try_except.
  apply wp_get_world; [reflexivity|].
  eapply wp_bind; [apply steps_makedirs|].
  destruct (w_makedirs w (BACKUP_PATH (w_home w))) as [e|] eqn:Hmk1.
  { apply wp_log_ret. exists false.
    split; [reflexivity|split; [reflexivity|discriminate]]. }
  eapply wp_bind; [apply steps_makedirs|].
  destruct (w_makedirs w (new_backup_dir w)) as [e|] eqn:Hmk2.
  { apply wp_log_ret. exists false.
    split; [reflexivity|split; [reflexivity|discriminate]]. }
  destruct (steps_is_container_running w) as (ev_run & Hrun & Lrun).
  eapply wp_bind; [exact Hrun|].
  destruct (is_container_running w).1 as [running|e] eqn:Hanswer.
  2:{ apply wp_log_ret. exists false.
    split; [reflexivity|split; [reflexivity|discriminate]]. }
  destruct (steps_when_stop running w) as (ev_stop & Hstop & Lstop).
  eapply wp_bind; [exact Hstop|]. cbv beta iota.
  eapply wp_bind; [apply steps_when_run_check|].
  destruct (if path_exists (w_data w) then _ else _) as [[]|e] eqn:Hdata.
  2:{ apply wp_log_ret. exists false.
    split; [reflexivity|split; [reflexivity|discriminate]]. }
  eapply wp_bind; [apply steps_when_run_check|].
  destruct (if path_exists (w_apps w) then _ else _) as [[]|e] eqn:Happs.
  2:{ apply wp_log_ret. exists false.
    split; [reflexivity|split; [reflexivity|discriminate]]. }
  eapply wp_bind; [apply steps_db_exec|]. cbv beta iota.
  destruct (steps_when_start running w) as (ev_start & Hstart & Lstart).
  eapply wp_bind; [exact Hstart|]. cbv beta iota.
  apply wp_ret. exists true.
  split; [reflexivity|]. split; [reflexivity|]. intros _.
  split; [reflexivity|]. split; [reflexivity|]. split; [|split].
  - exists running. split; [reflexivity|].
    rewrite !lifecycle_calls_app, Lrun, Lstop, Lstart.
    rewrite (lifecycle_calls_archive _ _ (backup_cmd_data_not_stop _)).
    rewrite (lifecycle_calls_archive _ _ (backup_cmd_apps_not_stop _ _)).
    destruct running; reflexivity.
  - intros Hex. rewrite Hex in Hdata. exact (run_result_ok _ Hdata).
  - intros Hex. rewrite Hex in Happs. exact (run_result_ok _ Happs).
Qed.


Lemma popen_calls_lifecycle (t : list event) :
  popen_calls t = popen_calls (lifecycle_calls t).
Proof.
  induction t as [|e t IH]; [reflexivity|].
  unfold lifecycle_calls in *. cbn [List.filter].
  destruct e as [cmd|cmd| | | |]; cbn [popen_calls omap] in *;
    try exact IH.
  - destruct (bool_decide (cmd = cmd_stop)); cbn [omap]; exact IH.
  - unfold popen_calls in IH. cbn. rewrite IH. reflexivity.
Qed.

Lemma steps_result {A : Type} (m : M A) (w : world) (r : result A)
    (evs : list event) (f : database → database) :
  steps m w r evs f → (m w).1 = r.
Proof. intros H. rewrite (steps_run _ _ _ _ _ H). reflexivity. Qed.

Lemma steps_choose_backup_dir (backup_dir : option string) (w : world) :
  ∃ evs, steps (choose_backup_dir backup_dir) w
           (choose_backup_dir backup_dir w).1 evs id
         ∧ lifecycle_calls evs = [].
Proof.
  assert (H : ∃ r evs, steps (choose_backup_dir backup_dir) w r evs id
                       ∧ lifecycle_calls evs = []).
  { unfold choose_backup_dir. destruct (not_given backup_dir).
    - destruct (w_listdir_backups w) as [names|] eqn:Hl.
      + destruct (backup_dirs w names) as [|d rest] eqn:Hd.
        * exists (Ok None), [ELogError "No backup found"].
          split; [|reflexivity].
          intros t db. unfold bind at 1, get_world at 1.
          cbn [w_listdir_backups with_db with_trace]. rewrite Hl.
          change (backup_dirs (with_db db (with_trace t w)) names)
            with (backup_dirs w names).
          rewrite Hd. reflexivity.
        * exists (Ok (Some (max_by (w_getmtime w) d rest))), [].
          split; [|reflexivity].
          intros t db. unfold bind at 1, get_world at 1.
          cbn [w_listdir_backups with_db with_trace]. rewrite Hl.
          change (backup_dirs (with_db db (with_trace t w)) names)
            with (backup_dirs w names).
          rewrite Hd, app_nil_r. reflexivity.
      + exists (Raise FileNotFoundError), []. split; [|reflexivity].
        intros t db. unfold bind at 1, get_world at 1.
        cbn [w_listdir_backups with_db with_trace]. rewrite Hl, app_nil_r.
        reflexivity.
    - exists (Ok backup_dir), []. split; [apply steps_ret|reflexivity]. }
  destruct H as (r & evs & Hs & Hl). exists evs.
  rewrite (steps_result _ _ _ _ _ Hs). split; assumption.
Qed.

Lemma steps_when_extract_apps (c : bool) (path : string) (cmd : argv)
    (w : world) :
  steps (when c (makedirs path ;; subprocess.run_check cmd)) w
    (if c then match w_makedirs w path with
               | Some e => Raise e
               | None => run_result (w_exec w cmd)
               end
     else Ok tt)
    (if c then EMakedirs path :: match w_makedirs w path with
                                 | Some _ => []
                                 | None => [ERun cmd]
                                 end
     else []) id.
Proof.
  destruct c; cbn [when]; [|apply steps_ret].
  pose proof (steps_makedirs path w) as Hmk.
  destruct (w_makedirs w path) as [e|].
  - exact (steps_bind_raise _ _ _ _ _ _ Hmk).
  - exact (steps_bind_ok _ _ _ _ _ _ _ _ _ Hmk (steps_run_check cmd w)).
Qed.

Lemma restore_cmd_data_not_stop (a : string) : restore_cmd_data a ≠ cmd_stop.
Proof. discriminate. Qed.

Lemma restore_cmd_apps_not_stop (home a : string) :
  restore_cmd_apps home a ≠ cmd_stop.
Proof. discriminate. Qed.

Lemma lifecycle_calls_run (cmd : argv) (t : list event) :
  cmd ≠ cmd_stop → lifecycle_calls (ERun cmd :: t) = lifecycle_calls t.
Proof.
  intros Hne. unfold lifecycle_calls. cbn [List.filter].
  rewrite (bool_decide_eq_false_2 _ Hne). reflexivity.
Qed.

Lemma lifecycle_calls_makedirs (path : string) (t : list event) :
  lifecycle_calls (EMakedirs path :: t) = lifecycle_calls t.
Proof. reflexivity. Qed.

Lemma lifecycle_calls_log (msg : string) (t : list event) :
  lifecycle_calls (ELogError msg :: t) = lifecycle_calls t.
Proof. reflexivity. Qed.

Lemma lifecycle_calls_after_makedirs (o : option exn) (cmd : argv) :
  cmd ≠ cmd_stop →
  lifecycle_calls match o with Some _ => [] | None => [ERun cmd] end = [].
Proof.
  intros Hne. destruct o; [reflexivity|].
  rewrite (lifecycle_calls_run _ _ Hne). reflexivity.
Qed.

Lemma restore_data_wp (backup_dir : option string) (w : world) :
  wp (restore_data backup_dir) w (λ r evs f,
    ∃ b, r = Ok b ∧ f = id
      ∧ (b = true →
           ∃ dir running,
             (choose_backup_dir backup_dir w).1 = Ok (Some dir)
             ∧ (w_exists w (data_archive dir) = true
                ∨ w_exists w (apps_archive dir) = true)
             ∧ (w_exists w (data_archive dir) = true →
                  ∃ out, w_exec w (restore_cmd_data (data_archive dir))
                         = Exited 0 out)
             ∧ (w_exists w (apps_archive dir) = true →
                  w_makedirs w (Py.dirname (WAYDROID_APPS_PATH (w_home w)))
                  = None
                  ∧ ∃ out, w_exec w (restore_cmd_apps (w_home w)
                                       (apps_archive dir))
                           = Exited 0 out)
             ∧ (is_container_running w).1 = Ok running
             ∧ lifecycle_calls evs
               = if running then [ERun cmd_stop; EPopen cmd_start] else [])
      ∧ (b = false →
           popen_calls evs = []
           ∧ ∀ dir,
               (choose_backup_dir backup_dir w).1 = Ok (Some dir) →
               w_exists w (data_archive dir) = true
               ∨ w_exists w (apps_archive dir) = true →
               (is_container_running w).1 = Ok true →
               lifecycle_calls evs = [ERun cmd_stop])).
Proof.
  unfold restore_data. apply wp_try_except.
  destruct (steps_choose_backup_dir backup_dir w) as (ev_ch & Hch & Lch).
  eapply wp_bind; [exact Hch|].
  destruct (choose_backup_dir backup_dir w).1 as [[dir|]|e] eqn:Hchosen.
  3:{ apply wp_log_ret. exists false.
      split; [reflexivity|]. split; [reflexivity|].
      split; [discriminate|]. intros _. split.
      - rewrite popen_calls_lifecycle, lifecycle_calls_app, Lch. reflexivity.
      - intros dir Hd. discriminate Hd. }
  2:{ apply wp_ret. exists false.
      split; [reflexivity|]. split; [reflexivity|].
      split; [discriminate|]. intros _. split.
      - rewrite popen_calls_lifecycle, lifecycle_calls_app, Lch. reflexivity.
      - intros dir Hd. discriminate Hd. }
  unfold restore_from.
  apply wp_get_world; [reflexivity|].
  destruct (w_exists w (data_archive dir)) eqn:Hdata;
    destruct (w_exists w (apps_archive dir)) eqn:Happs;
    cbn [negb andb].
  4:{ apply wp_log_ret. exists false.
      split; [reflexivity|]. split; [reflexivity|].
      split; [discriminate|]. intros _. split.
      - rewrite popen_calls_lifecycle, !lifecycle_calls_app, Lch. reflexivity.
      - intros dir' Hd. injection Hd as <-. intros [H|H]; congruence. }
  all: destruct (steps_is_container_running w) as (ev_run & Hrun & Lrun);
    (eapply wp_bind; [exact Hrun|]);
    destruct (is_container_running w).1 as [running|e] eqn:Hanswer.
  all: try (apply wp_log_ret; exists false;
            split; [reflexivity|]; split; [reflexivity|];
            split; [discriminate|]; intros _; split;
            [rewrite popen_calls_lifecycle, !lifecycle_calls_app, Lch, Lrun;
             reflexivity
            |intros dir' _ _ Hr; discriminate Hr]).
  all: destruct (steps_when_stop running w) as (ev_stop & Hstop & Lstop);
    (eapply wp_bind; [exact Hstop|]); cbv beta iota;
    (eapply wp_bind; [apply steps_when_run_check|]);
    match goal with
    | |- match ?r with _ => _ end => destruct r as [[]|e] eqn:Hex_data
    end.
  all: try (apply wp_log_ret; exists false;
            split; [reflexivity|]; split; [reflexivity|];
            split; [discriminate|]; intros _;
            match goal with
            | |- popen_calls ?evs = _ ∧ _ =>
                assert (Hlc : lifecycle_calls evs
                              = if running then [ERun cmd_stop] else [])
            end;
            [repeat first
              [ rewrite lifecycle_calls_app
              | rewrite lifecycle_calls_makedirs
              | rewrite lifecycle_calls_log
              | rewrite (lifecycle_calls_after_makedirs _ _
                           (restore_cmd_apps_not_stop _ _))
              | rewrite (lifecycle_calls_run _ _ (restore_cmd_data_not_stop _))
              | rewrite (lifecycle_calls_run _ _
                           (restore_cmd_apps_not_stop _ _)) ];
             rewrite Lch, Lrun, Lstop; destruct running; reflexivity|];
            split;
            [rewrite popen_calls_lifecycle, Hlc; destruct running; reflexivity
            |intros ? _ _ Hr; injection Hr as ->; exact Hlc]).
  all: (eapply wp_bind; [apply steps_when_extract_apps|]);
    match goal with
    | |- match ?r with _ => _ end => destruct r as [[]|e] eqn:Hex_apps
    end.
  all: try (apply wp_log_ret; exists false;
            split; [reflexivity|]; split; [reflexivity|];
            split; [discriminate|]; intros _;
            match goal with
            | |- popen_calls ?evs = _ ∧ _ =>
                assert (Hlc : lifecycle_calls evs
                              = if running then [ERun cmd_stop] else [])
            end;
            [repeat first
              [ rewrite lifecycle_calls_app
              | rewrite lifecycle_calls_makedirs
              | rewrite lifecycle_calls_log
              | rewrite (lifecycle_calls_after_makedirs _ _
                           (restore_cmd_apps_not_stop _ _))
              | rewrite (lifecycle_calls_run _ _ (restore_cmd_data_not_stop _))
              | rewrite (lifecycle_calls_run _ _
                           (restore_cmd_apps_not_stop _ _)) ];
             rewrite Lch, Lrun, Lstop; destruct running; reflexivity|];
            split;
            [rewrite popen_calls_lifecycle, Hlc; destruct running; reflexivity
            |intros ? _ _ Hr; injection Hr as ->; exact Hlc]).
  all: destruct (steps_when_start running w) as (ev_start & Hstart & Lstart);
    (eapply wp_bind; [exact Hstart|]); cbv beta iota;
    apply wp_ret; exists true;
    (split; [reflexivity|]); (split; [reflexivity|]);
    (split; [|discriminate]); intros _; exists dir, running;
    (split; [reflexivity|]).
  all: rewrite Hdata, Happs.
  all: split; [first [left; reflexivity|right; reflexivity]|].
  all: split; [first [discriminate|intros _; exact (run_result_ok _ Hex_data)]|].
  all: split;
    [first [discriminate
           |intros _;
            destruct (w_makedirs w (Py.dirname (WAYDROID_APPS_PATH (w_home w))));
            [discriminate Hex_apps
            |split; [reflexivity|exact (run_result_ok _ Hex_apps)]]]|].
  all: split; [reflexivity|].
  all: repeat first
      [ rewrite lifecycle_calls_app
      | rewrite lifecycle_calls_makedirs
      | rewrite lifecycle_calls_log
      | rewrite (lifecycle_calls_after_makedirs _ _
                   (restore_cmd_apps_not_stop _ _))
      | rewrite (lifecycle_calls_run _ _ (restore_cmd_data_not_stop _))
      | rewrite (lifecycle_calls_run _ _
                   (restore_cmd_apps_not_stop _ _)) ];
    rewrite Lch, Lrun, Lstop, Lstart; destruct running;
    reflexivity.
Qed.

End Lifecycle.

(** ** What the answers of the controller mean *)

Section Outcomes.
Import WaydroidController.

Lemma effects_of_steps {A : Type} (m : M A) (w : world) (r : result A)
    (evs : list event) (f : database → database) :
  steps m w r evs f → effects_of m w = evs.
Proof.
  intros H. unfold effects_of. rewrite (steps_run _ _ _ _ _ H).
  cbn [snd w_trace with_db with_trace]. apply drop_app_length.
Qed.


(** X6. [restart_container] always returns [True]: it asks the runtime to
    stop the container, waits two seconds and asks it to start, whether
    or not the stop command or the start command failed. *)
Theorem restart_container_always_true (w : world) :
  ∃ ev_stop ev_start,
    restart_container w
    = (Ok true,
       with_clock (w_clock w + 2)
         (with_trace (w_trace w ++ ev_stop ++ [ESleep 2] ++ ev_start) w))
    ∧ lifecycle_calls ev_stop = [ERun cmd_stop]
    ∧ lifecycle_calls ev_start = [EPopen cmd_start].
Proof.
  destruct (steps_stop_container w) as (b1 & ev_stop & Hstop & Lstop).
  destruct (steps_start_container (with_clock (w_clock w + 2) w))
    as (b2 & ev_start & Hstart & Lstart).
  exists ev_stop, ev_start. split; [|split; assumption].
  unfold restart_container, try_except. unfold bind at 1.
  rewrite (steps_run _ _ _ _ _ Hstop). unfold bind at 1. unfold sleep at 1.
  unfold bind at 1.
  specialize (Hstart (w_trace w ++ ev_stop ++ [ESleep 2])%list (w_db w)).
  match goal with |- context [start_container ?w1] =>
    replace (start_container w1) with
      (start_container (with_db (w_db w)
         (with_trace (w_trace w ++ ev_stop ++ [ESleep 2])
            (with_clock (w_clock w + 2) w))))
  end.
  - rewrite Hstart. unfold ret. f_equal. world_eq.
  - f_equal. world_eq.
Qed.

(** X7. [backup_data] never raises. Whatever happens on the way, it
    returns a boolean and leaves the world as it was but for the trace
    and, exactly when the answer is [True], for the setting
    [last_backup_time], which then holds the time of the call. *)
Theorem backup_data_records_its_time_on_success (w : world) :
  ∃ (answer : bool) (evs : list event),
    backup_data w
    = (Ok answer,
       with_db (if answer
                then WaydroidDBHandler.set_setting "last_backup_time"
                       (Py.VInt (w_clock w)) (w_db w)
                else w_db w)
         (with_trace (w_trace w ++ evs) w)).
Proof.
  destruct (backup_data_wp w) as (r & evs & f & Hs & b & -> & -> & _).
  exists b, evs. rewrite (steps_run _ _ _ _ _ Hs).
  destruct b; reflexivity.
Qed.

(** X8. When [backup_data] returns [True], both backup directories could
    be made, [tar] ended with status 0 for the data directory and for
    the desktop entries, each if it exists, and the container was asked
    to stop and then to start exactly when it was running at the
    start, and was not touched otherwise. *)
Theorem backup_data_true_means_archived (w : world) :
  (backup_data w).1 = Ok true →
  w_makedirs w (BACKUP_PATH (w_home w)) = None
  ∧ w_makedirs w (new_backup_dir w) = None
  ∧ (∃ running, (is_container_running w).1 = Ok running
       ∧ lifecycle_calls (effects_of backup_data w)
         = if running then [ERun cmd_stop; EPopen cmd_start] else [])
  ∧ (path_exists (w_data w) = true →
       ∃ out, w_exec w (backup_cmd_data (new_backup_dir w)) = Exited 0 out)
  ∧ (path_exists (w_apps w) = true →
       ∃ out, w_exec w (backup_cmd_apps (w_home w) (new_backup_dir w))
              = Exited 0 out).
Proof.
  intros Hok.
  destruct (backup_data_wp w) as (r & evs & f & Hs & b & -> & -> & Hb).
  rewrite (steps_result _ _ _ _ _ Hs) in Hok. injection Hok as ->.
  rewrite (effects_of_steps _ _ _ _ _ Hs). exact (Hb eq_refl).
Qed.

(** X9. [restore_data] never raises and, unlike [backup_data], records
    nothing: it returns a boolean, and all it has done is to make a
    directory, run commands and log, which the trace holds; the store
    and the clock are as before. *)
Theorem restore_data_only_runs_commands (backup_dir : option string)
    (w : world) :
  ∃ (answer : bool) (evs : list event),
    restore_data backup_dir w
    = (Ok answer, with_trace (w_trace w ++ evs) w).
Proof.
  destruct (restore_data_wp backup_dir w)
    as (r & evs & f & Hs & b & -> & -> & _).
  exists b, evs. rewrite (steps_run _ _ _ _ _ Hs).
  destruct w; reflexivity.
Qed.

(** X10. When [restore_data] returns [True], a backup directory was
    chosen that holds at least one of the two archives, [tar] ended with
    status 0 for each archive that exists (the parent of the desktop
    entries having been made first), and the container was asked to
    stop and then to start exactly when it was running at the start. *)
Theorem restore_data_true_means_extracted (backup_dir : option string)
    (w : world) :
  (restore_data backup_dir w).1 = Ok true →
  ∃ dir running,
    (choose_backup_dir backup_dir w).1 = Ok (Some dir)
    ∧ (w_exists w (data_archive dir) = true
       ∨ w_exists w (apps_archive dir) = true)
    ∧ (w_exists w (data_archive dir) = true →
         ∃ out, w_exec w (restore_cmd_data (data_archive dir)) = Exited 0 out)
    ∧ (w_exists w (apps_archive dir) = true →
         w_makedirs w (Py.dirname (WAYDROID_APPS_PATH (w_home w))) = None
         ∧ ∃ out, w_exec w (restore_cmd_apps (w_home w) (apps_archive dir))
                  = Exited 0 out)
    ∧ (is_container_running w).1 = Ok running
    ∧ lifecycle_calls (effects_of (restore_data backup_dir) w)
      = if running then [ERun cmd_stop; EPopen cmd_start] else [].
Proof.
  intros Hok.
  destruct (restore_data_wp backup_dir w)
    as (r & evs & f & Hs & b & -> & -> & Hb & _).
  rewrite (steps_result _ _ _ _ _ Hs) in Hok. injection Hok as ->.
  rewrite (effects_of_steps _ _ _ _ _ Hs). exact (Hb eq_refl).
Qed.

(** X11. When [restore_data] returns [False] it has not asked the runtime
    to start the container; and if the container was running and the
    chosen directory holds an archive, it has asked it to stop: the
    container is left stopped. *)
Theorem restore_data_false_leaves_container_stopped
    (backup_dir : option string) (w : world) (dir : string) :
  (restore_data backup_dir w).1 = Ok false →
  (choose_backup_dir backup_dir w).1 = Ok (Some dir) →
  w_exists w (data_archive dir) = true
  ∨ w_exists w (apps_archive dir) = true →
  (is_container_running w).1 = Ok true →
  lifecycle_calls (effects_of (restore_data backup_dir) w) = [ERun cmd_stop].
Proof.
  intros Hfalse Hdir Hex Hrunning.
  destruct (restore_data_wp backup_dir w)
    as (r & evs & f & Hs & b & -> & -> & _ & Hb).
  rewrite (steps_result _ _ _ _ _ Hs) in Hfalse. injection Hfalse as ->.
  rewrite (effects_of_steps _ _ _ _ _ Hs).
  exact (proj2 (Hb eq_refl) dir Hdir Hex Hrunning).
Qed.

End Outcomes.

(** ** The size of the data directory *)

Section Sizes.
Import WaydroidController.

(** X12. [_get_dir_size]: on a directory all of whose directories can be
    listed, the result is the sum of the sizes of the regular files of
    the tree, entries that are neither files nor directories counting
    for nothing; when some directory of the tree cannot be listed, the
    call raises [PermissionError] and no partial sum is returned; on a
    path that is not a directory it raises [NotADirectoryError]. *)
Theorem get_dir_size_sums_the_files :
  ∀ n : node,
    _get_dir_size n
    = match n with
      | Dir _ =>
          if listable n then inr (foldr Z.add 0 (file_sizes n))
          else inl PermissionError
      | _ => inl NotADirectoryError
      end.
Proof.
  fix IH 1. intros [size|[entries|]|]; try reflexivity.
  cbn [_get_dir_size listable file_sizes].
  induction entries as [|e rest IHrest]; [reflexivity|].
  rewrite IHrest. clear IHrest.
  pose proof (IH e) as He. destruct e as [size|sub|].
  - cbn [listable file_sizes app andb foldr].
    match goal with |- context [if ?b then _ else _] => destruct b end;
      reflexivity.
  - rewrite He.
    destruct (listable (Dir sub)); cbn [andb]; [|reflexivity].
    match goal with |- context [if ?b then inr _ else _] => destruct b end;
      [|reflexivity].
    rewrite foldr_app.
    f_equal. generalize (file_sizes (Dir sub)). intros l.
    induction l as [|x l IHl]; cbn [foldr]; [reflexivity|]. rewrite <- IHl.
    lia.
  - cbn [listable file_sizes app andb].
    match goal with |- context [if ?b then _ else _] => destruct b end;
      reflexivity.
Qed.

End Sizes.

(** ** The text of a desktop entry *)

Section Entries.
Import WaydroidController.

Lemma rewrite_lines_map_twice (v1 v2 : bool) (lines : list string) :
  List.map (λ line, if Py.startswith "NoDisplay=" line
                    then no_display_line v2 else line)
    (List.map (λ line, if Py.startswith "NoDisplay=" line
                       then no_display_line v1 else line) lines)
  = List.map (λ line, if Py.startswith "NoDisplay=" line
                      then no_display_line v2 else line) lines.
Proof.
  rewrite List.map_map. apply List.map_ext. intros x.
  destruct (Py.startswith "NoDisplay=" x) eqn:Hx.
  - rewrite no_display_line_starts. reflexivity.
  - rewrite Hx. reflexivity.
Qed.

Lemma rewrite_lines_last_wins (v1 v2 : bool) (lines : list string) :
  rewrite_lines v2 (rewrite_lines v1 lines) = rewrite_lines v2 lines.
Proof.
  unfold rewrite_lines at 1.
  rewrite (proj2 (rewrite_lines_flag v1 lines)).
  unfold rewrite_lines.
  destruct (existsb (Py.startswith "NoDisplay=") lines) eqn:Hfound.
  - apply rewrite_lines_map_twice.
  - rewrite List.map_app, rewrite_lines_map_twice. cbn [List.map].
    rewrite no_display_line_starts. reflexivity.
Qed.

Lemma flag_line_is_skipped (line : string) (locals : string * string) :
  Py.startswith "NoDisplay=" line = true → parse_line locals line = locals.
Proof.
  intros H. unfold parse_line, Py.startswith in *.
  destruct line as [|c1 line]; [discriminate H|].
  cbn [String.prefix] in H.
  destruct (ascii_dec "N" c1) as [<-|]; [|discriminate H].
  destruct line as [|c2 line]; [discriminate H|].
  cbn [String.prefix] in H.
  destruct (ascii_dec "o" c2) as [<-|]; [|discriminate H].
  reflexivity.
Qed.

Lemma parse_lines_map (visible : bool) (lines : list string)
    (locals : string * string) :
  foldl parse_line locals
    (List.map (λ line, if Py.startswith "NoDisplay=" line
                       then no_display_line visible else line) lines)
  = foldl parse_line locals lines.
Proof.
  revert locals. induction lines as [|x xs IH]; intros locals; [reflexivity|].
  cbn [List.map foldl]. rewrite IH. f_equal.
  destruct (Py.startswith "NoDisplay=" x) eqn:Hx; [|reflexivity].
  rewrite (flag_line_is_skipped _ _ Hx).
  apply flag_line_is_skipped, no_display_line_starts.
Qed.

Lemma parse_lines_rewrite_lines (visible : bool) (lines : list string) :
  parse_lines (rewrite_lines visible lines) = parse_lines lines.
Proof.
  unfold parse_lines, rewrite_lines.
  destruct (existsb (Py.startswith "NoDisplay=") lines).
  - apply parse_lines_map.
  - rewrite foldl_app, parse_lines_map. cbn [foldl].
    apply flag_line_is_skipped, no_display_line_starts.
Qed.

Lemma readlines_new_text (visible : bool) (text : string) :
  Forall (λ l, Py.is_line l = true) (Py.readlines text) →
  Py.readlines (new_text visible text)
  = rewrite_lines visible (Py.readlines text).
Proof.
  intros Hall. unfold new_text.
  apply readlines_writelines, rewrite_lines_complete, Hall.
Qed.

(** X13. Last write wins. For a desktop entry all of whose lines are
    complete, the text [set_app_visibility] writes for [v2] over the
    text it has written for [v1] is the text it writes for [v2] over
    the original: flags do not pile up, and setting the same visibility
    twice writes the same text twice. *)
Theorem visibility_rewrite_last_wins (v1 v2 : bool) (text : string) :
  Forall (λ l, Py.is_line l = true) (Py.readlines text) →
  new_text v2 (new_text v1 text) = new_text v2 text.
Proof.
  intros Hall. unfold new_text at 1.
  rewrite (readlines_new_text v1 text Hall), rewrite_lines_last_wins.
  reflexivity.
Qed.

(** X14. Hiding or showing an app does not change how it is listed: for a
    desktop entry all of whose lines are complete, [_parse_desktop_file]
    reads from the rewritten text the package name, the app name and the
    file name it read from the original. *)
Theorem visibility_rewrite_keeps_app_info (home file_name text : string)
    (visible : bool) :
  Forall (λ l, Py.is_line l = true) (Py.readlines text) →
  info_of home file_name (new_text visible text)
  = info_of home file_name text.
Proof.
  intros Hall. unfold info_of.
  rewrite (readlines_new_text visible text Hall), parse_lines_rewrite_lines.
  reflexivity.
Qed.

End Entries.

(** ** The directory of the desktop entries *)

Section Directory.
Import WaydroidController.


Lemma lookup_file_NoDup (files : list (string * text_file)) (n : string)
    (f : text_file) :
  NoDup files.*1 → (n, f) ∈ files → lookup_file n files = Some f.
Proof.
  induction files as [|[m g] files IH]; intros Hnd Hin.
  - apply elem_of_nil in Hin. destruct Hin.
  - cbn [fmap list_fmap fst] in Hnd. apply NoDup_cons in Hnd as [Hm Hnd].
    cbn [lookup_file]. apply elem_of_cons in Hin as [Heq|Hin].
    + injection Heq as -> ->. rewrite String.eqb_refl. reflexivity.
    + destruct (String.eqb_spec m n) as [->|Hne].
      * exfalso. apply Hm. apply list_elem_of_fmap. exists (n, f).
        split; [reflexivity|exact Hin].
      * exact (IH Hnd Hin).
Qed.

Lemma read_text_ok (n : string) (f : text_file)
    (files : list (string * text_file)) (w : world) :
  w_apps w = Some files → lookup_file n files = Some f →
  read_text n w
  = (if readable f then Ok (content f) else Raise PermissionError, w).
Proof.
  intros Ha Hl. unfold read_text, bind, get_world. rewrite Ha, Hl.
  destruct (readable f); reflexivity.
Qed.

Lemma find_desktop_files_run (package_name : string)
    (files l : list (string * text_file)) (w : world) :
  w_apps w = Some files →
  (∀ e, e ∈ l → lookup_file e.1 files = Some e.2) →
  (∀ e, e ∈ l → Py.endswith ".desktop" e.1 = true → readable e.2 = true) →
  find_desktop_files package_name l.*1 w
  = (Ok (List.filter (references package_name) l).*1, w).
Proof.
  intros Ha. induction l as [|e l IH]; intros Hl Hr; [reflexivity|].
  cbn [fmap list_fmap find_desktop_files List.filter].
  assert (IH' : find_desktop_files package_name l.*1 w
                = (Ok (List.filter (references package_name) l).*1, w)).
  { apply IH; intros e' He'; [apply Hl|apply Hr]; right; exact He'. }
  unfold references at 1.
  destruct (Py.endswith ".desktop" e.1) eqn:Hend; cbn [andb].
  - unfold bind at 1. unfold bind at 1.
    rewrite (read_text_ok _ _ _ _ Ha (Hl e (list_elem_of_here _ _))).
    rewrite (Hr e (list_elem_of_here _ _) Hend).
    unfold ret at 1. unfold bind at 1.
    change (list_fmap _ _ fst l) with (l.*1). rewrite IH'.
    unfold ret. destruct (Py.contains package_name (content e.2)); reflexivity.
  - unfold bind at 1. unfold ret at 1. unfold bind at 1.
    change (list_fmap _ _ fst l) with (l.*1). rewrite IH'. reflexivity.
Qed.

Lemma lookup_file_map_other (g : string * text_file → string * text_file)
    (files : list (string * text_file)) (n : string) :
  (∀ e, (g e).1 = e.1) → (∀ e, e.1 = n → g e = e) →
  lookup_file n (List.map g files) = lookup_file n files.
Proof.
  intros Hname Hsame. induction files as [|[m f] files IH]; [reflexivity|].
  cbn [List.map lookup_file].
  destruct (g (m, f)) as [m' f'] eqn:Hg.
  pose proof (Hname (m, f)) as Hm. rewrite Hg in Hm. cbn [fst] in Hm. subst m'.
  destruct (String.eqb_spec m n) as [->|Hne]; [|exact IH].
  rewrite (Hsame (n, f) eq_refl) in Hg. injection Hg as ->. reflexivity.
Qed.

Lemma update_desktop_file_run (visible : bool) (n : string) (f : text_file)
    (files : list (string * text_file)) (w : world) :
  w_apps w = Some files → lookup_file n files = Some f →
  readable f = true → writable f = true →
  update_desktop_file visible n w
  = (Ok tt,
     with_apps
       (Some (List.map
                (λ e : string * text_file,
                   if String.eqb e.1 n
                   then (e.1, TextFile (new_text visible (content f))
                                (readable e.2) (writable e.2))
                   else e) files)) w).
Proof.
  intros Ha Hl Hr Hw. unfold update_desktop_file. unfold bind at 1.
  rewrite (read_text_ok _ _ _ _ Ha Hl), Hr.
  unfold write_text, bind, get_world. rewrite Ha, Hl, Hw.
  unfold store_file. rewrite Hl. reflexivity.
Qed.

Lemma with_apps_same (files : list (string * text_file)) (w : world) :
  w_apps w = Some files → with_apps (Some files) w = w.
Proof. intros H. destruct w. cbn in H. subst. reflexivity. Qed.

Lemma for_each_update_run (visible : bool) (names : list string) :
  ∀ (files : list (string * text_file)) (w : world),
    w_apps w = Some files → NoDup files.*1 → NoDup names →
    (∀ n, n ∈ names →
          ∃ f, lookup_file n files = Some f
               ∧ readable f = true ∧ writable f = true) →
    for_each names (update_desktop_file visible) w
    = (Ok tt,
       with_apps
         (Some (List.map
                  (λ e : string * text_file,
                     if bool_decide (e.1 ∈ names)
                     then (e.1, TextFile (new_text visible (content e.2))
                                  (readable e.2) (writable e.2))
                     else e) files)) w).
Proof.
  induction names as [|n names IH]; intros files w Ha Hnd Hnames Hall.
  - cbn [for_each]. unfold ret. f_equal.
    rewrite (List.map_ext_in _ (λ e, e)), List.map_id.
    + symmetry. exact (with_apps_same _ _ Ha).
    + intros e _. rewrite bool_decide_eq_false_2; [reflexivity|].
      apply not_elem_of_nil.
  - apply NoDup_cons in Hnames as [Hn Hnames].
    destruct (Hall n (list_elem_of_here _ _)) as (f & Hl & Hr & Hw).
    cbn [for_each]. unfold bind.
    rewrite (update_desktop_file_run visible n f files w Ha Hl Hr Hw).
    set (g := λ e : string * text_file,
                if String.eqb e.1 n
                then (e.1, TextFile (new_text visible (content f))
                             (readable e.2) (writable e.2))
                else e).
    assert (Hg1 : ∀ e, (g e).1 = e.1).
    { intros e. unfold g. destruct (String.eqb e.1 n); reflexivity. }
    rewrite (IH (List.map g files)).
    + f_equal. unfold with_apps at 1 2.
      cbn [w_db w_clock w_strftime w_home w_exec w_processes w_cpu_count
           w_data w_apps w_listdir_backups w_isdir w_getmtime w_exists
           w_makedirs w_trace].
      unfold with_apps. do 2 f_equal. rewrite List.map_map.
      apply List.map_ext_in. intros e He. apply list_elem_of_In in He.
      rewrite Hg1. unfold g.
      destruct (String.eqb_spec e.1 n) as [Heq|Hne].
      * rewrite (bool_decide_eq_true_2 (e.1 ∈ n :: names))
          by (rewrite Heq; left).
        rewrite bool_decide_eq_false_2 by (rewrite Heq; exact Hn).
        destruct e as [m h]. cbn [fst snd] in *. subst m.
        rewrite (lookup_file_NoDup _ _ _ Hnd He) in Hl.
        injection Hl as ->. reflexivity.
      * destruct (decide (e.1 ∈ names)) as [Hin|Hout].
        -- rewrite !bool_decide_eq_true_2;
             [reflexivity|right; exact Hin|exact Hin].
        -- rewrite !bool_decide_eq_false_2; [reflexivity| |exact Hout].
           intros Hc. apply elem_of_cons in Hc as [Hc|Hc];
             [exact (Hne Hc)|exact (Hout Hc)].
    + reflexivity.
    + replace ((List.map g files).*1) with (files.*1); [exact Hnd|].
      clear -Hg1. induction files as [|e files IH]; [reflexivity|].
      cbn [List.map fmap list_fmap]. rewrite Hg1. f_equal. exact IH.
    + exact Hnames.
    + intros m Hm. destruct (Hall m (list_elem_of_further _ _ _ Hm))
        as (h & Hlm & Hrm & Hwm).
      exists h. split; [|split; assumption].
      rewrite <- Hlm. apply lookup_file_map_other; [exact Hg1|].
      intros e He. unfold g.
      destruct (String.eqb_spec e.1 n) as [Heq|]; [|reflexivity].
      exfalso. apply Hn. rewrite <- Heq, He. exact Hm.
Qed.


Lemma same_name_same_entry (files : list (string * text_file))
    (e e' : string * text_file) :
  NoDup files.*1 → e ∈ files → e' ∈ files → e.1 = e'.1 → e = e'.
Proof.
  intros Hnd He He' Hname. destruct e as [n f], e' as [n' f'].
  cbn [fst] in Hname. subst n'.
  pose proof (lookup_file_NoDup _ _ _ Hnd He) as H1.
  pose proof (lookup_file_NoDup _ _ _ Hnd He') as H2.
  congruence.
Qed.

Lemma set_app_visibility_run (package_name app_name : string)
    (visible : bool) (w : world) (files : list (string * text_file)) :
  w_apps w = Some files → NoDup files.*1 →
  (∀ e, e ∈ files → Py.endswith ".desktop" e.1 = true → readable e.2 = true) →
  (∀ e, e ∈ files → references package_name e = true → writable e.2 = true) →
  set_app_visibility package_name app_name visible w
  = (Ok true,
     with_apps (Some (rewritten package_name visible <$> files))
       (with_db (WaydroidDBHandler.set_app_visibility package_name app_name
                   visible (w_db w)) w)).
Proof.
  intros Ha Hnd Hread Hwrite.
  set (w1 := with_db (WaydroidDBHandler.set_app_visibility package_name
                        app_name visible (w_db w)) w).
  assert (Ha1 : w_apps w1 = Some files) by exact Ha.
  assert (Hlook : ∀ e, e ∈ files → lookup_file e.1 files = Some e.2).
  { intros [n f] He. exact (lookup_file_NoDup _ _ _ Hnd He). }
  set (names := (List.filter (references package_name) files).*1).
  assert (Hin : ∀ e, e ∈ files →
                     (e.1 ∈ names ↔ references package_name e = true)).
  { intros e He. unfold names. split.
    - intros Hn. apply list_elem_of_fmap in Hn as (e' & Hname & He').
      apply list_elem_of_In, List.filter_In in He' as [He' Hrefs].
      apply list_elem_of_In in He'.
      rewrite (same_name_same_entry _ _ _ Hnd He He' Hname). exact Hrefs.
    - intros Hrefs. apply list_elem_of_fmap. exists e. split; [reflexivity|].
      apply list_elem_of_In, List.filter_In. split; [|exact Hrefs].
      apply list_elem_of_In. exact He. }
  unfold set_app_visibility, try_except.
  unfold bind at 1. unfold db_exec at 1. fold w1.
  unfold bind at 1. unfold get_world at 1. rewrite Ha1.
  unfold bind at 1.
  rewrite (find_desktop_files_run package_name files files w1 Ha1 Hlook Hread).
  fold names. unfold bind at 1.
  rewrite (for_each_update_run visible names files w1 Ha1 Hnd).
  - unfold ret. do 3 f_equal.
    change (rewritten package_name visible <$> files)
      with (List.map (rewritten package_name visible) files).
    apply List.map_ext_in. intros e He. apply list_elem_of_In in He.
    unfold rewritten.
    destruct (references package_name e) eqn:Hrefs.
    + rewrite bool_decide_eq_true_2; [reflexivity|].
      apply (Hin e He). exact Hrefs.
    + rewrite bool_decide_eq_false_2; [reflexivity|].
      intros Hn. apply (Hin e He) in Hn. congruence.
  - unfold names. eapply sublist_NoDup; [exact Hnd|].
    apply fmap_sublist. clear. induction files as [|e files IH];
      [constructor|].
    cbn [List.filter]. destruct (references package_name e);
      [apply sublist_skip|apply sublist_cons]; exact IH.
  - intros n Hn. unfold names in Hn.
    apply list_elem_of_fmap in Hn as (e & -> & He).
    apply list_elem_of_In, List.filter_In in He as [He Hrefs].
    apply list_elem_of_In in He.
    exists e.2. split; [exact (Hlook e He)|]. split.
    + apply (Hread e He). unfold references in Hrefs.
      apply andb_true_iff in Hrefs as [Hend _]. exact Hend.
    + exact (Hwrite e He Hrefs).
Qed.





Lemma steps_parse_desktop_file (n : string) (f : text_file)
    (files : list (string * text_file)) (w : world) :
  w_apps w = Some files → lookup_file n files = Some f →
  steps (_parse_desktop_file n) w
    (Ok (if readable f then info_of (w_home w) n (content f) else None))
    (if readable f then []
     else [ELogError ("Failed to parse desktop file "
                      +:+ Py.path_join (WAYDROID_APPS_PATH (w_home w)) n
                      +:+ ": " +:+ show_exn PermissionError)]) id.
Proof.
  intros Ha Hl t d. unfold _parse_desktop_file, try_except. unfold bind at 1.
  rewrite (read_text_ok n f files (with_db d (with_trace t w)) Ha Hl).
  destruct (readable f).
  - unfold bind, get_world, ret. rewrite app_nil_r. reflexivity.
  - reflexivity.
Qed.

Lemma steps_installed_apps_loop (files l : list (string * text_file))
    (w : world) :
  w_apps w = Some files →
  (∀ e, e ∈ l → lookup_file e.1 files = Some e.2) →
  ∃ evs,
    steps (installed_apps_loop l.*1) w (Ok (omap (listed (w_home w)) l)) evs id
    ∧ Forall (λ ev, ∃ msg, ev = ELogError msg) evs
    ∧ length evs
      = length (List.filter
                  (λ e : string * text_file,
                     Py.endswith ".desktop" e.1 && negb (readable e.2)) l).
Proof.
  intros Ha. induction l as [|e l IH]; intros Hl.
  - exists []. split; [apply steps_ret|]. split; [constructor|reflexivity].
  - destruct IH as (evs & Hs & Hlog & Hlen).
    { intros e' He'. apply Hl. right. exact He'. }
    pose proof (steps_parse_desktop_file e.1 e.2 files w Ha
                  (Hl e (list_elem_of_here _ _))) as Hp.
    cbn [fmap list_fmap installed_apps_loop omap list_omap List.filter].
    change (list_fmap _ _ fst l) with (l.*1).
    change (list_omap _ _ (listed (w_home w)) l)
      with (omap (listed (w_home w)) l).
    unfold listed at 1.
    destruct (Py.endswith ".desktop" e.1) eqn:Hend; cbn [andb].
    + destruct (readable e.2) eqn:Hr; cbn [negb].
      * exists evs. split; [|split; assumption].
        intros t d. unfold bind at 1. rewrite Hp. unfold bind at 1.
        rewrite app_nil_r, Hs. unfold ret.
        destruct (info_of (w_home w) e.1 (content e.2)); reflexivity.
      * eexists (_ :: evs). split; [|split].
        -- intros t d. unfold bind at 1. rewrite Hp. unfold bind at 1.
           rewrite Hs. unfold ret. rewrite <- app_assoc. reflexivity.
        -- constructor; [eexists; reflexivity|exact Hlog].
        -- cbn [length]. rewrite Hlen. reflexivity.
    + exists evs. split; [|split; assumption].
      intros t d. unfold bind at 1. unfold ret at 1. unfold bind at 1.
      rewrite Hs. reflexivity.
Qed.

Lemma get_installed_apps_run (w : world) (files : list (string * text_file)) :
  w_apps w = Some files → NoDup files.*1 →
  ∃ evs,
    get_installed_apps w
    = (Ok (omap (listed (w_home w)) files), with_trace (w_trace w ++ evs) w)
    ∧ Forall (λ ev, ∃ msg, ev = ELogError msg) evs
    ∧ length evs
      = length (List.filter
                  (λ e : string * text_file,
                     Py.endswith ".desktop" e.1 && negb (readable e.2))
                  files).
Proof.
  intros Ha Hnd.
  destruct (steps_installed_apps_loop files files w Ha)
    as (evs & Hs & Hlog & Hlen).
  { intros [n f] He. exact (lookup_file_NoDup _ _ _ Hnd He). }
  exists evs. split; [|split; assumption].
  unfold get_installed_apps, try_except, bind, get_world. rewrite Ha.
  rewrite (steps_run _ _ _ _ _ Hs). reflexivity.
Qed.

(** X15. [set_app_visibility] on a directory whose file names are
    distinct, whose [.desktop] files can all be read and in which the
    files that mention the package can be written: it returns [True];
    the store holds the row of the package with the new flag; every
    [.desktop] file that mentions the package holds the rewritten text,
    with the permissions it had, and every other file is as before;
    nothing else changes, the trace included. And in a rewritten file
    whose lines were complete, the lines that carry the flag are all
    the new flag line, and there is one. *)
Theorem set_app_visibility_rewrites_the_entries
    (package_name app_name : string) (visible : bool) (w : world)
    (files : list (string * text_file)) :
  w_apps w = Some files → NoDup files.*1 →
  (∀ e, e ∈ files → Py.endswith ".desktop" e.1 = true → readable e.2 = true) →
  (∀ e, e ∈ files → references package_name e = true → writable e.2 = true) →
  set_app_visibility package_name app_name visible w
  = (Ok true,
     with_apps (Some (rewritten package_name visible <$> files))
       (with_db (WaydroidDBHandler.set_app_visibility package_name app_name
                   visible (w_db w)) w))
  ∧ app_visibility
      (w_db (set_app_visibility package_name app_name visible w).2)
    !! package_name
    = Some (app_name, if visible then 1 else 0)
  ∧ (∀ e, e ∈ files → references package_name e = true →
          Forall (λ l, Py.is_line l = true) (Py.readlines (content e.2)) →
          let text' := content (rewritten package_name visible e).2 in
          (∀ l, l ∈ Py.readlines text' →
                Py.startswith "NoDisplay=" l = true →
                l = no_display_line visible)
          ∧ existsb (Py.startswith "NoDisplay=") (Py.readlines text') = true).
Proof.
  intros Ha Hnd Hread Hwrite.
  pose proof (set_app_visibility_run package_name app_name visible w files
                Ha Hnd Hread Hwrite) as Hrun.
  split; [exact Hrun|]. split.
  - rewrite Hrun. cbn [snd w_db with_apps with_db].
    unfold WaydroidDBHandler.set_app_visibility. cbn [app_visibility].
    apply lookup_insert_eq.
  - intros e He Hrefs Hlines text'. unfold text', rewritten.
    rewrite Hrefs. cbn [snd content].
    exact (rewritten_text_carries_flag visible (content e.2) Hlines).
Qed.

(** X16. [get_installed_apps] never raises. When the directory of the
    desktop entries does not exist, it returns the empty list and does
    nothing. When it exists, with distinct file names, it returns, in
    the order of the directory, the apps of the [.desktop] files it can
    read and in which it finds both a name and a package; files without
    that suffix are skipped; of the world only the trace changes, by one
    log line for every [.desktop] file it cannot read. *)
Theorem get_installed_apps_lists_the_entries (w : world) :
  match w_apps w with
  | None => get_installed_apps w = (Ok [], w)
  | Some files =>
      NoDup files.*1 →
      ∃ evs,
        get_installed_apps w
        = (Ok (omap (listed (w_home w)) files),
           with_trace (w_trace w ++ evs) w)
        ∧ Forall (λ ev, ∃ msg, ev = ELogError msg) evs
        ∧ length evs
          = length (List.filter
                      (λ e : string * text_file,
                         Py.endswith ".desktop" e.1 && negb (readable e.2))
                      files)
  end.
Proof.
  destruct (w_apps w) as [files|] eqn:Ha.
  - intros Hnd. exact (get_installed_apps_run w files Ha Hnd).
  - unfold get_installed_apps, try_except, bind, get_world. rewrite Ha.
    reflexivity.
Qed.

(** X17. Hiding or showing an app does not change the list of the
    installed apps. On a directory whose file names are distinct, whose
    [.desktop] files can all be read and in which the files that mention
    the package can be written and consist of complete lines,
    [get_installed_apps] returns after [set_app_visibility] what it
    returned before. *)
Theorem hiding_an_app_keeps_the_listing
    (package_name app_name : string) (visible : bool) (w : world)
    (files : list (string * text_file)) :
  w_apps w = Some files → NoDup files.*1 →
  (∀ e, e ∈ files → Py.endswith ".desktop" e.1 = true → readable e.2 = true) →
  (∀ e, e ∈ files → references package_name e = true →
        writable e.2 = true
        ∧ Forall (λ l, Py.is_line l = true) (Py.readlines (content e.2))) →
  (get_installed_apps
     (set_app_visibility package_name app_name visible w).2).1
  = (get_installed_apps w).1.
Proof.
  intros Ha Hnd Hread Hrefs.
  rewrite (set_app_visibility_run package_name app_name visible w files
             Ha Hnd Hread (λ e He Hr, proj1 (Hrefs e He Hr))).
  cbn [snd].
  set (w' := with_apps _ _).
  assert (Hnames : (rewritten package_name visible <$> files).*1 = files.*1).
  { rewrite <- list_fmap_compose. apply list_fmap_ext. intros i e _.
    unfold compose, rewritten. destruct (references package_name e);
      reflexivity. }
  destruct (get_installed_apps_run w' (rewritten package_name visible <$> files)
              eq_refl) as (evs' & -> & _); [rewrite Hnames; exact Hnd|].
  destruct (get_installed_apps_run w files Ha Hnd) as (evs & -> & _).
  cbn [fst]. f_equal. change (w_home w') with (w_home w).
  assert (Hpt : ∀ e, e ∈ files →
            listed (w_home w) (rewritten package_name visible e)
            = listed (w_home w) e).
  { intros e He. unfold rewritten.
    destruct (references package_name e) eqn:Hr; [|reflexivity].
    unfold listed. cbn [fst snd readable content].
    destruct (Py.endswith ".desktop" e.1 && readable e.2); [|reflexivity].
    unfold info_of.
    rewrite (readlines_new_text visible _ (proj2 (Hrefs e He Hr))).
    rewrite parse_lines_rewrite_lines. reflexivity. }
  clear -Hpt. induction files as [|e files IH]; [reflexivity|].
  cbn [fmap list_fmap omap list_omap].
  rewrite (Hpt e (list_elem_of_here _ _)).
  change (list_omap _ _ (listed (w_home w))
            (list_fmap _ _ (rewritten package_name visible) files))
    with (omap (listed (w_home w)) (rewritten package_name visible <$> files)).
  rewrite IH; [reflexivity|].
  intros e' He'. apply Hpt. right. exact He'.
Qed.

End Directory.

(** ** The commands that are waited for *)

Section Awaited.
Import WaydroidController.

Lemma run_result_exit_status (o : outcome) :
  match run_result o with Ok _ => true | Raise _ => false end = true
  ↔ ∃ out, o = Exited 0 out.
Proof.
  destruct o as [| |[|p|p] out]; cbn [run_result]; split;
    try discriminate; try (intros [o Ho]; discriminate Ho).
  - intros _. exists out. reflexivity.
  - reflexivity.
Qed.

(** X18. [stop_container], [freeze_container] and [unfreeze_container]
    never raise, change nothing but the trace, and answer [True] exactly
    when their command ended with status 0: a missing executable, a
    refusal to execute it and every other status give [False]. *)
Theorem awaited_operations_answer_the_exit_status (w : world) :
  let answers (op : M bool) (cmd : argv) :=
    ∃ (answer : bool) (evs : list event),
      op w = (Ok answer, with_trace (w_trace w ++ evs) w)
      ∧ (answer = true ↔ ∃ out, w_exec w cmd = Exited 0 out) in
  answers stop_container cmd_stop
  ∧ answers freeze_container cmd_freeze
  ∧ answers unfreeze_container cmd_unfreeze.
Proof.
  intros answers.
  assert (H : ∀ cmd msg,
            answers (try_except (subprocess.run_check cmd ;; ret true)
                       (λ e, log_error (msg +:+ show_exn e) ;; ret false))
                    cmd).
  { intros cmd msg. unfold answers. eexists _, _. split.
    - rewrite (steps_run _ _ _ _ _ (steps_awaited cmd msg w)). reflexivity.
    - apply run_result_exit_status. }
  split; [|split]; apply H.
Qed.

End Awaited.

(** ** The conditions above can be met *)

Section ExtraWitnesses.
Import WaydroidDBHandler WaydroidController WaydroidDBusService.

Lemma log_resource_usage_is_a_queue_witness :
  resource_logs
    (log_resource_usage 7 0 0 0
       (Database ∅ ∅ [(1, Sample 5 0 0 0); (2, Sample 6 0 0 0)]))
  = [(1, Sample 5 0 0 0); (2, Sample 6 0 0 0); (3, Sample 7 0 0 0)].
Proof.
  assert (Hc : chronological
                 (resource_logs
                    (Database ∅ ∅ [(1, Sample 5 0 0 0); (2, Sample 6 0 0 0)]))).
  { unfold chronological. cbn [resource_logs].
    repeat constructor; cbn; lia. }
  assert (Hnew : ∀ r, r ∈ resource_logs
                        (Database ∅ ∅ [(1, Sample 5 0 0 0); (2, Sample 6 0 0 0)])
                      → timestamp r.2 < 7).
  { intros r Hr. cbn [resource_logs] in Hr.
    apply elem_of_cons in Hr as [->|Hr]; [cbn; lia|].
    apply list_elem_of_singleton in Hr. subst r. cbn. lia. }
  exact (proj1 (log_resource_usage_is_a_queue 7 0 0 0 _ Hc Hnew)).
Defined.

Lemma successive_samples_keep_the_latest_100_witness :
  (resource_logs
     (log_all [(1, 0%Q, 0%Q, 0%Q); (2, 1%Q, 0%Q, 0%Q)] Scenario.db0)).*2
  = [Sample 1 0 0 0; Sample 2 1 0 0].
Proof.
  refine (proj1 (successive_samples_keep_the_latest_100
           [(1, 0%Q, 0%Q, 0%Q); (2, 1%Q, 0%Q, 0%Q)] Scenario.db0 _ _)).
  - reflexivity.
  - repeat constructor; cbn; lia.
Defined.


Lemma backup_data_true_means_archived_witness :
  (backup_data Scenario.running).1 = Ok true
  ∧ ∃ running,
      (is_container_running Scenario.running).1 = Ok running
      ∧ lifecycle_calls (effects_of backup_data Scenario.running)
        = if running then [ERun cmd_stop; EPopen cmd_start] else [].
Proof.
  assert (H : (backup_data Scenario.running).1 = Ok true)
    by (vm_compute; reflexivity).
  split; [exact H|].
  exact (proj1 (proj2 (proj2
           (backup_data_true_means_archived Scenario.running H)))).
Defined.

Lemma restore_data_true_means_extracted_witness :
  (restore_data (Some Restoring.a_backup) Restoring.archives_kept).1 = Ok true
  ∧ ∃ dir running,
      (choose_backup_dir (Some Restoring.a_backup) Restoring.archives_kept).1
      = Ok (Some dir)
      ∧ (w_exists Restoring.archives_kept (data_archive dir) = true
         ∨ w_exists Restoring.archives_kept (apps_archive dir) = true)
      ∧ (w_exists Restoring.archives_kept (data_archive dir) = true →
           ∃ out, w_exec Restoring.archives_kept
                    (restore_cmd_data (data_archive dir)) = Exited 0 out)
      ∧ (w_exists Restoring.archives_kept (apps_archive dir) = true →
           w_makedirs Restoring.archives_kept
             (Py.dirname (WAYDROID_APPS_PATH (w_home Restoring.archives_kept)))
           = None
           ∧ ∃ out, w_exec Restoring.archives_kept
                      (restore_cmd_apps (w_home Restoring.archives_kept)
                         (apps_archive dir))
                    = Exited 0 out)
      ∧ (is_container_running Restoring.archives_kept).1 = Ok running
      ∧ lifecycle_calls
          (effects_of (restore_data (Some Restoring.a_backup))
             Restoring.archives_kept)
        = if running then [ERun cmd_stop; EPopen cmd_start] else [].
Proof.
  assert (H : (restore_data (Some Restoring.a_backup)
                 Restoring.archives_kept).1 = Ok true)
    by (vm_compute; reflexivity).
  split; [exact H|].
  exact (restore_data_true_means_extracted (Some Restoring.a_backup)
           Restoring.archives_kept H).
Defined.

Lemma restore_data_false_leaves_container_stopped_witness :
  (restore_data (Some Restoring.a_backup) Restoring.extraction_fails).1
  = Ok false
  ∧ lifecycle_calls
      (effects_of (restore_data (Some Restoring.a_backup))
         Restoring.extraction_fails)
    = [ERun cmd_stop].
Proof.
  assert (H : (restore_data (Some Restoring.a_backup)
                 Restoring.extraction_fails).1 = Ok false)
    by (vm_compute; reflexivity).
  split; [exact H|].
  apply (restore_data_false_leaves_container_stopped
           (Some Restoring.a_backup) Restoring.extraction_fails
           Restoring.a_backup H).
  - reflexivity.
  - left. reflexivity.
  - vm_compute. reflexivity.
Defined.

Lemma visibility_rewrite_last_wins_witness :
  Forall (λ l, Py.is_line l = true) (Py.readlines Restoring.complete_entry)
  ∧ new_text true (new_text false Restoring.complete_entry)
    = new_text true Restoring.complete_entry.
Proof.
  assert (H : Forall (λ l, Py.is_line l = true)
                (Py.readlines Restoring.complete_entry))
    by (vm_compute; repeat constructor).
  split; [exact H|].
  exact (visibility_rewrite_last_wins false true Restoring.complete_entry H).
Defined.

Lemma visibility_rewrite_keeps_app_info_witness :
  info_of "/home/user" "com.foo.desktop"
    (new_text false Restoring.complete_entry)
  = Some (AppInfo "com.foo" "Foo" "com.foo.desktop").
Proof.
  rewrite (visibility_rewrite_keeps_app_info "/home/user" "com.foo.desktop"
             Restoring.complete_entry false).
  - vm_compute. reflexivity.
  - vm_compute. repeat constructor.
Defined.

Lemma tidy_entries :
  NoDup (take 2 Restoring.entries).*1
  ∧ (∀ e, e ∈ take 2 Restoring.entries →
          Py.endswith ".desktop" e.1 = true → readable e.2 = true)
  ∧ (∀ e, e ∈ take 2 Restoring.entries → references "com.foo" e = true →
          writable e.2 = true
          ∧ Forall (λ l, Py.is_line l = true) (Py.readlines (content e.2))).
Proof.
  split; [|split].
  - apply (bool_decide_unpack _). vm_compute. exact I.
  - intros e He _. cbn in He.
    apply elem_of_cons in He as [->|He]; [reflexivity|].
    apply list_elem_of_singleton in He. subst e. reflexivity.
  - intros e He Hr. cbn in He.
    apply elem_of_cons in He as [->|He].
    + split; [reflexivity|]. vm_compute. repeat constructor.
    + apply list_elem_of_singleton in He. subst e. vm_compute in Hr.
      discriminate Hr.
Qed.

Lemma set_app_visibility_rewrites_the_entries_witness :
  set_app_visibility "com.foo" "Foo" false Restoring.tidy
  = (Ok true,
     with_apps (Some (rewritten "com.foo" false <$> take 2 Restoring.entries))
       (with_db (WaydroidDBHandler.set_app_visibility "com.foo" "Foo" false
                   (w_db Restoring.tidy)) Restoring.tidy))
  ∧ existsb (Py.startswith "NoDisplay=")
      (Py.readlines
         (content (rewritten "com.foo" false
                     ("com.foo.desktop",
                      TextFile Restoring.complete_entry true true)).2))
    = true.
Proof.
  destruct (set_app_visibility_rewrites_the_entries "com.foo" "Foo" false
              Restoring.tidy (take 2 Restoring.entries) eq_refl
              (proj1 tidy_entries) (proj1 (proj2 tidy_entries)))
    as (Hrun & _ & Hflag).
  - intros e He Hr. exact (proj1 (proj2 (proj2 tidy_entries) e He Hr)).
  - split; [exact Hrun|].
    refine (proj2 (Hflag ("com.foo.desktop",
                          TextFile Restoring.complete_entry true true)
                     _ _ _)).
    + left.
    + vm_compute. reflexivity.
    + vm_compute. repeat constructor.
Defined.

Lemma get_installed_apps_lists_the_entries_witness :
  ∃ evs,
    get_installed_apps Restoring.untidy
    = (Ok [AppInfo "com.foo" "Foo" "com.foo.desktop"],
       with_trace (w_trace Restoring.untidy ++ evs) Restoring.untidy)
    ∧ length evs = 1%nat.
Proof.
  pose proof (get_installed_apps_lists_the_entries Restoring.untidy) as H.
  change (w_apps Restoring.untidy) with (Some Restoring.entries) in H.
  destruct H as (evs & Hrun & _ & Hlen).
  - apply (bool_decide_unpack _). vm_compute. exact I.
  - exists evs. split; [exact Hrun|exact Hlen].
Defined.

Lemma hiding_an_app_keeps_the_listing_witness :
  (get_installed_apps
     (set_app_visibility "com.foo" "Foo" false Restoring.tidy).2).1
  = (get_installed_apps Restoring.tidy).1.
Proof.
  exact (hiding_an_app_keeps_the_listing "com.foo" "Foo" false Restoring.tidy
           (take 2 Restoring.entries) eq_refl (proj1 tidy_entries)
           (proj1 (proj2 tidy_entries)) (proj2 (proj2 tidy_entries))).
Defined.

End ExtraWitnesses.

(** * Checks of the string helpers *)

Example ex_dirname :
  Py.dirname "/var/lib/waydroid" = "/var/lib"
  ∧ Py.basename "/var/lib/waydroid" = "waydroid"
  ∧ Py.dirname "/x" = "/"
  ∧ Py.dirname "x" = ""
  ∧ Py.dirname "//x" = "//"
  ∧ Py.dirname "/a//b" = "/a"
  ∧ Py.basename "a/" = "".
Proof. vm_compute. repeat split. Qed.

Example ex_readlines :
  Py.readlines ("ab" +:+ Py.nl +:+ Py.nl +:+ "cd")
  = ["ab" +:+ Py.nl; Py.nl; "cd"].
Proof. vm_compute. reflexivity. Qed.

Example ex_path_join :
  Py.path_join "/a" "b" = "/a/b"
  ∧ Py.path_join "/a/" "b" = "/a/b"
  ∧ Py.path_join "/a" "/b" = "/b"
  ∧ Py.path_join "" "b" = "b".
Proof. vm_compute. repeat split. Qed.

Example ex_strings :
  Py.endswith ".desktop" "a.desktop" = true
  ∧ Py.endswith ".desktop" "desktop" = false
  ∧ Py.contains "RUNNING" "Session: RUNNING" = true
  ∧ Py.contains "" "" = true
  ∧ Py.lower "WayDroid" = "waydroid".
Proof. vm_compute. repeat split. Qed.
